(** * empowHER backend: authentication, membership and toggle operations

    A shallow embedding of the request handlers of the empowHER Node.js
    backend (Express + Mongoose) and the properties its specification
    states about them.

    Modelling conventions.
    - A handler [async (req, res) => ...] is a function from the database
      state and the request to the new database state and the response it
      sends; a middleware returns the (possibly extended) request together
      with either "continue" ([next()]) or the response that ends the
      request.
    - A JavaScript string is modelled by a [string] whose characters are
      its code units, taken to be below 256.
    - A stored ObjectId is modelled by its string form, the 24 hexadecimal
      digits in lower case that [ObjectId.toString()] and the [id] virtual
      produce.  A request may spell an identifier with upper-case digits:
      where Mongoose casts the string ([findById], [findByIdAndUpdate],
      pushing to an array of ObjectIds) the result is the ObjectId [oid s],
      while JavaScript's own comparisons ([a.toString() === s], and
      [array.includes(s)], which compares with [==]) see the string as it
      was sent.
    - Library code (jsonwebtoken, bcryptjs, the schema validators run by
      [Model.create] and [save]) is taken as a Section variable.
    - Database writes are assumed to succeed; a handler's [catch] branch is
      reached only through the failures that are modelled (cast errors of
      malformed identifiers, validation errors, exceptions thrown by the
      token verifier or the password check, property reads on [null] or
      on a value of another type). *)

From Stdlib Require Import ZArith Ascii.
From stdpp Require Import gmap strings list pretty.

Local Open Scope string_scope.
#[local] Set Warnings "-register-all".

(** ** JSON values (response bodies) *)

Inductive json : Type :=
  | JNull
  | JBool (b : bool)
  | JNum (z : Z)
  | JStr (s : string)
  | JArr (items : list json)
  | JObj (fields : list (string * json)).

Module Json.

(** [obj.key] on a JSON object; [None] is JavaScript's [undefined]. *)
Fixpoint assoc (k : string) (fields : list (string * json)) : option json :=
  match fields with
  | [] => None
  | (k', v) :: rest => if String.eqb k k' then Some v else assoc k rest
  end.

Definition get (k : string) (j : json) : option json :=
  match j with
  | JObj fields => assoc k fields
  | _ => None
  end.

Definition keys (j : json) : list string :=
  match j with
  | JObj fields => fields.*1
  | _ => []
  end.

Definition has_key (k : string) (j : json) : bool :=
  existsb (String.eqb k) (keys j).

Definition strs (l : list string) : json := JArr (JStr <$> l).

(** A field that is only serialised when it is defined. *)
Definition opt_field (k : string) (v : option json) : list (string * json) :=
  match v with
  | Some j => [(k, j)]
  | None => []
  end.

End Json.

(** ** Identifiers *)

Definition is_hex (a : ascii) : bool :=
  let n := nat_of_ascii a in
  (((48 <=? n) && (n <=? 57)) || ((65 <=? n) && (n <=? 70))
   || ((97 <=? n) && (n <=? 102)))%nat.

Fixpoint all_chars (f : ascii -> bool) (s : string) : bool :=
  match s with
  | EmptyString => true
  | String c rest => f c && all_chars f rest
  end.

(** [s.match(/^[0-9a-fA-F]{24}$/)] *)
Definition isObjectIdFormat (s : string) : bool :=
  (String.length s =? 24)%nat && all_chars is_hex s.

Definition is_lower_hex (a : ascii) : bool :=
  let n := nat_of_ascii a in
  (((48 <=? n) && (n <=? 57)) || ((97 <=? n) && (n <=? 102)))%nat.

(** The string form of an ObjectId: 24 hexadecimal digits in lower
    case. *)
Definition isObjectId (s : string) : bool :=
  (String.length s =? 24)%nat && all_chars is_lower_hex s.

Fixpoint map_chars (f : ascii -> ascii) (s : string) : string :=
  match s with
  | EmptyString => EmptyString
  | String c rest => String (f c) (map_chars f rest)
  end.

Definition lower_hex (a : ascii) : ascii :=
  let n := nat_of_ascii a in
  if ((65 <=? n) && (n <=? 70))%nat then ascii_of_nat (n + 32) else a.

(** [new ObjectId(s).toString()] for a string [s] of 24 hexadecimal
    digits: the ObjectId that Mongoose casts [s] to, in its string
    form. *)
Definition oid (s : string) : string := map_chars lower_hex s.

(** ** Strings *)

(** WhiteSpace and LineTerminator code units below 256. *)
Definition is_space (a : ascii) : bool :=
  let n := nat_of_ascii a in
  (((9 <=? n) && (n <=? 13)) || (n =? 32) || (n =? 160))%nat.

Fixpoint trimStart (s : string) : string :=
  match s with
  | EmptyString => EmptyString
  | String c rest => if is_space c then trimStart rest else s
  end.

Definition trimEnd (s : string) : string :=
  String.rev (trimStart (String.rev s)).

(** [s.trim()] *)
Definition trim (s : string) : string := trimEnd (trimStart s).

(** The letters A-Z and the upper-case letters of Latin-1. *)
Definition is_upper (a : ascii) : bool :=
  let n := nat_of_ascii a in
  (((65 <=? n) && (n <=? 90)) || ((192 <=? n) && (n <=? 214))
   || ((216 <=? n) && (n <=? 222)))%nat.

(** [s.toLowerCase()] *)
Definition toLowerCase (s : string) : string :=
  map_chars (fun a => if is_upper a then ascii_of_nat (nat_of_ascii a + 32)
                      else a) s.

(** ** JavaScript values *)

(** JavaScript truthiness of a possibly undefined string. *)
Definition truthy (o : option string) : bool :=
  match o with
  | Some s => negb (String.eqb s "")
  | None => false
  end.

(** [a || b] on possibly undefined strings. *)
Definition js_or (a b : option string) : option string :=
  if truthy a then a else b.

(** JavaScript truthiness of a possibly undefined JSON value. *)
Definition truthy_value (o : option json) : bool :=
  match o with
  | None => false
  | Some JNull => false
  | Some (JBool b) => b
  | Some (JNum z) => negb (z =? 0)%Z
  | Some (JStr s) => negb (String.eqb s "")
  | Some (JArr _) => true
  | Some (JObj _) => true
  end.

(** [a || b] on possibly undefined JSON values. *)
Definition or_value (a b : option json) : option json :=
  if truthy_value a then a else b.

(** [typeof v] *)
Definition typeof (o : option json) : string :=
  match o with
  | None => "undefined"
  | Some JNull => "object"
  | Some (JBool _) => "boolean"
  | Some (JNum _) => "number"
  | Some (JStr _) => "string"
  | Some (JArr _) => "object"
  | Some (JObj _) => "object"
  end.

(** [s.split(" ")]: the segments of [s] between single spaces. *)
Fixpoint split_space_aux (cur : string) (s : string) : list string :=
  match s with
  | EmptyString => [String.rev cur]
  | String c rest =>
      if Ascii.eqb c " "%char
      then String.rev cur :: split_space_aux "" rest
      else split_space_aux (String c cur) rest
  end.

Definition split_space (s : string) : list string := split_space_aux "" s.

(** ** Data model (models/User.js, models/Community.js, Post and Job schemas) *)

(** Result of [Model.findById]: the document, [null], or the CastError
    (kind "ObjectId") Mongoose throws for a malformed identifier.  A
    string of 24 hexadecimal digits, in either case, is cast to the
    ObjectId with these digits; any other string is taken to fail the
    cast. *)
Inductive lookup_result (A : Type) : Type :=
  | Found (a : A)
  | Missing
  | CastError.
Arguments Found {A} a.
Arguments Missing {A}.
Arguments CastError {A}.

Definition findById {A : Type} (id : string) (coll : gmap string A)
  : lookup_result A :=
  if isObjectIdFormat id then
    match coll !! oid id with
    | Some a => Found a
    | None => Missing
    end
  else CastError.

(** [$addToSet]: append unless already present. *)
Definition addToSet (x : string) (l : list string) : list string :=
  if existsb (String.eqb x) l then l else l ++ [x].

(** [$pull]: remove every occurrence. *)
Definition pull (x : string) (l : list string) : list string :=
  filter (fun y => y <> x) l.

(** [array.includes(x)] / [array.some(e => e.toString() === x)] for a
    string [x]: the elements are compared with [x] as strings. *)
Definition includes (x : string) (l : list string) : bool :=
  existsb (fun y => String.eqb y x) l.

Module User.

Record appliedJob : Type := {
  aj_job : string;
  aj_status : string;
  aj_appliedAt : Z;
}.

Record t : Type := {
  name : string;
  email : string;
  password : string;               (* bcrypt hash; schema: select: false *)
  profileImage : string;
  bio : string;
  title : string;
  website : string;
  phone : string;
  skills : list string;
  experience : list json;
  education : list json;
  location : string;
  socialLinks : json;
  savedJobs : list string;
  appliedJobs : list appliedJob;
  joinedCommunities : list string;
  notifiedCommunities : list string;
  resetPasswordToken : option string;
  resetPasswordExpire : option Z;
  createdAt : Z;
}.

(** A document as a query returns it: the stored record together with
    the paths the projection leaves out. *)
Record doc : Type := {
  _id : string;
  raw : t;
  excluded : list string;
}.

(** The [id] virtual, [this._id.toString()]: an ObjectId prints in
    lower case. *)
Definition id (d : doc) : string := oid (_id d).

Definition appliedJob_json (a : appliedJob) : json :=
  JObj [("job", JStr (aj_job a)); ("status", JStr (aj_status a));
        ("appliedAt", JNum (aj_appliedAt a))].

Definition all_fields (i : string) (u : t) : list (string * json) :=
  [("_id", JStr i);
   ("name", JStr (name u));
   ("email", JStr (email u));
   ("password", JStr (password u));
   ("profileImage", JStr (profileImage u));
   ("bio", JStr (bio u));
   ("title", JStr (title u));
   ("website", JStr (website u));
   ("phone", JStr (phone u));
   ("skills", Json.strs (skills u));
   ("experience", JArr (experience u));
   ("education", JArr (education u));
   ("location", JStr (location u));
   ("socialLinks", socialLinks u);
   ("savedJobs", Json.strs (savedJobs u));
   ("appliedJobs", JArr (appliedJob_json <$> appliedJobs u));
   ("joinedCommunities", Json.strs (joinedCommunities u));
   ("notifiedCommunities", Json.strs (notifiedCommunities u))]
  ++ Json.opt_field "resetPasswordToken" (JStr <$> resetPasswordToken u)
  ++ Json.opt_field "resetPasswordExpire" (JNum <$> resetPasswordExpire u)
  ++ [("createdAt", JNum (createdAt u))].

Definition selected (ex : list string) (kv : string * json) : bool :=
  negb (existsb (String.eqb kv.1) ex).

(** The fields of a loaded document: the selected paths only. *)
Definition fields (d : doc) : list (string * json) :=
  List.filter (selected (excluded d)) (all_fields (_id d) (raw d)).

(** What [res.json] serialises for a document. *)
Definition toJSON (d : doc) : json := JObj (fields d).

(** [user.password] on a loaded document ([undefined] when unselected). *)
Definition loaded_password (d : doc) : option string :=
  if existsb (String.eqb "password") (excluded d) then None
  else Some (password (raw d)).

(** Projections.  The schema marks [password] with [select: false], so a
    query without [select] leaves it out as well. *)
Definition default_projection : list string := ["password"].

(** [.select("-password")] *)
Definition select_minus_password : list string := ["password"].

(** [.select("+password")] *)
Definition select_plus_password : list string := [].

Definition load (ex : list string) (i : string) (u : t) : doc :=
  {| _id := i; raw := u; excluded := ex |}.

(** [User.findById(id).select(...)] *)
Definition findById (ex : list string) (i : string) (users : gmap string t)
  : lookup_result doc :=
  match findById i users with
  | Found u => Found (load ex (oid i) u)
  | Missing => Missing
  | CastError => CastError
  end.

(** The setters of the [email] path: [trim: true] and
    [lowercase: true]. *)
Definition setEmail (e : string) : string := toLowerCase (trim e).

(** [User.findOne({ email })]: Mongoose casts the filter with the
    schema, which runs the setters of the path on the value asked for. *)
Definition findOne_email (ex : list string) (e : string)
    (users : gmap string t) : option doc :=
  match List.find (fun kv => String.eqb (email kv.2) (setEmail e))
          (map_to_list users) with
  | Some (i, u) => Some (load ex i u)
  | None => None
  end.

Definition set_joined (u : t) (j n : list string) : t :=
  {| name := name u; email := email u; password := password u;
     profileImage := profileImage u; bio := bio u; title := title u;
     website := website u; phone := phone u; skills := skills u;
     experience := experience u; education := education u;
     location := location u; socialLinks := socialLinks u;
     savedJobs := savedJobs u; appliedJobs := appliedJobs u;
     joinedCommunities := j; notifiedCommunities := n;
     resetPasswordToken := resetPasswordToken u;
     resetPasswordExpire := resetPasswordExpire u;
     createdAt := createdAt u |}.

Definition set_savedJobs (u : t) (s : list string) : t :=
  {| name := name u; email := email u; password := password u;
     profileImage := profileImage u; bio := bio u; title := title u;
     website := website u; phone := phone u; skills := skills u;
     experience := experience u; education := education u;
     location := location u; socialLinks := socialLinks u;
     savedJobs := s; appliedJobs := appliedJobs u;
     joinedCommunities := joinedCommunities u;
     notifiedCommunities := notifiedCommunities u;
     resetPasswordToken := resetPasswordToken u;
     resetPasswordExpire := resetPasswordExpire u;
     createdAt := createdAt u |}.

Definition set_appliedJobs (u : t) (a : list appliedJob) : t :=
  {| name := name u; email := email u; password := password u;
     profileImage := profileImage u; bio := bio u; title := title u;
     website := website u; phone := phone u; skills := skills u;
     experience := experience u; education := education u;
     location := location u; socialLinks := socialLinks u;
     savedJobs := savedJobs u; appliedJobs := a;
     joinedCommunities := joinedCommunities u;
     notifiedCommunities := notifiedCommunities u;
     resetPasswordToken := resetPasswordToken u;
     resetPasswordExpire := resetPasswordExpire u;
     createdAt := createdAt u |}.

(** [User.findByIdAndUpdate(id, upd)], for an [id] that passes the cast:
    the update applied to the stored document when it exists; nothing
    happens otherwise. *)
Definition findByIdAndUpdate (i : string) (upd : t -> t)
    (users : gmap string t) : gmap string t :=
  match users !! oid i with
  | Some u => <[oid i := upd u]> users
  | None => users
  end.

(** [{ $addToSet: { joinedCommunities: c, notifiedCommunities: c } }] *)
Definition addToSet_communities (c : string) (u : t) : t :=
  set_joined u (addToSet c (joinedCommunities u))
               (addToSet c (notifiedCommunities u)).

(** [{ $pull: { joinedCommunities: c, notifiedCommunities: c } }] *)
Definition pull_communities (c : string) (u : t) : t :=
  set_joined u (pull c (joinedCommunities u))
               (pull c (notifiedCommunities u)).

End User.

Module Community.

Record t : Type := {
  name : string;
  description : string;
  image : string;
  tags : list string;
  isPopular : bool;
  members : list string;
  moderators : list string;
  posts : list string;
  events : list string;
  createdBy : string;
  createdAt : Z;
}.

(** The [memberCount] virtual. *)
Definition memberCount (c : t) : nat := length (members c).

(** Serialisation; the schema sets [toJSON: { virtuals: true }]. *)
Definition toJSON (i : string) (c : t) : json :=
  JObj [("_id", JStr i);
        ("name", JStr (name c));
        ("description", JStr (description c));
        ("image", JStr (image c));
        ("tags", Json.strs (tags c));
        ("isPopular", JBool (isPopular c));
        ("members", Json.strs (members c));
        ("moderators", Json.strs (moderators c));
        ("posts", Json.strs (posts c));
        ("events", Json.strs (events c));
        ("createdBy", JStr (createdBy c));
        ("createdAt", JNum (createdAt c));
        ("memberCount", JNum (Z.of_nat (memberCount c)));
        ("id", JStr i)].

Definition set_members (c : t) (m : list string) : t :=
  {| name := name c; description := description c; image := image c;
     tags := tags c; isPopular := isPopular c; members := m;
     moderators := moderators c; posts := posts c; events := events c;
     createdBy := createdBy c; createdAt := createdAt c |}.

Definition set_moderators (c : t) (m : list string) : t :=
  {| name := name c; description := description c; image := image c;
     tags := tags c; isPopular := isPopular c; members := members c;
     moderators := m; posts := posts c; events := events c;
     createdBy := createdBy c; createdAt := createdAt c |}.

Definition set_posts (c : t) (p : list string) : t :=
  {| name := name c; description := description c; image := image c;
     tags := tags c; isPopular := isPopular c; members := members c;
     moderators := moderators c; posts := p; events := events c;
     createdBy := createdBy c; createdAt := createdAt c |}.

End Community.

Module Post.

Record comment : Type := {
  c_user : string;
  c_text : string;
  c_createdAt : Z;
}.

Record t : Type := {
  title : string;
  content : string;
  images : list string;
  author : option string;
  authorName : string;
  community : string;
  likes : list string;
  comments : list comment;
  tags : list string;
  createdAt : Z;
  updatedAt : Z;
}.

(** The [likeCount] virtual. *)
Definition likeCount (p : t) : nat := length (likes p).

Definition comment_json (c : comment) : json :=
  JObj [("user", JStr (c_user c)); ("text", JStr (c_text c));
        ("createdAt", JNum (c_createdAt c))].

(** Serialisation with virtuals; [author] is given as the caller has
    it (an identifier, or the populated sub-document). *)
Definition toJSON (i : string) (author_json : option json) (p : t) : json :=
  JObj ([("_id", JStr i);
         ("title", JStr (title p));
         ("content", JStr (content p));
         ("images", Json.strs (images p))]
        ++ Json.opt_field "author" author_json
        ++ [("authorName", JStr (authorName p));
            ("community", JStr (community p));
            ("likes", Json.strs (likes p));
            ("comments", JArr (comment_json <$> comments p));
            ("tags", Json.strs (tags p));
            ("createdAt", JNum (createdAt p));
            ("updatedAt", JNum (updatedAt p));
            ("likeCount", JNum (Z.of_nat (likeCount p)));
            ("commentCount", JNum (Z.of_nat (length (comments p))));
            ("id", JStr i)]).

Definition set_likes (p : t) (l : list string) : t :=
  {| title := title p; content := content p; images := images p;
     author := author p; authorName := authorName p;
     community := community p; likes := l; comments := comments p;
     tags := tags p; createdAt := createdAt p; updatedAt := updatedAt p |}.

End Post.

Module Job.

Record applicant : Type := {
  user : string;
  status : string;
  appliedAt : Z;
  resume : option string;
  coverLetter : option string;
}.

Record t : Type := {
  title : string;
  company : string;
  location : string;
  type : string;
  description : string;
  requirements : string;
  applicationLink : option string;
  applicationDeadline : option Z;
  companyLogo : option string;
  postedBy : string;
  applicants : list applicant;
  isActive : bool;
  createdAt : Z;
  updatedAt : Z;
}.

Definition set_applicants (j : t) (a : list applicant) : t :=
  {| title := title j; company := company j; location := location j;
     type := type j; description := description j;
     requirements := requirements j;
     applicationLink := applicationLink j;
     applicationDeadline := applicationDeadline j;
     companyLogo := companyLogo j; postedBy := postedBy j;
     applicants := a; isActive := isActive j;
     createdAt := createdAt j; updatedAt := updatedAt j |}.

End Job.

(** ** Database state, requests and responses *)

Record Store : Type := {
  users : gmap string User.t;
  communities : gmap string Community.t;
  posts : gmap string Post.t;
  jobs : gmap string Job.t;
}.

Definition set_users (st : Store) (u : gmap string User.t) : Store :=
  {| users := u; communities := communities st;
     posts := posts st; jobs := jobs st |}.

Definition set_communities (st : Store) (c : gmap string Community.t) : Store :=
  {| users := users st; communities := c;
     posts := posts st; jobs := jobs st |}.

Definition set_posts (st : Store) (p : gmap string Post.t) : Store :=
  {| users := users st; communities := communities st;
     posts := p; jobs := jobs st |}.

Definition set_jobs (st : Store) (j : gmap string Job.t) : Store :=
  {| users := users st; communities := communities st;
     posts := posts st; jobs := j |}.

(** An Express request, with the body typed per endpoint.  A cookie is
    a string, or the JSON value cookie-parser makes of a [j:] cookie. *)
Record Request (B : Type) : Type := {
  cookies : gmap string json;          (* req.cookies *)
  authorization : option string;       (* req.headers.authorization *)
  params : gmap string string;         (* req.params *)
  body : B;                            (* req.body *)
  user : option User.doc;              (* req.user *)
}.
Arguments cookies {B} _.
Arguments authorization {B} _.
Arguments params {B} _.
Arguments body {B} _.
Arguments user {B} _.

Definition set_user {B : Type} (req : Request B) (u : User.doc) : Request B :=
  {| cookies := cookies req; authorization := authorization req;
     params := params req; body := body req; user := Some u |}.

Record Response : Type := {
  status : nat;                        (* res.status(n) *)
  payload : json;                      (* res.json(...) *)
  set_cookie : list (string * string); (* res.cookie(name, value, ...) *)
}.

(** [res.status(code).json(obj)] *)
Definition respond (code : nat) (fields : list (string * json)) : Response :=
  {| status := code; payload := JObj fields; set_cookie := [] |}.

(** ** Authentication middleware (middleware/auth.js) *)

(** What [jwt.verify(token, secret)] does: it returns the decoded payload
    [{ id }] or throws an error with a [name] and a [message]. *)
Inductive jwt_result : Type :=
  | Decoded (id : string)
  | Throws (name message : string).

(** How a middleware ends: [next()] or a response. *)
Inductive mw_outcome : Type :=
  | Continue
  | Respond (r : Response).

Record mw_result (B : Type) : Type := {
  mw_req : Request B;
  mw_outcome_of : mw_outcome;
}.
Arguments mw_req {B} _.
Arguments mw_outcome_of {B} _.

Definition continue {B : Type} (req : Request B) : mw_result B :=
  {| mw_req := req; mw_outcome_of := Continue |}.

Definition halt {B : Type} (req : Request B) (r : Response) : mw_result B :=
  {| mw_req := req; mw_outcome_of := Respond r |}.

Module Auth.

(** [h && h.startsWith("Bearer") ? h.split(" ")[1] : null] *)
Definition bearer (h : option string) : option string :=
  match h with
  | Some a =>
      if truthy (Some a) && String.prefix "Bearer" a
      then split_space a !! 1%nat
      else None
  | None => None
  end.

(** [req.cookies.token || req.cookies.auth_token || (bearer header)] *)
Definition extractToken {B : Type} (req : Request B) : option json :=
  or_value (or_value (cookies req !! "token") (cookies req !! "auth_token"))
           (JStr <$> bearer (authorization req)).

Definition no_token_response : Response :=
  respond 401 [("message", JStr "Authentication required");
               ("error", JStr "No token provided");
               ("help", JStr "Please login to access this resource")].

Definition misconfigured_response : Response :=
  respond 500 [("message", JStr "Server configuration error");
               ("error", JStr "Auth system misconfigured")].

Definition user_not_found_response : Response :=
  respond 401 [("message", JStr "User not found");
               ("error", JStr "Account may have been deleted")].

(** The outer [catch (error)]. *)
Definition critical_error_response : Response :=
  respond 500 [("message", JStr "Server authentication error");
               ("error", JStr "Internal server error during authentication")].

(** The inner [catch (tokenError)]. *)
Definition token_error_response (name message : string) : Response :=
  if String.eqb name "TokenExpiredError" then
    respond 401 [("message", JStr "Authentication expired");
                 ("error", JStr "Token has expired");
                 ("help", JStr "Please login again to continue")]
  else if String.eqb name "JsonWebTokenError" then
    respond 401 [("message", JStr "Invalid authentication");
                 ("error", JStr message);
                 ("help", JStr "Please login again with valid credentials")]
  else
    respond 401 [("message", JStr "Authentication failed");
                 ("error", JStr "Token verification failed")].

Section Middleware.

Variable jwt_verify : string -> option string -> jwt_result.

Context {B : Type}.

(** [authMiddleware]: [secret] is [process.env.JWT_SECRET]. *)
Definition authMiddleware (secret : option string)
    (db : gmap string User.t) (req : Request B) : mw_result B :=
  let token := extractToken req in
  if negb (truthy_value token) then halt req no_token_response
  else
    match token with
    | Some (JStr t) =>
        if negb (truthy secret) then halt req misconfigured_response
        else
          match jwt_verify t secret with
          | Decoded id =>
              match User.findById User.select_minus_password id db with
              | Found user => continue (set_user req user)
              | Missing => halt req user_not_found_response
              | CastError =>
                  (* thrown inside the inner try: an error of another name *)
                  halt req (token_error_response "CastError" "")
              end
          | Throws name message =>
              halt req (token_error_response name message)
          end
    | _ =>
        (* a truthy token that is no string: [token.substring] in the
           logging statement throws, into the outer catch *)
        halt req critical_error_response
    end.

(** [optionalAuthMiddleware]: every failure ends in [next()]. *)
Definition optionalAuthMiddleware (secret : option string)
    (db : gmap string User.t) (req : Request B) : mw_result B :=
  let token := extractToken req in
  if negb (truthy_value token) then continue req
  else
    match token with
    | Some (JStr t) =>
        match jwt_verify t secret with
        | Decoded id =>
            match User.findById User.select_minus_password id db with
            | Found user => continue (set_user req user)
            | Missing => continue req
            | CastError => continue req    (* catch (error) { next() } *)
            end
        | Throws _ _ => continue req       (* catch (error) { next() } *)
        end
    | _ =>
        (* [jwt.verify] rejects a token that is no string *)
        continue req                       (* catch (error) { next() } *)
    end.

End Middleware.

End Auth.

(** ** Community controller (controllers/communityController.js) *)

Module CommunityCtl.

(** The body fields the community routes read. *)
Record Body : Type := {
  userId : option string;
  authorName : option string;
  title : option string;
  content : option string;
  images : option (list string);
  tags : option (list string);
}.

(** Outcome of the identity resolution of join and leave: the user id
    the handler goes on with, as [req.user.id] or [req.body.userId]
    spells it ([None] is JavaScript's [null]), or the response that ends
    the request. *)
Inductive resolution : Type :=
  | Actor (userId : option string)
  | Rejected (r : Response).

(** "Priority: Use authenticated user, then look for userId in request
    body" (the same code in [joinCommunity] and [leaveCommunity]). *)
Definition resolveMember (st : Store) (req : Request Body) : resolution :=
  match user req with
  | Some u => Actor (Some (User.id u))
  | None =>
      if truthy (userId (body req)) then
        let uid := default "" (userId (body req)) in
        if negb (isObjectIdFormat uid) then
          Rejected (respond 400
            [("message", JStr "Invalid user ID format in request");
             ("provided_id", JStr uid)])
        else
          match User.findById User.default_projection uid (users st) with
          | Found _ => Actor (Some uid)
          | Missing =>
              Rejected (respond 404 [("message", JStr "User not found")])
          | CastError =>
              (* catch (userError); not reached after the format check *)
              Rejected (respond 400
                [("message", JStr "Error processing user ID");
                 ("error", JStr "Cast to ObjectId failed")])
          end
      else Actor None
  end.

Definition invalid_community_id (id : string) : Response :=
  respond 400 [("message", JStr "Invalid community ID format");
               ("provided_id", JStr id)].

Definition community_not_found (id : string) : Response :=
  respond 404 [("message", JStr "Community not found");
               ("community_id", JStr id)].

(** The "generic success message" sent when no user id was resolved. *)
Definition authentication_required (message id : string) (c : Community.t)
  : Response :=
  respond 200
    [("success", JBool true);
     ("message", JStr message);
     ("data", JObj [("_id", JStr id);
                    ("name", JStr (Community.name c));
                    ("description", JStr (Community.description c));
                    ("memberCount",
                     JNum (Z.of_nat (length (Community.members c))))])].

Definition already_member : Response :=
  respond 200 [("message", JStr "Already a member");
               ("success", JBool true)].

Definition joined (id : string) (c : Community.t) : Response :=
  respond 200 [("success", JBool true);
               ("message", JStr "Joined community successfully");
               ("data", Community.toJSON id c)].

(** [exports.joinCommunity] *)
Definition joinCommunity (st : Store) (req : Request Body)
  : Store * Response :=
  let id := default "" (params req !! "id") in
  if negb (truthy (params req !! "id") && isObjectIdFormat id) then
    (st, invalid_community_id id)
  else
    match communities st !! oid id with
    | None => (st, community_not_found id)
    | Some community =>
        match resolveMember st req with
        | Rejected r => (st, r)
        | Actor uid =>
            if negb (truthy uid) then
              (st, authentication_required
                     "Authentication required to join community"
                     (oid id) community)
            else
              let userIdStr := default "" uid in
              let isAlreadyMember :=
                includes userIdStr (Community.members community) in
              if isAlreadyMember then (st, already_member)
              else
                (* community.members.push(userId); await community.save() *)
                let community' :=
                  Community.set_members community
                    (Community.members community ++ [oid userIdStr]) in
                let st1 :=
                  set_communities st
                    (<[oid id := community']> (communities st)) in
                (* User.findByIdAndUpdate(userId, { $addToSet: ... }) *)
                let st2 :=
                  set_users st1
                    (User.findByIdAndUpdate userIdStr
                       (User.addToSet_communities (oid id)) (users st1)) in
                (st2, joined (oid id) community')
        end
    end.

Definition not_a_member : Response :=
  respond 400 [("message", JStr "Not a member of this community");
               ("success", JBool false)].

Definition last_moderator : Response :=
  respond 400
    [("message",
      JStr "As the only moderator, you cannot leave the community. Assign another moderator first.")].

Definition left_community : Response :=
  respond 200 [("success", JBool true);
               ("message", JStr "Left community successfully")].

(** The guard "If user is the only moderator, they cannot leave". *)
Definition onlyModeratorGuard (userIdStr : string) (c : Community.t) : bool :=
  includes userIdStr (Community.moderators c)
  && (length (Community.moderators c) =? 1)%nat
  && (1 <? length (Community.members c))%nat.

(** [exports.leaveCommunity] *)
Definition leaveCommunity (st : Store) (req : Request Body)
  : Store * Response :=
  let id := default "" (params req !! "id") in
  if negb (truthy (params req !! "id") && isObjectIdFormat id) then
    (st, invalid_community_id id)
  else
    match communities st !! oid id with
    | None => (st, community_not_found id)
    | Some community =>
        match resolveMember st req with
        | Rejected r => (st, r)
        | Actor uid =>
            if negb (truthy uid) then
              (st, authentication_required
                     "Authentication required to leave community"
                     (oid id) community)
            else
              let userIdStr := default "" uid in
              let isUserMember :=
                includes userIdStr (Community.members community) in
              if negb isUserMember then (st, not_a_member)
              else if onlyModeratorGuard userIdStr community then
                (st, last_moderator)
              else
                let community' :=
                  Community.set_moderators
                    (Community.set_members community
                       (pull userIdStr (Community.members community)))
                    (pull userIdStr (Community.moderators community)) in
                let st1 :=
                  set_communities st
                    (<[oid id := community']> (communities st)) in
                (* User.findByIdAndUpdate(userId, { $pull: ... }) *)
                let st2 :=
                  set_users st1
                    (User.findByIdAndUpdate userIdStr
                       (User.pull_communities (oid id)) (users st1)) in
                (st2, left_community)
        end
    end.

(** *** Posts *)

Definition post_community_not_found : Response :=
  respond 404 [("message", JStr "Community not found")].

Definition server_error (message : string) : Response :=
  respond 500 [("message", JStr "Server error"); ("error", JStr message)].

(** Author resolution of [createPost]: the author id (when there is
    one) and the display name, or the cast error of a malformed
    [req.body.userId]. *)
Definition resolveAuthor (st : Store) (req : Request Body)
  : option (option string * string) :=
  match user req with
  | Some u => Some (Some (User.id u), User.name (User.raw u))
  | None =>
      if truthy (userId (body req)) then
        let uid := default "" (userId (body req)) in
        match User.findById User.default_projection uid (users st) with
        | Found userExists =>
            Some (Some uid,
                  default (User.name (User.raw userExists))
                          (js_or (authorName (body req)) None))
        | Missing =>
            Some (None,
                  default "Anonymous User"
                          (js_or (authorName (body req)) None))
        | CastError => None
        end
      else
        Some (None,
              default "Anonymous User" (js_or (authorName (body req)) None))
  end.

(** "If we have a valid author ID, ensure they're a member of the
    community": the handler's copy of the community and the database
    after this step; [id] is [community._id]. *)
Definition ensureMember (st : Store) (id : string) (community : Community.t)
    (author : option string) : Community.t * Store :=
  if truthy author then
    let a := default "" author in
    if negb (includes a (Community.members community)) then
      (* community.members.push(author) *)
      let community' :=
        Community.set_members community
          (Community.members community ++ [oid a]) in
      (* User.findByIdAndUpdate(author, { $addToSet: ... }) *)
      let st1 :=
        set_users st
          (User.findByIdAndUpdate a (User.addToSet_communities id) (users st)) in
      (* await community.save() *)
      let st2 :=
        set_communities st1 (<[id := community']> (communities st1)) in
      (community', st2)
    else (community, st)
  else (community, st).

(** [post.populate("author", "name profileImage")]; [a] is
    [post.author]. *)
Definition populate_author (st : Store) (a : string) : json :=
  match users st !! a with
  | Some u => JObj [("_id", JStr a);
                    ("name", JStr (User.name u));
                    ("profileImage", JStr (User.profileImage u))]
  | None => JNull
  end.

Section CreatePost.

(** [Post.create(postData)] runs the schema's setters and validators:
    it yields the document as stored, or the message of the
    ValidationError it throws. *)
Variable castPost : Post.t -> Post.t + string.

(** [exports.createPost]; [newId] is the identifier the new post
    receives and [now] the current time. *)
Definition createPost (newId : string) (now : Z)
    (st : Store) (req : Request Body) : Store * Response :=
  let id := default "" (params req !! "id") in
  match findById id (communities st) with
  | CastError => (st, post_community_not_found)
  | Missing => (st, post_community_not_found)
  | Found community =>
      match resolveAuthor st req with
      | None => (st, post_community_not_found)
      | Some (author0, authorName) =>
          (* if (author) ...: an empty id counts as no author *)
          let author := if truthy author0 then author0 else None in
          let '(community1, st1) :=
            ensureMember st (oid id) community author in
          (* the ObjectId paths of the post are cast as the post is made *)
          let postData :=
            {| Post.title := default "Post" (js_or (title (body req)) None);
               Post.content := default "" (js_or (content (body req)) None);
               Post.images := default [] (images (body req));
               Post.author := oid <$> author;
               Post.authorName := authorName;
               Post.community := oid id;
               Post.likes := [];
               Post.comments := [];
               Post.tags := default [] (tags (body req));
               Post.createdAt := now;
               Post.updatedAt := now |} in
          match castPost postData with
          | inr message => (st1, server_error message)
          | inl post =>
              let st2 := set_posts st1 (<[newId := post]> (posts st1)) in
              (* community.posts.push(post._id); await community.save() *)
              let community2 :=
                Community.set_posts community1
                  (Community.posts community1 ++ [newId]) in
              let st3 :=
                set_communities st2
                  (<[oid id := community2]> (communities st2)) in
              (st3,
               {| status := 201;
                  payload :=
                    JObj [("success", JBool true);
                          ("data",
                           Post.toJSON newId
                             (* if (author) await post.populate("author", ...) *)
                             (if truthy author
                              then populate_author st3 <$> Post.author post
                              else JStr <$> Post.author post)
                             post)];
                  set_cookie := [] |})
          end
      end
  end.

End CreatePost.

(** *** Likes *)

Definition post_not_found : Response :=
  respond 404 [("message", JStr "Post not found")].

(** Identity resolution of [likePost] and [unlikePost]; [None] is the
    cast error of a malformed [req.body.userId]. *)
Definition resolveLiker (st : Store) (req : Request Body)
  : option (option string) :=
  match user req with
  | Some u => Some (Some (User.id u))
  | None =>
      if truthy (userId (body req)) then
        let uid := default "" (userId (body req)) in
        match User.findById User.default_projection uid (users st) with
        | Found _ => Some (Some uid)
        | Missing => Some None
        | CastError => None
        end
      else Some None
  end.

Definition like_requires_auth (message : string) : Response :=
  respond 200 [("success", JBool false); ("message", JStr message)].

Definition already_liked : Response :=
  respond 400 [("message", JStr "Post already liked")].

Definition not_liked : Response :=
  respond 400 [("message", JStr "Post not liked yet")].

Definition like_result (message postId : string) (p : Post.t) : Response :=
  respond 200 [("success", JBool true);
               ("message", JStr message);
               ("likeCount", JNum (Z.of_nat (length (Post.likes p))));
               ("data", Post.toJSON postId (JStr <$> Post.author p) p)].

(** [exports.likePost] *)
Definition likePost (st : Store) (req : Request Body) : Store * Response :=
  let postId := default "" (params req !! "postId") in
  match findById postId (posts st) with
  | CastError => (st, post_not_found)
  | Missing => (st, post_not_found)
  | Found post =>
      match resolveLiker st req with
      | None => (st, post_not_found)
      | Some uid =>
          if negb (truthy uid) then
            (st, like_requires_auth "Authentication required to like posts")
          else
            let userId := default "" uid in
            if includes userId (Post.likes post) then (st, already_liked)
            else
              (* post.likes.push(userId); await post.save() *)
              let post' :=
                Post.set_likes post (Post.likes post ++ [oid userId]) in
              (set_posts st (<[oid postId := post']> (posts st)),
               like_result "Post liked successfully" (oid postId) post')
      end
  end.

(** [exports.unlikePost] *)
Definition unlikePost (st : Store) (req : Request Body) : Store * Response :=
  let postId := default "" (params req !! "postId") in
  match findById postId (posts st) with
  | CastError => (st, post_not_found)
  | Missing => (st, post_not_found)
  | Found post =>
      match resolveLiker st req with
      | None => (st, post_not_found)
      | Some uid =>
          if negb (truthy uid) then
            (st, like_requires_auth "Authentication required to unlike posts")
          else
            let userId := default "" uid in
            if negb (includes userId (Post.likes post)) then (st, not_liked)
            else
              let post' := Post.set_likes post (pull userId (Post.likes post)) in
              (set_posts st (<[oid postId := post']> (posts st)),
               like_result "Post unliked successfully" (oid postId) post')
      end
  end.

End CommunityCtl.

(** ** Job model statics and job controller (models/Job.js,
       controllers/jobController.js)

    The job routes are mounted behind [authMiddleware]: the handlers take
    the document it attached, [me] = [req.user]. *)

Module JobCtl.

Record Body : Type := {
  resume : option string;
  coverLetter : option string;
}.

(** What [Job.toggleSave] returns ... *)
Record toggled : Type := {
  success : bool;
  message : string;
  isSaved : bool;
}.

(** ... or throws. *)
Inductive toggle_error : Type :=
  | JobNotFound          (* new Error("Job not found") *)
  | UserNotFound         (* new Error("User not found") *)
  | ObjectIdCast.        (* CastError, kind "ObjectId" *)

(** [JobSchema.statics.toggleSave = async function (jobId, userId)] *)
Definition toggleSave (jobId userId : string) (st : Store)
  : Store * (toggled + toggle_error) :=
  match findById jobId (jobs st) with
  | CastError => (st, inr ObjectIdCast)
  | Missing => (st, inr JobNotFound)
  | Found job =>
      match User.findById User.default_projection userId (users st) with
      | CastError => (st, inr ObjectIdCast)
      | Missing => (st, inr UserNotFound)
      | Found user =>
          (* user.savedJobs.includes(job._id) *)
          let saved := includes (oid jobId) (User.savedJobs (User.raw user)) in
          if saved then
            (set_users st
               (User.findByIdAndUpdate userId
                  (fun u => User.set_savedJobs u
                              (pull (oid jobId) (User.savedJobs u)))
                  (users st)),
             inl {| success := true; message := "Job unsaved";
                    isSaved := false |})
          else
            (set_users st
               (User.findByIdAndUpdate userId
                  (fun u => User.set_savedJobs u
                              (addToSet (oid jobId) (User.savedJobs u)))
                  (users st)),
             inl {| success := true; message := "Job saved";
                    isSaved := true |})
      end
  end.

Definition toggled_json (r : toggled) : list (string * json) :=
  [("success", JBool (success r)); ("message", JStr (message r));
   ("isSaved", JBool (isSaved r))].

(** [exports.saveJob] *)
Definition saveJob (st : Store) (me : User.doc) (req : Request Body)
  : Store * Response :=
  let jobId := default "" (params req !! "id") in
  match toggleSave jobId (User.id me) st with
  | (st', inl result) => (st', respond 200 (toggled_json result))
  | (st', inr JobNotFound) =>
      (st', respond 404 [("message", JStr "Job not found")])
  | (st', inr ObjectIdCast) =>
      (st', respond 404 [("message", JStr "Job not found")])
  | (st', inr UserNotFound) =>
      (st', respond 404 [("message", JStr "User not found")])
  end.

Definition job_not_found : Response :=
  respond 404 [("message", JStr "Job not found")].

Definition already_applied : Response :=
  respond 400 [("message", JStr "Already applied for this job")].

Definition deadline_passed : Response :=
  respond 400 [("message", JStr "Application deadline has passed")].

Definition applied : Response :=
  respond 200 [("success", JBool true);
               ("message", JStr "Applied for job successfully")].

(** [job.applicationDeadline && new Date(job.applicationDeadline) < new Date()] *)
Definition deadlineHasPassed (now : Z) (job : Job.t) : bool :=
  match Job.applicationDeadline job with
  | Some d => (d <? now)%Z
  | None => false
  end.

(** [job.applicants.some((app) => app.user.toString() === req.user.id)] *)
Definition hasApplied (uid : string) (job : Job.t) : bool :=
  existsb (fun app => String.eqb (Job.user app) uid) (Job.applicants job).

(** [exports.applyForJob]; [now] is the clock ([new Date()], [Date.now()]). *)
Definition applyForJob (now : Z) (st : Store) (me : User.doc)
    (req : Request Body) : Store * Response :=
  let id := default "" (params req !! "id") in
  match findById id (jobs st) with
  | CastError => (st, job_not_found)
  | Missing => (st, job_not_found)
  | Found job =>
      if hasApplied (User.id me) job then (st, already_applied)
      else if deadlineHasPassed now job then (st, deadline_passed)
      else
        (* job.applicants.unshift({ ... }); await job.save() *)
        let entry :=
          {| Job.user := User.id me;
             Job.resume := resume (body req);
             Job.coverLetter := coverLetter (body req);
             Job.status := "applied";
             Job.appliedAt := now |} in
        let job' := Job.set_applicants job (entry :: Job.applicants job) in
        let st1 := set_jobs st (<[oid id := job']> (jobs st)) in
        (* User.findByIdAndUpdate(req.user.id, { $push: { appliedJobs } }) *)
        let applied_entry :=
          {| User.aj_job := oid id; User.aj_status := "applied";
             User.aj_appliedAt := now |} in
        let st2 :=
          set_users st1
            (User.findByIdAndUpdate (User.id me)
               (fun u => User.set_appliedJobs u
                           (User.appliedJobs u ++ [applied_entry]))
               (users st1)) in
        (st2, applied)
  end.

End JobCtl.

(** ** Auth controller (controllers/authController.js) *)

Module AuthCtl.

Record RegisterBody : Type := {
  reg_name : string;
  reg_email : string;
  reg_password : string;
}.

(** The body of a login request: the email sent is taken to be a
    string; the password is whatever JSON value the body has under
    [password], [None] when it has none. *)
Record LoginBody : Type := {
  email : string;
  password : option json;
}.

Definition invalid_credentials : Response :=
  respond 401 [("message", JStr "Invalid email or password")].

Definition server_error (message : string) : Response :=
  respond 500 [("message", JStr "Server error"); ("error", JStr message)].

(** The [user] object of the register and login responses. *)
Definition public_user (d : User.doc) : json :=
  JObj [("id", JStr (User._id d));
        ("name", JStr (User.name (User.raw d)));
        ("email", JStr (User.email (User.raw d)));
        ("profileImage", JStr (User.profileImage (User.raw d)))].

(** [res.cookie("token", token, ...); res.cookie("auth_token", token, ...);
    res.status(code).json({ success: true, user: {...}, token })] *)
Definition session_response (code : nat) (d : User.doc) (token : string)
  : Response :=
  {| status := code;
     payload := JObj [("success", JBool true);
                      ("user", public_user d);
                      ("token", JStr token)];
     set_cookie := [("token", token); ("auth_token", token)] |}.

(** [{ name, email, password }] with the defaults of the schema: what
    [register] hands to [User.create]. *)
Definition new_user (b : RegisterBody) (now : Z) : User.t :=
  {| User.name := reg_name b;
     User.email := reg_email b;
     User.password := reg_password b;
     User.profileImage := ""; User.bio := ""; User.title := "";
     User.website := ""; User.phone := ""; User.skills := [];
     User.experience := []; User.education := [];
     User.location := "";
     User.socialLinks :=
       JObj [("linkedin", JStr ""); ("github", JStr "");
             ("twitter", JStr ""); ("website", JStr "")];
     User.savedJobs := []; User.appliedJobs := [];
     User.joinedCommunities := []; User.notifiedCommunities := [];
     User.resetPasswordToken := None;
     User.resetPasswordExpire := None;
     User.createdAt := now |}.

Section Handlers.

(** [generateToken(id)] at a given time: [jwt.sign] stamps the token
    with the clock ([iat], [exp]) and yields it, or throws. *)
Variable generateToken : Z -> string -> string + string.

(** [bcrypt.compare(entered, hash)] on two strings. *)
Variable bcrypt_compare : string -> string -> bool.

(** [user.matchPassword(entered)]: [bcrypt.compare] rejects an argument
    that is no string. *)
Definition matchPassword (entered : option json) (hash : string)
  : bool + string :=
  match entered with
  | Some (JStr p) => inl (bcrypt_compare p hash)
  | _ => inr ("Illegal arguments: " +:+ typeof entered +:+ ", string")
  end.

(** [User.create({ name, email, password })]: schema setters,
    validators and the pre-save hook that hashes the password; the
    stored record, or the message of the error thrown. *)
Variable castUser : User.t -> User.t + string.

(** [exports.register]; [newId] is the identifier of the new user and
    [now] the clock. *)
Definition register (newId : string) (now : Z) (st : Store)
    (req : Request RegisterBody) : Store * Response :=
  match User.findOne_email User.default_projection
          (reg_email (body req)) (users st) with
  | Some _ => (st, respond 400 [("message", JStr "User already exists")])
  | None =>
      match castUser (new_user (body req) now) with
      | inr message => (st, server_error message)
      | inl stored =>
          let st1 := set_users st (<[newId := stored]> (users st)) in
          (* the created document carries every path, password included *)
          let user := User.load [] newId stored in
          match generateToken now newId with
          | inr message => (st1, server_error message)
          | inl token => (st1, session_response 201 user token)
          end
      end
  end.

(** [exports.login]; [now] is the clock. *)
Definition login (now : Z) (st : Store) (req : Request LoginBody)
  : Response :=
  match User.findOne_email User.select_plus_password
          (email (body req)) (users st) with
  | None => invalid_credentials
  | Some user =>
      match matchPassword (password (body req))
              (User.password (User.raw user)) with
      | inr message => server_error message
      | inl isMatch =>
          if negb isMatch then invalid_credentials
          else
            match generateToken now (User._id user) with
            | inr message => server_error message
            | inl token => session_response 200 user token
            end
      end
  end.

End Handlers.

(** [exports.getMe]: behind [authMiddleware], [me] = [req.user]. *)
Definition getMe (st : Store) (me : User.doc) : Response :=
  match User.findById User.default_projection (User.id me) (users st) with
  | Found user =>
      let u := User.raw user in
      respond 200
        [("success", JBool true);
         ("user",
          JObj [("id", JStr (User._id user));
                ("name", JStr (User.name u));
                ("email", JStr (User.email u));
                ("profileImage", JStr (User.profileImage u));
                ("bio", JStr (User.bio u));
                ("skills", Json.strs (User.skills u));
                ("location", JStr (User.location u));
                ("joinedCommunities", Json.strs (User.joinedCommunities u));
                ("notifiedCommunities",
                 Json.strs (User.notifiedCommunities u));
                ("savedJobs", Json.strs (User.savedJobs u));
                ("appliedJobs",
                 JArr (User.appliedJob_json <$> User.appliedJobs u))])]
  | Missing =>
      (* user is null: reading user._id throws *)
      server_error "Cannot read properties of null (reading '_id')"
  | CastError => server_error "Cast to ObjectId failed"
  end.

End AuthCtl.

(** ** Profile controller (controllers/profileController.js) *)

Module ProfileCtl.

(** [doc.path = value] on the serialised fields. *)
Fixpoint replace_field (k : string) (v : json)
    (fields : list (string * json)) : list (string * json) :=
  match fields with
  | [] => []
  | (k', v') :: rest =>
      if String.eqb k k' then (k', v) :: replace_field k v rest
      else (k', v') :: replace_field k v rest
  end.

Section Handlers.

(** [.populate("joinedCommunities", "name image memberCount")]: the
    populated sub-documents, or the message of the error thrown. *)
Variable populateCommunities : Store -> list string -> list json + string.

(** [.populate({ path: "appliedJobs.job", select: ... })] *)
Variable populateAppliedJobs :
  Store -> list User.appliedJob -> list json + string.

(** Inside [getMyProfile]'s inner [try]: a failed population is logged
    and the path keeps its unpopulated value. *)
Definition with_populated (k : string) (v : list json + string)
    (fields : list (string * json)) : list (string * json) :=
  match v with
  | inl items => replace_field k (JArr items) fields
  | inr _ => fields
  end.

(** [exports.getMyProfile] *)
Definition getMyProfile {B : Type} (st : Store) (req : Request B)
  : Response :=
  match user req with
  | None =>
      respond 400
        [("success", JBool false);
         ("message", JStr "User information missing from request");
         ("error",
          JStr "Authentication may have failed or user session is invalid")]
  | Some me =>
      if negb (truthy (Some (User.id me))) then
        respond 400
          [("success", JBool false);
           ("message", JStr "User information missing from request");
           ("error",
            JStr "Authentication may have failed or user session is invalid")]
      else
        match User.findById User.select_minus_password (User.id me)
                (users st) with
        | CastError =>
            respond 400 [("success", JBool false);
                         ("message", JStr "Invalid user ID format");
                         ("error", JStr "Cast to ObjectId failed")]
        | Missing =>
            respond 404
              [("success", JBool false);
               ("message", JStr "User not found");
               ("error", JStr "The user profile could not be located")]
        | Found user =>
            let u := User.raw user in
            let f1 :=
              if (0 <? length (User.joinedCommunities u))%nat then
                with_populated "joinedCommunities"
                  (populateCommunities st (User.joinedCommunities u))
                  (User.fields user)
              else User.fields user in
            let f2 :=
              if (0 <? length (User.appliedJobs u))%nat then
                with_populated "appliedJobs"
                  (populateAppliedJobs st (User.appliedJobs u)) f1
              else f1 in
            respond 200 [("success", JBool true); ("data", JObj f2)]
        end
  end.

(** [exports.getUserProfile] *)
Definition getUserProfile {B : Type} (st : Store) (req : Request B)
  : Response :=
  let id := default "" (params req !! "id") in
  match User.findById
          ["password"; "email"; "savedJobs"; "appliedJobs";
           "notifiedCommunities"] id (users st) with
  | CastError => respond 404 [("message", JStr "User not found")]
  | Missing => respond 404 [("message", JStr "User not found")]
  | Found user =>
      match populateCommunities st
              (User.joinedCommunities (User.raw user)) with
      | inl items =>
          respond 200
            [("success", JBool true);
             ("data",
              JObj (replace_field "joinedCommunities" (JArr items)
                      (User.fields user)))]
      | inr message =>
          respond 500 [("message", JStr "Server error");
                       ("error", JStr message)]
      end
  end.

End Handlers.

End ProfileCtl.

(** ** Vocabulary of the properties *)

Module Facts.

Import CommunityCtl.

(** The route parameter [p] of [req] is a string of 24 hexadecimal
    digits, in either case, that Mongoose casts to the ObjectId [id]. *)
Definition routed {B : Type} (req : Request B) (p id : string) : Prop :=
  exists raw,
    params req !! p = Some raw
    /\ isObjectIdFormat raw = true
    /\ oid raw = id.

(** The request [req] is an operation of user [u] on the stored
    community [c] with identifier [cid]: the route parameter names the
    community and the identity resolution yields [u], spelled as
    ObjectIds print. *)
Definition acts_on (st : Store) (req : Request Body)
    (u cid : string) (c : Community.t) : Prop :=
  routed req "id" cid
  /\ communities st !! cid = Some c
  /\ resolveMember st req = Actor (Some u)
  /\ u <> ""
  /\ oid u = u.

(** The data-model invariant "moderators (subset of members)". *)
Definition moderators_are_members (c : Community.t) : Prop :=
  Community.moderators c ⊆ Community.members c.

(** The invariant on every stored community. *)
Definition communities_wf (st : Store) : Prop :=
  forall cid c, communities st !! cid = Some c -> moderators_are_members c.

(** The request [req] is an operation of user [u] on the stored post
    [p] with identifier [pid]: the route parameter names the post and
    the identity resolution yields [u], spelled as ObjectIds print. *)
Definition likes_on (st : Store) (req : Request Body)
    (u pid : string) (p : Post.t) : Prop :=
  routed req "postId" pid
  /\ posts st !! pid = Some p
  /\ resolveLiker st req = Some (Some u)
  /\ u <> ""
  /\ oid u = u.

(** The [likeCount] a response reports. *)
Definition reported_likeCount (r : Response) : option json :=
  Json.get "likeCount" (payload r).

(** The [message] of a response. *)
Definition message_of (r : Response) : option json :=
  Json.get "message" (payload r).

(** The user representation a response carries: its [user] field, or
    else its [data] field. *)
Definition returned_user (r : Response) : option json :=
  match Json.get "user" (payload r) with
  | Some j => Some j
  | None => Json.get "data" (payload r)
  end.

(** Neither the response nor the user representation in it has a
    [password] field. *)
Definition hides_password (r : Response) : Prop :=
  Json.has_key "password" (payload r) = false
  /\ forall u, returned_user r = Some u -> Json.has_key "password" u = false.

(** Whether job [j] is among the saved jobs of user [u] in [st]. *)
Definition saved_in (st : Store) (u j : string) : bool :=
  match users st !! u with
  | Some usr => includes j (User.savedJobs usr)
  | None => false
  end.

(** The signed-in user applies for the stored job [job]. *)
Definition applies_for (st : Store) (req : Request JobCtl.Body)
    (jid : string) (job : Job.t) : Prop :=
  routed req "id" jid
  /\ jobs st !! jid = Some job.

(** The email of the request is not in the user store. *)
Definition unknown_email (st : Store) (req : Request AuthCtl.LoginBody) : Prop :=
  User.findOne_email User.select_plus_password (AuthCtl.email (body req))
    (users st) = None.

(** The email is in the user store and the password, a string, does
    not match the stored hash. *)
Definition password_mismatch (bcrypt_compare : string -> string -> bool)
    (st : Store) (req : Request AuthCtl.LoginBody) : Prop :=
  exists user entered,
    User.findOne_email User.select_plus_password (AuthCtl.email (body req))
      (users st) = Some user
    /\ AuthCtl.password (body req) = Some (JStr entered)
    /\ bcrypt_compare entered (User.password (User.raw user)) = false.

End Facts.

(** ** Sample data used to exercise the handlers *)

Module Sample.

Definition alice_id : string := "64b0f1a2c3d4e5f60718293a".
Definition bob_id : string := "64b0f1a2c3d4e5f60718293b".
Definition carol_id : string := "64b0f1a2c3d4e5f60718293c".
Definition club_id : string := "74b0f1a2c3d4e5f60718293a".
Definition post_id : string := "84b0f1a2c3d4e5f60718293a".
Definition job_id : string := "94b0f1a2c3d4e5f60718293a".

Definition person (n e : string) (joined : list string) : User.t :=
  {| User.name := n; User.email := e; User.password := "$2a$10$hash-of-" +:+ n;
     User.profileImage := ""; User.bio := ""; User.title := "";
     User.website := ""; User.phone := ""; User.skills := [];
     User.experience := []; User.education := []; User.location := "";
     User.socialLinks := JObj [];
     User.savedJobs := []; User.appliedJobs := [];
     User.joinedCommunities := joined; User.notifiedCommunities := joined;
     User.resetPasswordToken := None; User.resetPasswordExpire := None;
     User.createdAt := 0 |}.

Definition alice : User.t := person "Alice" "alice@x.com" [club_id].
Definition bob : User.t := person "Bob" "bob@x.com" [club_id].
Definition carol : User.t := person "Carol" "carol@x.com" [].

(** A community as [createCommunity] makes it (creator = only moderator)
    after a second member has joined. *)
Definition club : Community.t :=
  {| Community.name := "Club"; Community.description := "A club";
     Community.image := ""; Community.tags := [];
     Community.isPopular := false;
     Community.members := [alice_id; bob_id];
     Community.moderators := [alice_id];
     Community.posts := [post_id]; Community.events := [];
     Community.createdBy := alice_id; Community.createdAt := 0 |}.

Definition hello : Post.t :=
  {| Post.title := "Hello"; Post.content := "Hi all"; Post.images := [];
     Post.author := Some alice_id; Post.authorName := "Alice";
     Post.community := club_id; Post.likes := [bob_id];
     Post.comments := []; Post.tags := [];
     Post.createdAt := 0; Post.updatedAt := 0 |}.

Definition clerk : Job.t :=
  {| Job.title := "Clerk"; Job.company := "ACME"; Job.location := "Pune";
     Job.type := "Full-time"; Job.description := "Filing";
     Job.requirements := "None"; Job.applicationLink := None;
     Job.applicationDeadline := Some 1000%Z; Job.companyLogo := None;
     Job.postedBy := alice_id;
     Job.applicants :=
       [{| Job.user := bob_id; Job.status := "applied"; Job.appliedAt := 5;
           Job.resume := None; Job.coverLetter := None |}];
     Job.isActive := true; Job.createdAt := 0; Job.updatedAt := 0 |}.

Definition db : Store :=
  {| users := {[ alice_id := alice; bob_id := bob; carol_id := carol ]};
     communities := {[ club_id := club ]};
     posts := {[ post_id := hello ]};
     jobs := {[ job_id := clerk ]} |}.

Definition no_body : CommunityCtl.Body :=
  {| CommunityCtl.userId := None; CommunityCtl.authorName := None;
     CommunityCtl.title := None; CommunityCtl.content := None;
     CommunityCtl.images := None; CommunityCtl.tags := None |}.

Definition body_of (uid : string) : CommunityCtl.Body :=
  {| CommunityCtl.userId := Some uid; CommunityCtl.authorName := None;
     CommunityCtl.title := Some "News"; CommunityCtl.content := Some "Text";
     CommunityCtl.images := None; CommunityCtl.tags := None |}.

(** A request without credentials, with one route parameter. *)
Definition request {B : Type} (param value : string) (b : B) : Request B :=
  {| cookies := ∅; authorization := None;
     params := {[ param := value ]}; body := b; user := None |}.

(** The document [authMiddleware] attaches for a stored user. *)
Definition session (i : string) (u : User.t) : User.doc :=
  User.load User.select_minus_password i u.

(** A toy token verifier: a token that starts with "tok-" and the 24
    characters of an id decodes to that id under the secret "s3cret";
    "expired" and "garbage" are rejected the way jsonwebtoken rejects
    such tokens. *)
Definition verify (token : string) (secret : option string) : jwt_result :=
  match secret with
  | Some "s3cret" =>
      if String.eqb token "expired" then
        Throws "TokenExpiredError" "jwt expired"
      else if String.prefix "tok-" token then
        Decoded (String.substring 4 24 token)
      else Throws "JsonWebTokenError" "jwt malformed"
  | Some _ => Throws "JsonWebTokenError" "invalid signature"
  | None => Throws "Error" "secretOrPrivateKey must have a value"
  end.

(** A toy signer: the id followed by the time of issue. *)
Definition sign (now : Z) (i : string) : string + string :=
  inl ("tok-" +:+ i +:+ "." +:+ pretty now).

(** A toy password check: the hash of [p] is "$2a$10$hash-of-" ++ p. *)
Definition compare (entered hash : string) : bool :=
  String.eqb ("$2a$10$hash-of-" +:+ entered) hash.

Definition accept_post (p : Post.t) : Post.t + string :=
  if String.eqb (Post.content p) "" then
    inr "Post validation failed: content: Post content is required"
  else inl p.

End Sample.

(** ** Community administration (controllers/communityController.js)

    [createCommunity], [updateCommunity], [toggleNotifications] and
    [deletePost] are mounted behind [authMiddleware]: they take the
    attached document, [me] = [req.user]. *)

Module CommunityAdmin.

Record CreateBody : Type := {
  new_name : string;
  new_description : string;
  new_tags : option (list string);
  new_image : option string;
}.

Record UpdateBody : Type := {
  name : option string;
  description : option string;
  tags : option (list string);
  image : option string;
  isPopular : option bool;
}.

Definition community_not_found : Response :=
  respond 404 [("message", JStr "Community not found")].

Definition server_error (message : string) : Response :=
  respond 500 [("message", JStr "Server error"); ("error", JStr message)].

(** [Community.findOne({ name })]: Mongoose casts the filter with the
    schema, which runs the [trim] setter of the path on the name asked
    for. *)
Definition findOne_name (n : string) (coll : gmap string Community.t)
  : option (string * Community.t) :=
  List.find (fun kv => String.eqb (Community.name kv.2) (trim n))
    (map_to_list coll).

Definition name_taken : Response :=
  respond 400 [("message", JStr "A community with this name already exists")].

Section CreateCommunity.

(** [Community.create(data)]: schema setters and validators; the document
    as stored, or the message of the error thrown. *)
Variable castCommunity : Community.t -> Community.t + string.

(** [exports.createCommunity]; [newId] is the identifier of the new
    community and [now] the current time. *)
Definition createCommunity (newId : string) (now : Z) (st : Store)
    (me : User.doc) (req : Request CreateBody) : Store * Response :=
  match findOne_name (new_name (body req)) (communities st) with
  | Some _ => (st, name_taken)
  | None =>
      let data :=
        {| Community.name := new_name (body req);
           Community.description := new_description (body req);
           Community.image := default "" (new_image (body req));
           Community.tags := default [] (new_tags (body req));
           Community.isPopular := false;
           Community.members := [User.id me];
           Community.moderators := [User.id me];
           Community.posts := [];
           Community.events := [];
           Community.createdBy := User.id me;
           Community.createdAt := now |} in
      match castCommunity data with
      | inr message => (st, server_error message)
      | inl community =>
          let st1 :=
            set_communities st (<[newId := community]> (communities st)) in
          (* User.findByIdAndUpdate(req.user.id, { $addToSet: ... }) *)
          let st2 :=
            set_users st1
              (User.findByIdAndUpdate (User.id me)
                 (User.addToSet_communities newId) (users st1)) in
          (st2,
           {| status := 201;
              payload := JObj [("success", JBool true);
                               ("data", Community.toJSON newId community)];
              set_cookie := [] |})
      end
  end.

End CreateCommunity.

Definition not_authorized_update : Response :=
  respond 403 [("message", JStr "Not authorized to update this community")].

(** [if (name) community.name = name; ...]: an assignment runs the
    setters of the path, [trim] for the name and for each tag. *)
Definition applyUpdate (b : UpdateBody) (c : Community.t) : Community.t :=
  {| Community.name := if truthy (name b) then trim (default "" (name b))
                       else Community.name c;
     Community.description :=
       if truthy (description b) then default "" (description b)
       else Community.description c;
     Community.image := if truthy (image b) then default "" (image b)
                        else Community.image c;
     Community.tags := match tags b with
                       | Some l => trim <$> l
                       | None => Community.tags c
                       end;
     Community.isPopular := default (Community.isPopular c) (isPopular b);
     Community.members := Community.members c;
     Community.moderators := Community.moderators c;
     Community.posts := Community.posts c;
     Community.events := Community.events c;
     Community.createdBy := Community.createdBy c;
     Community.createdAt := Community.createdAt c |}.

Section UpdateCommunity.

(** [community.save()] of an edited community: [None] when the document
    is stored, or the message of the error thrown by a validator of the
    schema (a name or a description left empty) or by the unique index
    on [name]. *)
Variable saveError : Store -> string -> Community.t -> option string.

(** [exports.updateCommunity] *)
Definition updateCommunity (st : Store) (me : User.doc)
    (req : Request UpdateBody) : Store * Response :=
  let id := default "" (params req !! "id") in
  match findById id (communities st) with
  | CastError => (st, community_not_found)
  | Missing => (st, community_not_found)
  | Found community =>
      if negb (includes (User.id me) (Community.moderators community)) then
        (st, not_authorized_update)
      else
        let community' := applyUpdate (body req) community in
        match saveError st (oid id) community' with
        | Some message => (st, server_error message)
        | None =>
            (set_communities st (<[oid id := community']> (communities st)),
             respond 200 [("success", JBool true);
                          ("data", Community.toJSON (oid id) community')])
        end
  end.

End UpdateCommunity.

Definition not_a_member : Response :=
  respond 400 [("message", JStr "Not a member of this community")].

Definition notifications (message : string) : Response :=
  respond 200 [("success", JBool true); ("message", JStr message)].

(** [exports.toggleNotifications] *)
Definition toggleNotifications {B : Type} (st : Store) (me : User.doc)
    (req : Request B) : Store * Response :=
  let id := default "" (params req !! "id") in
  match findById id (communities st) with
  | CastError => (st, community_not_found)
  | Missing => (st, community_not_found)
  | Found community =>
      if negb (includes (User.id me) (Community.members community)) then
        (st, not_a_member)
      else
        match User.findById User.default_projection (User.id me) (users st) with
        | CastError => (st, community_not_found)
        | Missing =>
            (* user is null: reading user.notifiedCommunities throws *)
            (st, server_error
                   "Cannot read properties of null (reading 'notifiedCommunities')")
        | Found user =>
            (* user.notifiedCommunities.includes(community._id) *)
            let hasNotifications :=
              includes (oid id) (User.notifiedCommunities (User.raw user)) in
            if hasNotifications then
              (set_users st
                 (User.findByIdAndUpdate (User.id me)
                    (fun u => User.set_joined u (User.joinedCommunities u)
                                (pull (oid id) (User.notifiedCommunities u)))
                    (users st)),
               notifications "Notifications disabled")
            else
              (set_users st
                 (User.findByIdAndUpdate (User.id me)
                    (fun u => User.set_joined u (User.joinedCommunities u)
                                (addToSet (oid id)
                                   (User.notifiedCommunities u)))
                    (users st)),
               notifications "Notifications enabled")
        end
  end.

Definition post_not_found : Response :=
  respond 404 [("message", JStr "Post not found")].

Definition invalid_post_id : Response :=
  respond 404 [("message", JStr "Invalid post ID format")].

Definition not_authorized_delete : Response :=
  respond 403
    [("message",
      JStr "Not authorized to delete this post. Only the author or community moderators can delete posts.")].

Definition post_deleted : Response :=
  respond 200 [("success", JBool true);
               ("message", JStr "Post deleted successfully")].

(** [post.author && post.author.toString() === req.user.id] *)
Definition isAuthor (me : User.doc) (post : Post.t) : bool :=
  match Post.author post with
  | Some a => String.eqb a (User.id me)
  | None => false
  end.

(** [Community.findByIdAndUpdate(id, { $pull: { posts: postId } })], for
    an [id] that passes the cast. *)
Definition pull_post (id postId : string) (coll : gmap string Community.t)
  : gmap string Community.t :=
  match coll !! oid id with
  | Some c =>
      <[oid id := Community.set_posts c (pull postId (Community.posts c))]> coll
  | None => coll
  end.

(** The writes of [deletePost] once the user is authorized; [postId]
    is [post._id]. *)
Definition removePost (st : Store) (postId : string) (post : Post.t)
  : Store * Response :=
  if truthy (Some (Post.community post)) then
    if isObjectIdFormat (Post.community post) then
      let st1 :=
        set_communities st
          (pull_post (Post.community post) postId (communities st)) in
      (set_posts st1 (delete postId (posts st1)), post_deleted)
    else (st, invalid_post_id)
  else (set_posts st (delete postId (posts st)), post_deleted).

(** [exports.deletePost].  The Community schema has [createdBy] and no
    [creator] path, so [community.creator] is [undefined] and
    [isCommunityCreator] is never true. *)
Definition deletePost {B : Type} (st : Store) (me : User.doc)
    (req : Request B) : Store * Response :=
  let postId := default "" (params req !! "postId") in
  match findById postId (posts st) with
  | CastError => (st, invalid_post_id)
  | Missing => (st, post_not_found)
  | Found post =>
      if isAuthor me post then removePost st (oid postId) post
      else
        match findById (Post.community post) (communities st) with
        | CastError => (st, invalid_post_id)
        | Missing => (st, not_authorized_delete)
        | Found community =>
            let isCommunityCreator := false in
            let isModerator :=
              includes (User.id me) (Community.moderators community) in
            if isCommunityCreator || isModerator
            then removePost st (oid postId) post
            else (st, not_authorized_delete)
        end
  end.

End CommunityAdmin.

(** ** Job administration and listing (controllers/jobController.js) *)

Module JobAdmin.

Record StatusBody : Type := {
  new_status : option string;
}.

Definition job_not_found : Response :=
  respond 404 [("message", JStr "Job not found")].

Definition not_authorized_delete : Response :=
  respond 403 [("message", JStr "Not authorized to delete this job")].

Definition job_removed : Response :=
  respond 200 [("success", JBool true); ("message", JStr "Job removed")].

(** [exports.deleteJob] *)
Definition deleteJob {B : Type} (st : Store) (me : User.doc)
    (req : Request B) : Store * Response :=
  let id := default "" (params req !! "id") in
  match findById id (jobs st) with
  | CastError => (st, job_not_found)
  | Missing => (st, job_not_found)
  | Found job =>
      if negb (String.eqb (Job.postedBy job) (User.id me)) then
        (st, not_authorized_delete)
      else (set_jobs st (delete (oid id) (jobs st)), job_removed)
  end.

(** The statuses of an application. *)
Definition statuses : list string :=
  ["applied"; "reviewing"; "interview"; "rejected"; "accepted"].

(** [statuses.includes(status)], [status] possibly [undefined]. *)
Definition validStatus (s : option string) : bool :=
  match s with
  | Some x => existsb (String.eqb x) statuses
  | None => false
  end.

Definition invalid_status : Response :=
  respond 400 [("message", JStr "Invalid status")].

Definition not_authorized_status : Response :=
  respond 403
    [("message", JStr "Not authorized to update application status")].

Definition applicant_not_found : Response :=
  respond 404 [("message", JStr "Applicant not found")].

Definition job_or_user_not_found : Response :=
  respond 404 [("message", JStr "Job or user not found")].

Definition status_updated (s : string) : Response :=
  respond 200 [("success", JBool true);
               ("message", JStr ("Application status updated to " +:+ s))].

(** [l[l.findIndex(p)] = f(l[l.findIndex(p)])]: the first element that
    satisfies [p] is replaced; [None] when there is none (index -1). *)
Fixpoint update_first {A : Type} (p : A -> bool) (f : A -> A) (l : list A)
  : option (list A) :=
  match l with
  | [] => None
  | x :: rest =>
      if p x then Some (f x :: rest)
      else match update_first p f rest with
           | Some rest' => Some (x :: rest')
           | None => None
           end
  end.

Definition set_status (s : string) (a : Job.applicant) : Job.applicant :=
  {| Job.user := Job.user a; Job.status := s; Job.appliedAt := Job.appliedAt a;
     Job.resume := Job.resume a; Job.coverLetter := Job.coverLetter a |}.

Definition set_applied_status (s : string) (a : User.appliedJob)
  : User.appliedJob :=
  {| User.aj_job := User.aj_job a; User.aj_status := s;
     User.aj_appliedAt := User.aj_appliedAt a |}.

(** [User.updateOne({ _id, "appliedJobs.job": job },
                    { $set: { "appliedJobs.$.status": s } })], [uid] and
    [job] being the ObjectIds the filter is cast to: the first matching
    element of [appliedJobs] gets the status; a user without a matching
    element is not written. *)
Definition updateOne_applied (uid job s : string) (coll : gmap string User.t)
  : gmap string User.t :=
  match coll !! uid with
  | Some u =>
      match update_first (fun a => String.eqb (User.aj_job a) job)
              (set_applied_status s) (User.appliedJobs u) with
      | Some l => <[uid := User.set_appliedJobs u l]> coll
      | None => coll
      end
  | None => coll
  end.

(** [exports.updateApplicationStatus] *)
Definition updateApplicationStatus (st : Store) (me : User.doc)
    (req : Request StatusBody) : Store * Response :=
  if negb (validStatus (new_status (body req))) then (st, invalid_status)
  else
    let s := default "" (new_status (body req)) in
    let id := default "" (params req !! "id") in
    let user_id := default "" (params req !! "user_id") in
    match findById id (jobs st) with
    | CastError => (st, job_or_user_not_found)
    | Missing => (st, job_not_found)
    | Found job =>
        if negb (String.eqb (Job.postedBy job) (User.id me)) then
          (st, not_authorized_status)
        else
          match update_first (fun app => String.eqb (Job.user app) user_id)
                  (set_status s) (Job.applicants job) with
          | None => (st, applicant_not_found)
          | Some applicants' =>
              (* job.applicants[applicationIndex].status = status;
                 await job.save() *)
              let st1 :=
                set_jobs st
                  (<[oid id := Job.set_applicants job applicants']>
                     (jobs st)) in
              if isObjectIdFormat user_id then
                (set_users st1
                   (updateOne_applied (oid user_id) (oid id) s (users st1)),
                 status_updated s)
              else
                (* the query's _id cannot be cast: thrown after the save *)
                (st1, job_or_user_not_found)
          end
    end.

(** *** Listing *)

(** [req.query] of [GET /api/job]; [page] and [limit] are what
    [parseInt(_, 10)] yields, [None] standing for [NaN]. *)
Record ListQuery : Type := {
  page : option Z;
  limit : option Z;
  search : option string;
  type : option string;
  location : option string;
  sort : option string;
}.

(** [n || d] on a parsed number: [NaN] and [0] are falsy. *)
Definition number_or (n : option Z) (d : Z) : Z :=
  match n with
  | Some z => if (z =? 0)%Z then d else z
  | None => d
  end.

(** [Math.ceil(a / b)] on integers, [b] not zero. *)
Definition ceil_div (a b : Z) : Z := (- ((- a) / b))%Z.

(** The query [getJobs] builds: [{ isActive: true }] with a text search,
    a job type and a case-insensitive location pattern when the request
    gives them. *)
Record Filter : Type := {
  f_text : option string;
  f_type : option string;
  f_location : option string;
}.

Inductive SortSpec : Type :=
  | CreatedAtDesc        (* { createdAt: -1 } *)
  | SalaryMinDesc.       (* { "salary.min": -1 } *)

Definition filterOf (q : ListQuery) : Filter :=
  {| f_text := if truthy (search q) then search q else None;
     f_type := if truthy (type q) then type q else None;
     f_location := if truthy (location q) then location q else None |}.

Definition sortOf (q : ListQuery) : SortSpec :=
  match sort q with
  | Some "latest" => CreatedAtDesc
  | Some "salary" => SalaryMinDesc
  | _ => CreatedAtDesc
  end.

Section GetJobs.

(** [Job.find(filter).sort(sort)]: the matching jobs in the order asked
    for. *)
Variable findJobs : Store -> Filter -> SortSpec -> list json.

(** [cursor.skip(s).limit(l)] on the sorted matches: the documents the
    driver returns, or the message of the error it throws. *)
Variable skipLimit : Z -> Z -> list json -> list json + string.

(** What [res.json] does with a job of the page.  The query selects
    some paths, [applicants] not among them, and the schema serialises
    with its virtuals: [applicantCount] reads [this.applicants.length]
    on a document that has no [applicants], which throws. *)
Definition applicantCount_error : string :=
  "Cannot read properties of undefined (reading 'length')".

(** [exports.getJobs] *)
Definition getJobs (st : Store) (q : ListQuery) : Response :=
  let page := number_or (page q) 1 in
  let limit := number_or (limit q) 10 in
  let startIndex := ((page - 1) * limit)%Z in
  let filter := filterOf q in
  let sort := sortOf q in
  match skipLimit startIndex limit (findJobs st filter sort) with
  | inr message =>
      respond 500 [("message", JStr "Server error"); ("error", JStr message)]
  | inl [] =>
      (* Job.countDocuments(filter) *)
      let total := Z.of_nat (length (findJobs st filter sort)) in
      respond 200
        [("success", JBool true);
         ("count", JNum 0);
         ("pagination",
          JObj [("totalItems", JNum total);
                ("totalPages", JNum (ceil_div total limit));
                ("currentPage", JNum page)]);
         ("data", JArr [])]
  | inl (_ :: _) =>
      (* thrown while the response is serialised, inside the try *)
      respond 500 [("message", JStr "Server error");
                   ("error", JStr applicantCount_error)]
  end.

End GetJobs.

End JobAdmin.

(** ** Vocabulary of the further properties *)

Module MoreFacts.

(** The route parameter [p] of [req] names, in either case of the
    hexadecimal digits, the document [d] stored under [id] in [coll]. *)
Definition names {A B : Type} (req : Request B) (p id : string)
    (coll : gmap string A) (d : A) : Prop :=
  Facts.routed req p id
  /\ coll !! id = Some d.

(** The signed-in user [me] is the stored user [usr]. *)
Definition signed_in (st : Store) (me : User.doc) (usr : User.t) : Prop :=
  isObjectIdFormat (User.id me) = true
  /\ users st !! User.id me = Some usr.

(** No two stored users share an email. *)
Definition emails_unique (coll : gmap string User.t) : Prop :=
  forall i j u v,
    coll !! i = Some u -> coll !! j = Some v ->
    User.email u = User.email v -> i = j.

(** The setters of the Community schema trim the name and the tags; they
    leave the roster alone. *)
Definition keeps_roster (castCommunity : Community.t -> Community.t + string)
  : Prop :=
  forall d c, castCommunity d = inl c ->
    Community.members c = Community.members d
    /\ Community.moderators c = Community.moderators d.

(** [me] may delete [post]: as its author, or as a moderator of the
    community it belongs to. *)
Definition may_delete (st : Store) (me : User.doc) (post : Post.t) : Prop :=
  CommunityAdmin.isAuthor me post = true
  \/ exists c,
       communities st !! Post.community post = Some c
       /\ User.id me ∈ Community.moderators c.

(** [Post.create] keeps the references of the post it stores. *)
Definition keeps_refs (castPost : Post.t -> Post.t + string) : Prop :=
  forall d p, castPost d = inl p ->
    Post.author p = Post.author d /\ Post.community p = Post.community d.

(** For a non-negative skip and a positive limit the cursor returns the
    [limit] documents that follow the first [skip]. *)
Definition pages_by_skip_limit
    (skipLimit : Z -> Z -> list json -> list json + string) : Prop :=
  forall s l ms, (0 <= s)%Z -> (0 < l)%Z ->
    skipLimit s l ms = inl (take (Z.to_nat l) (drop (Z.to_nat s) ms)).

(** The client sends back the cookies a response set. *)
Definition returns_cookies {B : Type} (r : Response) (req : Request B) : Prop :=
  forall k v, (k, v) ∈ set_cookie r -> cookies req !! k = Some (JStr v).

(** The [user] object of a response. *)
Definition user_of (r : Response) : option json :=
  Json.get "user" (payload r).

(** Every community of [st] is still stored in [st'], with no moderator
    it did not have and the same creator. *)
Definition no_new_moderator (st st' : Store) : Prop :=
  forall cid c, communities st !! cid = Some c ->
    exists c', communities st' !! cid = Some c'
      /\ Community.moderators c' ⊆ Community.moderators c
      /\ Community.createdBy c' = Community.createdBy c.

(** The [data] array of a response. *)
Definition data_of (r : Response) : list json :=
  match Json.get "data" (payload r) with
  | Some (JArr items) => items
  | _ => []
  end.

End MoreFacts.

(** ** Saved external jobs (server.js)

    The routes [POST /api/jobs/save] and
    [DELETE /api/jobs/saved/:userId/:jobId] work on the [saved_jobs]
    collection, kept here as the list of its documents in insertion
    order. *)

Module SavedJobs.

Record saved : Type := {
  _id : string;
  user_id : string;
  application_url : string;
  job_id : string;
  saved_at : Z;
  rest : list (string * json);         (* the other fields of the job *)
}.

(** [req.body] of the save route. *)
Record JobData : Type := {
  url : option string;                 (* jobData.application_url *)
  title : option string;
  others : list (string * json);
}.

Definition bad_request (message : string) : Response :=
  respond 400 [("success", JBool false); ("message", JStr message)].

(** [collection.findOne(q)]: the first document that matches. *)
Definition findOne (p : saved -> bool) (coll : list saved) : option saved :=
  List.find p coll.

(** [collection.deleteOne(q)]: the first document that matches is
    removed; [None] when [deletedCount] is 0. *)
Fixpoint deleteOne (p : saved -> bool) (coll : list saved)
  : option (list saved) :=
  match coll with
  | [] => None
  | d :: rest =>
      if p d then Some rest
      else match deleteOne p rest with
           | Some rest' => Some (d :: rest')
           | None => None
           end
  end.

Definition same_job (u a : string) (d : saved) : bool :=
  String.eqb (user_id d) u && String.eqb (application_url d) a.

Definition toggled (is_saved : bool) : Response :=
  respond 200
    [("success", JBool true);
     ("message", JStr (if is_saved then "Job saved successfully"
                       else "Job removed from saved jobs"));
     ("is_saved", JBool is_saved)].

(** [app.post("/api/jobs/save", ...)]; [userId] is [req.query.user_id],
    [newId] the identifier the driver gives an inserted document and
    [now] the clock. *)
Definition saveJob (newId : string) (now : Z) (coll : list saved)
    (userId : option string) (jobData : JobData) : list saved * Response :=
  if negb (truthy userId) then (coll, bad_request "User ID is required")
  else if negb (truthy (url jobData)) then
    (coll, bad_request "Job application URL is required")
  else
    let u := default "" userId in
    let a := default "" (url jobData) in
    match findOne (same_job u a) coll with
    | Some existingJob =>
        (* deleteOne({ _id: existingJob._id }) *)
        (default coll
           (deleteOne (fun d => String.eqb (_id d) (_id existingJob)) coll),
         toggled false)
    | None =>
        let savedJob :=
          {| _id := newId; user_id := u; application_url := a;
             job_id := "job-" +:+ pretty now; saved_at := now;
             rest := (Json.opt_field "title" (JStr <$> title jobData)
                      ++ others jobData)%list |} in
        ((coll ++ [savedJob])%list, toggled true)
    end.

Definition same_saved (u j : string) (d : saved) : bool :=
  String.eqb (user_id d) u && String.eqb (job_id d) j.

(** [app.delete("/api/jobs/saved/:userId/:jobId", ...)] *)
Definition deleteSaved (coll : list saved) (userId jobId : string)
  : list saved * Response :=
  if negb (truthy (Some userId)) || negb (truthy (Some jobId)) then
    (coll, bad_request "User ID and Job ID are required")
  else
    match deleteOne (same_saved userId jobId) coll with
    | None =>
        (coll, respond 404 [("success", JBool false);
                            ("message", JStr "Saved job not found")])
    | Some coll' =>
        (coll', respond 200 [("success", JBool true);
                             ("message", JStr "Job removed from saved jobs")])
    end.

(** The [is_saved] flag of a response. *)
Definition is_saved (r : Response) : option json :=
  Json.get "is_saved" (payload r).

(** At most one saved document per user and application URL. *)
Definition one_per_job (coll : list saved) : Prop :=
  NoDup ((fun d => (user_id d, application_url d)) <$> coll).

(** The driver's guarantee: no two documents share an [_id]. *)
Definition ids_unique (coll : list saved) : Prop :=
  NoDup (_id <$> coll).

(** Whether [coll] holds a document for user [u] and URL [a]. *)
Definition holds (u a : string) (coll : list saved) : bool :=
  existsb (same_job u a) coll.

End SavedJobs.

(** ** Experience and education (controllers/profileController.js) *)

Module ProfileEntries.

Definition set_experience (u : User.t) (l : list json) : User.t :=
  {| User.name := User.name u; User.email := User.email u;
     User.password := User.password u;
     User.profileImage := User.profileImage u; User.bio := User.bio u;
     User.title := User.title u; User.website := User.website u;
     User.phone := User.phone u; User.skills := User.skills u;
     User.experience := l; User.education := User.education u;
     User.location := User.location u;
     User.socialLinks := User.socialLinks u;
     User.savedJobs := User.savedJobs u;
     User.appliedJobs := User.appliedJobs u;
     User.joinedCommunities := User.joinedCommunities u;
     User.notifiedCommunities := User.notifiedCommunities u;
     User.resetPasswordToken := User.resetPasswordToken u;
     User.resetPasswordExpire := User.resetPasswordExpire u;
     User.createdAt := User.createdAt u |}.

Definition set_education (u : User.t) (l : list json) : User.t :=
  {| User.name := User.name u; User.email := User.email u;
     User.password := User.password u;
     User.profileImage := User.profileImage u; User.bio := User.bio u;
     User.title := User.title u; User.website := User.website u;
     User.phone := User.phone u; User.skills := User.skills u;
     User.experience := User.experience u; User.education := l;
     User.location := User.location u;
     User.socialLinks := User.socialLinks u;
     User.savedJobs := User.savedJobs u;
     User.appliedJobs := User.appliedJobs u;
     User.joinedCommunities := User.joinedCommunities u;
     User.notifiedCommunities := User.notifiedCommunities u;
     User.resetPasswordToken := User.resetPasswordToken u;
     User.resetPasswordExpire := User.resetPasswordExpire u;
     User.createdAt := User.createdAt u |}.

Definition server_error (message : string) : Response :=
  respond 500 [("message", JStr "Server error"); ("error", JStr message)].

Definition entries (l : list json) : Response :=
  respond 200 [("success", JBool true); ("data", JArr l)].

(** [entry._id.toString()]: [None] when the entry has no [_id] (the
    property access throws). *)
Definition entry_id (e : json) : option string :=
  match Json.get "_id" e with
  | Some (JStr i) => Some i
  | _ => None
  end.

(** [l.findIndex((e) => e._id.toString() === id)] followed by
    [l.splice(index, 1)]: [inl None] for index -1, [inl (Some l')] for
    the list without the entry found, [inr tt] when the callback
    throws. *)
Fixpoint splice_by_id (id : string) (l : list json)
  : option (list json) + unit :=
  match l with
  | [] => inl None
  | e :: rest =>
      match entry_id e with
      | None => inr tt
      | Some i =>
          if String.eqb i id then inl (Some rest)
          else match splice_by_id id rest with
               | inl (Some rest') => inl (Some (e :: rest'))
               | inl None => inl None
               | inr tt => inr tt
               end
      end
  end.

Section Entries.

(** The body of an add request, generic in its fields. *)
Context {Fields : Type}.

(** The sub-document Mongoose makes of the fields of the request: it
    casts them to the schema's types and gives the entry the [_id]
    passed; a field that cannot be cast ([from: Date], say) makes
    [user.save()] throw, with the message returned. *)
Variable castEntry : Fields -> string -> json + string.

(** [exports.addExperience]; [newId] is the [_id] of the new entry. *)
Definition addExperience (newId : string) (st : Store) (me : User.doc)
    (req : Request Fields) : Store * Response :=
  match User.findById User.default_projection (User.id me) (users st) with
  | CastError => (st, server_error "Cast to ObjectId failed")
  | Missing =>
      (st, server_error
             "Cannot read properties of null (reading 'experience')")
  | Found user =>
      (* user.experience.unshift(new entry); await user.save() *)
      match castEntry (body req) newId with
      | inr message => (st, server_error message)
      | inl entry =>
          let l := entry :: User.experience (User.raw user) in
          (set_users st
             (<[User.id me := set_experience (User.raw user) l]> (users st)),
           entries l)
      end
  end.

(** [exports.addEducation] *)
Definition addEducation (newId : string) (st : Store) (me : User.doc)
    (req : Request Fields) : Store * Response :=
  match User.findById User.default_projection (User.id me) (users st) with
  | CastError => (st, server_error "Cast to ObjectId failed")
  | Missing =>
      (st, server_error
             "Cannot read properties of null (reading 'education')")
  | Found user =>
      (* user.education.unshift(new entry); await user.save() *)
      match castEntry (body req) newId with
      | inr message => (st, server_error message)
      | inl entry =>
          let l := entry :: User.education (User.raw user) in
          (set_users st
             (<[User.id me := set_education (User.raw user) l]> (users st)),
           entries l)
      end
  end.

End Entries.

(** [exports.deleteExperience] *)
Definition deleteExperience {B : Type} (st : Store) (me : User.doc)
    (req : Request B) : Store * Response :=
  match User.findById User.default_projection (User.id me) (users st) with
  | CastError => (st, server_error "Cast to ObjectId failed")
  | Missing =>
      (st, server_error
             "Cannot read properties of null (reading 'experience')")
  | Found user =>
      match splice_by_id (default "" (params req !! "exp_id"))
              (User.experience (User.raw user)) with
      | inr tt =>
          (st, server_error
                 "Cannot read properties of undefined (reading 'toString')")
      | inl None =>
          (st, respond 404 [("message", JStr "Experience not found")])
      | inl (Some l) =>
          (set_users st
             (<[User.id me := set_experience (User.raw user) l]> (users st)),
           entries l)
      end
  end.

(** [exports.deleteEducation] *)
Definition deleteEducation {B : Type} (st : Store) (me : User.doc)
    (req : Request B) : Store * Response :=
  match User.findById User.default_projection (User.id me) (users st) with
  | CastError => (st, server_error "Cast to ObjectId failed")
  | Missing =>
      (st, server_error
             "Cannot read properties of null (reading 'education')")
  | Found user =>
      match splice_by_id (default "" (params req !! "edu_id"))
              (User.education (User.raw user)) with
      | inr tt =>
          (st, server_error
                 "Cannot read properties of undefined (reading 'toString')")
      | inl None =>
          (st, respond 404 [("message", JStr "Education not found")])
      | inl (Some l) =>
          (set_users st
             (<[User.id me := set_education (User.raw user) l]> (users st)),
           entries l)
      end
  end.

(** Every entry carries an [_id], and the new one is not among them. *)
Definition fresh_entry_id (newId : string) (l : list json) : Prop :=
  Forall (fun e => exists i, entry_id e = Some i /\ i <> newId) l.

End ProfileEntries.

(** ** Password reset (controllers/authController.js) *)

Module PasswordReset.

Record ForgotBody : Type := {
  email : string;
}.

Record ResetBody : Type := {
  password : string;
}.

Definition set_reset (u : User.t) (token : option string) (expire : option Z)
  : User.t :=
  {| User.name := User.name u; User.email := User.email u;
     User.password := User.password u;
     User.profileImage := User.profileImage u; User.bio := User.bio u;
     User.title := User.title u; User.website := User.website u;
     User.phone := User.phone u; User.skills := User.skills u;
     User.experience := User.experience u;
     User.education := User.education u;
     User.location := User.location u;
     User.socialLinks := User.socialLinks u;
     User.savedJobs := User.savedJobs u;
     User.appliedJobs := User.appliedJobs u;
     User.joinedCommunities := User.joinedCommunities u;
     User.notifiedCommunities := User.notifiedCommunities u;
     User.resetPasswordToken := token;
     User.resetPasswordExpire := expire;
     User.createdAt := User.createdAt u |}.

Definition set_password (u : User.t) (hash : string) : User.t :=
  {| User.name := User.name u; User.email := User.email u;
     User.password := hash;
     User.profileImage := User.profileImage u; User.bio := User.bio u;
     User.title := User.title u; User.website := User.website u;
     User.phone := User.phone u; User.skills := User.skills u;
     User.experience := User.experience u;
     User.education := User.education u;
     User.location := User.location u;
     User.socialLinks := User.socialLinks u;
     User.savedJobs := User.savedJobs u;
     User.appliedJobs := User.appliedJobs u;
     User.joinedCommunities := User.joinedCommunities u;
     User.notifiedCommunities := User.notifiedCommunities u;
     User.resetPasswordToken := User.resetPasswordToken u;
     User.resetPasswordExpire := User.resetPasswordExpire u;
     User.createdAt := User.createdAt u |}.

Definition server_error (message : string) : Response :=
  respond 500 [("message", JStr "Server error"); ("error", JStr message)].

Definition invalid_token : Response :=
  respond 400 [("message", JStr "Invalid or expired token")].

(** [{ resetPasswordToken: h, resetPasswordExpire: { $gt: now } }] *)
Definition holds_token (h : string) (now : Z) (u : User.t) : bool :=
  match User.resetPasswordToken u, User.resetPasswordExpire u with
  | Some t, Some e => String.eqb t h && (now <? e)%Z
  | _, _ => false
  end.

(** [User.findOne({ resetPasswordToken, resetPasswordExpire: { $gt } })] *)
Definition findOne_token (h : string) (now : Z) (coll : gmap string User.t)
  : option (string * User.t) :=
  List.find (fun kv => holds_token h now kv.2) (map_to_list coll).

Section Reset.

(** [crypto.createHash("sha256").update(t).digest("hex")] *)
Variable sha256 : string -> string.

(** [generateToken(id)] at a given time. *)
Variable generateToken : Z -> string -> string + string.

(** [user.password = p; await user.save()]: the validators and the
    pre-save hook; the hash that is stored, or the message of the error
    thrown. *)
Variable savePassword : string -> string + string.

(** [exports.forgotPassword]; [resetToken] is what
    [crypto.randomBytes(20).toString("hex")] yields. *)
Definition forgotPassword (resetToken : string) (now : Z) (st : Store)
    (req : Request ForgotBody) : Store * Response :=
  match User.findOne_email User.default_projection (email (body req))
          (users st) with
  | None => (st, respond 404 [("message", JStr "User not found")])
  | Some user =>
      let u' := set_reset (User.raw user) (Some (sha256 resetToken))
                  (Some (now + 10 * 60 * 1000)%Z) in
      (set_users st (<[User._id user := u']> (users st)),
       respond 200 [("success", JBool true);
                    ("message", JStr "Password reset token generated");
                    ("resetToken", JStr resetToken)])
  end.

(** [exports.resetPassword] *)
Definition resetPassword (now : Z) (st : Store) (req : Request ResetBody)
  : Store * Response :=
  let resetPasswordToken :=
    sha256 (default "" (params req !! "resettoken")) in
  match findOne_token resetPasswordToken now (users st) with
  | None => (st, invalid_token)
  | Some (i, u) =>
      match savePassword (password (body req)) with
      | inr message => (st, server_error message)
      | inl hash =>
          let u' := set_reset (set_password u hash) None None in
          let st1 := set_users st (<[i := u']> (users st)) in
          match generateToken now i with
          | inr message => (st1, server_error message)
          | inl token =>
              (st1,
               {| status := 200;
                  payload := JObj [("success", JBool true);
                                   ("message",
                                    JStr "Password reset successful");
                                   ("token", JStr token)];
                  set_cookie := [("token", token)] |})
          end
      end
  end.

End Reset.

(** No user other than [i] holds the hashed token [h]. *)
Definition sole_holder (h : string) (i : string) (coll : gmap string User.t)
  : Prop :=
  forall j u, coll !! j = Some u -> j <> i ->
    User.resetPasswordToken u <> Some h.

(** At most one user holds the hashed token [h]. *)
Definition held_once (h : string) (coll : gmap string User.t) : Prop :=
  forall j k u v, coll !! j = Some u -> coll !! k = Some v ->
    User.resetPasswordToken u = Some h ->
    User.resetPasswordToken v = Some h -> j = k.

End PasswordReset.

(** ** More sample data *)

Module Fixtures.

(** A sub-document with a title only. *)
Definition entry (title id : string) : json + string :=
  inl (JObj [("_id", JStr id); ("title", JStr title)]).

(** Alice with two entries in her experience and her education. *)
Definition veteran : User.t :=
  let l := [JObj [("_id", JStr "e1"); ("title", JStr "Clerk")];
            JObj [("_id", JStr "e2"); ("title", JStr "Teacher")]] in
  ProfileEntries.set_education
    (ProfileEntries.set_experience Sample.alice l) l.

Definition veterans : Store :=
  set_users Sample.db (<[Sample.alice_id := veteran]> (users Sample.db)).

(** A toy [User.create]: the setters of the email, and the toy hash of
    [Sample.compare] for the password. *)
Definition hashed (u : User.t) : User.t + string :=
  inl (PasswordReset.set_password
         {| User.name := User.name u;
            User.email := User.setEmail (User.email u);
            User.password := User.password u;
            User.profileImage := User.profileImage u; User.bio := User.bio u;
            User.title := User.title u; User.website := User.website u;
            User.phone := User.phone u; User.skills := User.skills u;
            User.experience := User.experience u;
            User.education := User.education u;
            User.location := User.location u;
            User.socialLinks := User.socialLinks u;
            User.savedJobs := User.savedJobs u;
            User.appliedJobs := User.appliedJobs u;
            User.joinedCommunities := User.joinedCommunities u;
            User.notifiedCommunities := User.notifiedCommunities u;
            User.resetPasswordToken := User.resetPasswordToken u;
            User.resetPasswordExpire := User.resetPasswordExpire u;
            User.createdAt := User.createdAt u |}
         ("$2a$10$hash-of-" +:+ User.password u)).

(** A toy digest. *)
Definition digest (s : string) : string := "sha256-of-" +:+ s.

(** A toy [user.save()] for a new password: the minimum length of the
    schema, and the toy hash of [Sample.compare]. *)
Definition save_password (p : string) : string + string :=
  if (String.length p <? 6)%nat then
    inr "User validation failed: password: Password must be at least 6 characters"
  else inl ("$2a$10$hash-of-" +:+ p).

Definition forgot (e : string) : Request PasswordReset.ForgotBody :=
  Sample.request "unused" "" {| PasswordReset.email := e |}.

Definition reset (t p : string) : Request PasswordReset.ResetBody :=
  Sample.request "resettoken" t {| PasswordReset.password := p |}.

(** Alice alone, and Alice after she asked for a reset at time 1000. *)
Definition solo : Store :=
  set_users Sample.db {[ Sample.alice_id := Sample.alice ]}.

Definition asked : Store :=
  set_users Sample.db
    {[ Sample.alice_id :=
         PasswordReset.set_reset Sample.alice (Some (digest "r4nd0m"))
           (Some 601000%Z) ]}.

End Fixtures.

(** ** One request at a time

    [handled st st'] holds when one call of a handler that writes the
    database takes the state [st] to [st']. *)

Inductive handled (st : Store) : Store -> Prop :=
  | handled_join req :
      handled st (CommunityCtl.joinCommunity st req).1
  | handled_leave req :
      handled st (CommunityCtl.leaveCommunity st req).1
  | handled_createPost castPost newId now req :
      handled st (CommunityCtl.createPost castPost newId now st req).1
  | handled_like req :
      handled st (CommunityCtl.likePost st req).1
  | handled_unlike req :
      handled st (CommunityCtl.unlikePost st req).1
  | handled_createCommunity castCommunity newId now me req :
      MoreFacts.keeps_roster castCommunity ->
      communities st !! newId = None ->
      handled st
        (CommunityAdmin.createCommunity castCommunity newId now st me req).1
  | handled_updateCommunity saveError me req :
      handled st (CommunityAdmin.updateCommunity saveError st me req).1
  | handled_toggleNotifications me (req : Request unit) :
      handled st (CommunityAdmin.toggleNotifications st me req).1
  | handled_deletePost me (req : Request unit) :
      handled st (CommunityAdmin.deletePost st me req).1
  | handled_apply now me req :
      handled st (JobCtl.applyForJob now st me req).1
  | handled_save me req :
      handled st (JobCtl.saveJob st me req).1
  | handled_deleteJob me (req : Request unit) :
      handled st (JobAdmin.deleteJob st me req).1
  | handled_status me req :
      handled st (JobAdmin.updateApplicationStatus st me req).1
  | handled_register generateToken castUser newId now req :
      handled st (AuthCtl.register generateToken castUser newId now st req).1.

(** * Properties *)

(** ** Utilities *)

(** Closing goals on the sample data. *)
Ltac run := vm_compute; reflexivity.

Ltac listed :=
  simpl; repeat first [apply list_elem_of_here | apply list_elem_of_further].

Ltac not_listed :=
  simpl; let H := fresh "H" in
  intros H;
  repeat (apply elem_of_cons in H as [H|H]; [discriminate H|]);
  by apply elem_of_nil in H.

Ltac sample_subset :=
  let x := fresh "x" in
  let H := fresh "H" in
  intros x H; simpl in H |- *;
  repeat (apply elem_of_cons in H as [H|H]; [subst x; listed|]);
  by apply elem_of_nil in H.

Example split_space_bearer :
  split_space "Bearer abc.def" = ["Bearer"; "abc.def"].
Proof. reflexivity. Qed.

Example split_space_double :
  split_space "Bearer  x" = ["Bearer"; ""; "x"].
Proof. reflexivity. Qed.

Example bearer_header :
  Auth.bearer (Some "Bearer abc.def") = Some "abc.def"
  /\ Auth.bearer (Some "Basic abc.def") = None
  /\ Auth.bearer (Some "Bearer") = None
  /\ Auth.bearer None = None.
Proof. repeat split; reflexivity. Qed.

Example isObjectIdFormat_ok :
  isObjectIdFormat "64b0f1a2c3d4e5f60718293a" = true
  /\ isObjectIdFormat "64b0f1a2c3d4e5f60718293" = false
  /\ isObjectIdFormat "64b0f1a2c3d4e5f60718293g" = false.
Proof. repeat split; reflexivity. Qed.

Example oid_lower_case :
  oid "64B0F1A2C3D4E5F60718293A" = "64b0f1a2c3d4e5f60718293a"
  /\ isObjectIdFormat "64B0F1A2C3D4E5F60718293A" = true
  /\ isObjectId "64B0F1A2C3D4E5F60718293A" = false.
Proof. repeat split; reflexivity. Qed.

Example setters :
  trim "  Club " = "Club"
  /\ User.setEmail " ALICE@X.COM" = "alice@x.com".
Proof. split; reflexivity. Qed.

(** *** Identifiers *)

Ltac each_char c :=
  destruct c as [[] [] [] [] [] [] [] []]; try reflexivity; try discriminate.

Lemma lower_hex_idem (c : ascii) : lower_hex (lower_hex c) = lower_hex c.
Proof. each_char c. Qed.

Lemma lower_hex_fixed (c : ascii) : is_lower_hex c = true -> lower_hex c = c.
Proof. each_char c. Qed.

Lemma is_lower_hex_is_hex (c : ascii) : is_lower_hex c = true -> is_hex c = true.
Proof. each_char c. Qed.

Lemma is_hex_lower_hex (c : ascii) : is_hex (lower_hex c) = is_hex c.
Proof. each_char c. Qed.

(** Casting twice is casting once. *)
Lemma oid_idem (s : string) : oid (oid s) = oid s.
Proof.
  unfold oid. induction s as [|c s IH]; [done|].
  simpl. by rewrite lower_hex_idem, IH.
Qed.

Lemma all_chars_lower_hex (s : string) :
  all_chars is_lower_hex s = true ->
  all_chars is_hex s = true /\ map_chars lower_hex s = s.
Proof.
  induction s as [|c s IH]; [done|]. simpl.
  intros [Hc Hs]%andb_true_iff. destruct (IH Hs) as [H1 H2].
  rewrite (is_lower_hex_is_hex _ Hc), H1, (lower_hex_fixed _ Hc), H2. done.
Qed.

(** The string form of an ObjectId has the format the handlers test, and
    casting it gives the same string. *)
Lemma isObjectId_format (s : string) :
  isObjectId s = true -> isObjectIdFormat s = true.
Proof.
  unfold isObjectId, isObjectIdFormat.
  intros [Hlen Hs]%andb_true_iff. rewrite Hlen.
  by destruct (all_chars_lower_hex _ Hs) as [-> _].
Qed.

Lemma isObjectId_oid (s : string) : isObjectId s = true -> oid s = s.
Proof.
  unfold isObjectId. intros [_ Hs]%andb_true_iff.
  by destruct (all_chars_lower_hex _ Hs) as [_ ?].
Qed.

Lemma isObjectIdFormat_nonempty (s : string) :
  isObjectIdFormat s = true -> s <> "".
Proof. intros H ->. discriminate H. Qed.

Lemma isObjectId_nonempty (s : string) : isObjectId s = true -> s <> "".
Proof. by intros H ->. Qed.

Lemma map_chars_length (f : ascii -> ascii) (s : string) :
  String.length (map_chars f s) = String.length s.
Proof. induction s as [|c s IH]; [done|]. simpl. by rewrite IH. Qed.

Lemma isObjectIdFormat_oid (s : string) :
  isObjectIdFormat (oid s) = isObjectIdFormat s.
Proof.
  unfold isObjectIdFormat, oid. rewrite map_chars_length. f_equal.
  induction s as [|c s IH]; [done|]. simpl.
  by rewrite is_hex_lower_hex, IH.
Qed.

Lemma is_hex_lower (c : ascii) :
  is_hex c = true -> is_lower_hex (lower_hex c) = true.
Proof. each_char c. Qed.

(** Casting a string of 24 hexadecimal digits gives the string form of
    an ObjectId. *)
Lemma isObjectId_of_format (s : string) :
  isObjectIdFormat s = true -> isObjectId (oid s) = true.
Proof.
  unfold isObjectIdFormat, isObjectId, oid. rewrite map_chars_length.
  intros [Hlen Hs]%andb_true_iff. rewrite Hlen. simpl. clear Hlen.
  induction s as [|c s IH]; [done|]. simpl in Hs |- *.
  apply andb_true_iff in Hs as [Hc Hs].
  by rewrite (is_hex_lower _ Hc), (IH Hs).
Qed.

(** The [id] virtual is its own cast. *)
Lemma oid_id (d : User.doc) : oid (User.id d) = User.id d.
Proof. apply oid_idem. Qed.

Lemma includes_elem_of (x : string) (l : list string) :
  includes x l = true <-> x ∈ l.
Proof.
  unfold includes. rewrite existsb_exists. split.
  - intros (y & Hin & Heq). apply String.eqb_eq in Heq. subst y.
    by apply list_elem_of_In.
  - intros Hin. exists x. split; [by apply list_elem_of_In|].
    apply String.eqb_refl.
Qed.

Lemma includes_not_elem_of (x : string) (l : list string) :
  includes x l = false <-> x ∉ l.
Proof.
  rewrite <- includes_elem_of. destruct (includes x l); split; congruence.
Qed.

Lemma elem_of_pull (x y : string) (l : list string) :
  y ∈ pull x l <-> y ∈ l /\ y <> x.
Proof. unfold pull. rewrite list_elem_of_filter. tauto. Qed.

Lemma not_elem_of_pull (x : string) (l : list string) : x ∉ pull x l.
Proof. rewrite elem_of_pull. tauto. Qed.

Lemma elem_of_addToSet (x y : string) (l : list string) :
  y ∈ addToSet x l <-> y = x \/ y ∈ l.
Proof.
  unfold addToSet. destruct (existsb (String.eqb x) l) eqn:E.
  - split; [tauto|]. intros [->|H]; [|done].
    apply existsb_exists in E as (z & Hin & Hz).
    apply String.eqb_eq in Hz. subst z. by apply list_elem_of_In.
  - rewrite elem_of_app, list_elem_of_singleton. tauto.
Qed.

Lemma truthy_Some (s : string) : truthy (Some s) = true <-> s <> "".
Proof.
  simpl. destruct (String.eqb_spec s ""); simpl; split; congruence.
Qed.

Lemma isObjectIdFormat_truthy (s : string) :
  isObjectIdFormat s = true -> truthy (Some s) = true.
Proof. intros H. by apply truthy_Some, isObjectIdFormat_nonempty. Qed.

(** A route parameter spelled as ObjectIds print names that ObjectId. *)
Lemma routed_canonical {B : Type} (req : Request B) (p id : string) :
  params req !! p = Some id -> isObjectId id = true -> Facts.routed req p id.
Proof.
  intros Hp Hid. exists id.
  split; [done|]. split; [by apply isObjectId_format|by apply isObjectId_oid].
Qed.

(** The ObjectId a route parameter names is spelled as ObjectIds
    print. *)
Lemma routed_isObjectId {B : Type} (req : Request B) (p id : string) :
  Facts.routed req p id -> isObjectId id = true.
Proof. intros (raw & _ & Hfmt & <-). by apply isObjectId_of_format. Qed.

Ltac on_sample :=
  repeat split;
  first [apply routed_canonical; run | discriminate | run].

Lemma findByIdAndUpdate_lookup (i j : string) (f : User.t -> User.t)
    (m : gmap string User.t) :
  User.findByIdAndUpdate i f m !! j
  = if decide (oid i = j) then f <$> m !! j else m !! j.
Proof.
  unfold User.findByIdAndUpdate. case_decide as Hij.
  - subst j. destruct (m !! oid i) eqn:E.
    + by rewrite lookup_insert_eq.
    + by rewrite E.
  - destruct (m !! oid i); [by rewrite lookup_insert_ne|done].
Qed.

Lemma findByIdAndUpdate_is_Some (i j : string) (f : User.t -> User.t)
    (m : gmap string User.t) :
  is_Some (User.findByIdAndUpdate i f m !! j) <-> is_Some (m !! j).
Proof.
  rewrite findByIdAndUpdate_lookup. case_decide; [|done].
  by rewrite fmap_is_Some.
Qed.

(** *** Projections hide the excluded paths *)

Lemma has_key_filter_selected (k : string) (ex : list string)
    (fs : list (string * json)) :
  existsb (String.eqb k) ex = true ->
  Json.has_key k (JObj (List.filter (User.selected ex) fs)) = false.
Proof.
  intros Hex. unfold Json.has_key, Json.keys.
  induction fs as [|[k' v] fs IH]; [done|].
  cbn [List.filter]. unfold User.selected at 1. cbn [fst].
  destruct (existsb (String.eqb k') ex) eqn:E; cbn [negb]; [exact IH|].
  cbn [fmap list_fmap existsb fst]. cbn [fmap list_fmap] in IH.
  rewrite IH, orb_false_r.
  destruct (String.eqb_spec k k') as [->|]; [congruence|done].
Qed.

Lemma toJSON_excluded (k : string) (d : User.doc) :
  existsb (String.eqb k) (User.excluded d) = true ->
  Json.has_key k (User.toJSON d) = false.
Proof. apply has_key_filter_selected. Qed.

Lemma has_key_replace_field (k k' : string) (v : json)
    (fs : list (string * json)) :
  Json.has_key k (JObj (ProfileCtl.replace_field k' v fs))
  = Json.has_key k (JObj fs).
Proof.
  unfold Json.has_key, Json.keys.
  induction fs as [|[k0 v0] fs IH]; [done|].
  cbn [ProfileCtl.replace_field].
  destruct (String.eqb k' k0); cbn [fmap list_fmap existsb fst] in *;
    by rewrite IH.
Qed.

Example projection_matters :
  let u := Sample.alice in
  Json.has_key "password"
    (User.toJSON (User.load User.select_plus_password Sample.alice_id u))
  = true
  /\ Json.has_key "password"
       (User.toJSON (User.load User.default_projection Sample.alice_id u))
     = false.
Proof. split; reflexivity. Qed.

(** ** Join and leave *)

Module CommunityFacts.
Import CommunityCtl Facts.

(** Unfolding [leaveCommunity] on an operation of [u] on [c]. *)
Lemma leaveCommunity_acts_on st req u cid c :
  acts_on st req u cid c ->
  leaveCommunity st req =
    if negb (includes u (Community.members c)) then (st, not_a_member)
    else if onlyModeratorGuard u c then (st, last_moderator)
    else
      let c' := Community.set_moderators
                  (Community.set_members c (pull u (Community.members c)))
                  (pull u (Community.moderators c)) in
      let st1 := set_communities st (<[cid := c']> (communities st)) in
      (set_users st1
         (User.findByIdAndUpdate u (User.pull_communities cid) (users st1)),
       left_community).
Proof.
  intros ((raw & Hp & Hfmt & Hraw) & Hc & Hr & Hne & Hu).
  unfold leaveCommunity. rewrite Hp. simpl default.
  rewrite (isObjectIdFormat_truthy _ Hfmt), Hfmt, Hraw.
  simpl negb. cbv iota. rewrite Hc, Hr.
  apply truthy_Some in Hne. rewrite Hne. reflexivity.
Qed.

Lemma joinCommunity_acts_on st req u cid c :
  acts_on st req u cid c ->
  joinCommunity st req =
    if includes u (Community.members c) then (st, already_member)
    else
      let c' := Community.set_members c (Community.members c ++ [u]) in
      let st1 := set_communities st (<[cid := c']> (communities st)) in
      (set_users st1
         (User.findByIdAndUpdate u (User.addToSet_communities cid) (users st1)),
       joined cid c').
Proof.
  intros ((raw & Hp & Hfmt & Hraw) & Hc & Hr & Hne & Hu).
  unfold joinCommunity. rewrite Hp. simpl default.
  rewrite (isObjectIdFormat_truthy _ Hfmt), Hfmt, Hraw.
  simpl negb. cbv iota. rewrite Hc, Hr.
  apply truthy_Some in Hne. rewrite Hne.
  simpl negb. cbv iota zeta. simpl default. rewrite Hu. reflexivity.
Qed.

(** Leaving, for a user [u] who is named to the handler by the
    identifier as the store prints it and acts on a community [c] (which
    satisfies the data-model invariant that moderators are members): the
    leave fails with NotAMember (HTTP 400, "Not a member of this
    community") when [u] is not in [c.members], and fails with
    LastModeratorConstraint (HTTP 400) when [u] is a moderator, [c] has
    exactly one moderator and more than one member; in both cases the
    database, hence the community's members and moderators, is
    unchanged. *)
Theorem leave_failures st req u cid c :
  acts_on st req u cid c ->
  moderators_are_members c ->
  (u ∉ Community.members c ->
     leaveCommunity st req = (st, not_a_member)
     /\ status not_a_member = 400%nat)
  /\ (u ∈ Community.moderators c ->
      length (Community.moderators c) = 1%nat ->
      (1 < length (Community.members c))%nat ->
        leaveCommunity st req = (st, last_moderator)
        /\ status last_moderator = 400%nat).
Proof.
  intros Hact Hinv. rewrite (leaveCommunity_acts_on _ _ _ _ _ Hact).
  split.
  - intros Hnot. apply includes_not_elem_of in Hnot. rewrite Hnot. done.
  - intros Hmod Hone Hmany.
    assert (Hmem : includes u (Community.members c) = true).
    { apply includes_elem_of. by apply Hinv. }
    rewrite Hmem. simpl negb. cbv iota.
    unfold onlyModeratorGuard.
    apply includes_elem_of in Hmod. rewrite Hmod, Hone. simpl.
    apply Nat.ltb_lt in Hmany. rewrite Hmany. done.
Qed.

(** The identity resolution only asks whether a user exists. *)
Lemma resolveMember_same_users st st' req :
  (forall i, is_Some (users st' !! i) <-> is_Some (users st !! i)) ->
  resolveMember st' req = resolveMember st req.
Proof.
  intros Hdom. unfold resolveMember.
  destruct (user req); [done|].
  destruct (truthy (userId (body req))); [|done].
  destruct (negb (isObjectIdFormat (default "" (userId (body req)))));
    [done|].
  unfold User.findById, findById.
  destruct (isObjectIdFormat (default "" (userId (body req)))); [|done].
  specialize (Hdom (oid (default "" (userId (body req))))).
  destruct (users st' !! _) eqn:E1, (users st !! _) eqn:E2; try done.
  - destruct Hdom as [H _]. destruct H as [? ?]; [by eexists|done].
  - destruct Hdom as [_ H]. destruct H as [? ?]; [by eexists|done].
Qed.

(** The handlers that write communities keep the invariant: joining and
    posting only add members, leaving removes the user from both lists. *)
Lemma joinCommunity_wf st req :
  communities_wf st -> communities_wf (joinCommunity st req).1.
Proof.
  intros Hwf. unfold joinCommunity.
  repeat case_match; simpl; try exact Hwf.
  intros cid c Hlk. simpl in Hlk.
  apply lookup_insert_Some in Hlk as [[_ <-]|[_ Hlk]]; [|by eapply Hwf].
  intros x Hx. simpl in *. apply elem_of_app. left.
  eapply (Hwf _ _ ltac:(eassumption)); done.
Qed.

Lemma leaveCommunity_wf st req :
  communities_wf st -> communities_wf (leaveCommunity st req).1.
Proof.
  intros Hwf. unfold leaveCommunity.
  repeat case_match; simpl; try exact Hwf.
  intros cid c Hlk. simpl in Hlk.
  apply lookup_insert_Some in Hlk as [[_ <-]|[_ Hlk]]; [|by eapply Hwf].
  intros x Hx. simpl in *. apply elem_of_pull in Hx as [Hx Hne].
  apply elem_of_pull. split; [|done].
  eapply (Hwf _ _ ltac:(eassumption)); done.
Qed.

Lemma ensureMember_wf st id c author :
  communities_wf st -> moderators_are_members c ->
  communities_wf (ensureMember st id c author).2
  /\ moderators_are_members (ensureMember st id c author).1.
Proof.
  intros Hwf Hc. unfold ensureMember.
  destruct (truthy author); [|done].
  destruct (negb _); [|done]. simpl.
  assert (Hc' : moderators_are_members
                  (Community.set_members c
                     (Community.members c ++ [oid (default "" author)]))).
  { intros x Hx. simpl in *. apply elem_of_app. left. by apply Hc. }
  split; [|done].
  intros cid c' Hlk. simpl in Hlk.
  apply lookup_insert_Some in Hlk as [[_ <-]|[_ Hlk]]; [done|by eapply Hwf].
Qed.

Lemma createPost_wf castPost newId now st req :
  communities_wf st ->
  communities_wf (createPost castPost newId now st req).1.
Proof.
  intros Hwf. unfold createPost, findById.
  destruct (isObjectIdFormat _); [|done].
  destruct (communities st !! _) as [c|] eqn:Hc; [|done].
  destruct (resolveAuthor st req) as [[author0 display]|]; [|done].
  pose proof (ensureMember_wf st (oid (default "" (params req !! "id"))) c
                (if truthy author0 then author0 else None) Hwf
                (Hwf _ _ Hc)) as [Hst Hmem].
  destruct (ensureMember _ _ _ _) as [c1 st1]. simpl in Hst, Hmem.
  destruct (castPost _); [|done]. simpl.
  intros cid c' Hlk. simpl in Hlk.
  apply lookup_insert_Some in Hlk as [[_ <-]|[_ Hlk]]; [done|by eapply Hst].
Qed.

Example sample_communities_wf : communities_wf Sample.db.
Proof.
  intros cid c Hlk. simpl in Hlk.
  apply lookup_singleton_Some in Hlk as [_ <-]. sample_subset.
Qed.

Lemma leave_failures_witness :
  leaveCommunity Sample.db
    (Sample.request "id" Sample.club_id (Sample.body_of Sample.alice_id))
  = (Sample.db, last_moderator)
  /\ leaveCommunity Sample.db
       (Sample.request "id" Sample.club_id (Sample.body_of Sample.carol_id))
     = (Sample.db, not_a_member).
Proof.
  split.
  - refine (proj1 (proj2 (leave_failures Sample.db _ Sample.alice_id
                            Sample.club_id Sample.club _ _) _ _ _)).
    + on_sample.
    + sample_subset.
    + listed.
    + reflexivity.
    + simpl. lia.
  - refine (proj1 (proj1 (leave_failures Sample.db _ Sample.carol_id
                            Sample.club_id Sample.club _ _) _)).
    + on_sample.
    + sample_subset.
    + not_listed.
Defined.

(** C2 (defect). Alice is the only moderator of a community that has two
    members.  A leave request that names her by the body [userId] with
    the hexadecimal digits in upper case passes the format check and
    finds her in the user store, but the membership test compares the
    string as it was sent with the stored identifiers: the request is
    answered NotAMember where the guard for the only moderator should
    answer LastModeratorConstraint, as it does for the same identifier in
    lower case. *)
Lemma leave_upper_case_moderator :
  let upper := "64B0F1A2C3D4E5F60718293A" in
  let req := Sample.request "id" Sample.club_id (Sample.body_of upper) in
  let req' := Sample.request "id" Sample.club_id
                (Sample.body_of Sample.alice_id) in
  oid upper = Sample.alice_id
  /\ resolveMember Sample.db req = Actor (Some upper)
  /\ Sample.alice_id ∈ Community.members Sample.club
  /\ Community.moderators Sample.club = [Sample.alice_id]
  /\ length (Community.members Sample.club) = 2%nat
  /\ leaveCommunity Sample.db req = (Sample.db, not_a_member)
  /\ leaveCommunity Sample.db req' = (Sample.db, last_moderator)
  /\ not_a_member <> last_moderator.
Proof.
  cbv zeta. repeat split; try (vm_compute; reflexivity).
  - listed.
  - discriminate.
Qed.

(** The same spelling makes a join add a member a second time: Bob is a
    member, the join is answered "Joined community successfully" and the
    community lists him twice. *)
Example join_upper_case_member :
  let upper := "64B0F1A2C3D4E5F60718293B" in
  let req := Sample.request "id" Sample.club_id (Sample.body_of upper) in
  oid upper = Sample.bob_id
  /\ Sample.bob_id ∈ Community.members Sample.club
  /\ message_of (joinCommunity Sample.db req).2
     = Some (JStr "Joined community successfully")
  /\ Community.members
       <$> communities (joinCommunity Sample.db req).1 !! Sample.club_id
     = Some [Sample.alice_id; Sample.bob_id; Sample.bob_id].
Proof.
  cbv zeta. repeat split; try (vm_compute; reflexivity). listed.
Qed.

(** C3 fails as stated: Alice, the only moderator of a community that
    has another member, joins (a no-op, she is a member) and then
    leaves; the leave is refused and she is still a member, and the
    community is still among her joined communities. *)
Lemma join_then_leave_sole_moderator :
  let req := Sample.request "id" Sample.club_id
               (Sample.body_of Sample.alice_id) in
  let st1 := (joinCommunity Sample.db req).1 in
  let st2 := (leaveCommunity st1 req).1 in
  acts_on Sample.db req Sample.alice_id Sample.club_id Sample.club
  /\ moderators_are_members Sample.club
  /\ exists c usr,
       communities st2 !! Sample.club_id = Some c
       /\ users st2 !! Sample.alice_id = Some usr
       /\ ~ ((Sample.alice_id ∉ Community.members c)
           /\ (Sample.club_id ∉ User.joinedCommunities usr)).
Proof.
  cbv zeta. split; [|split].
  - on_sample.
  - sample_subset.
  - exists Sample.club, Sample.alice.
    split; [vm_compute; reflexivity|].
    split; [vm_compute; reflexivity|].
    intros [H _]. apply H. listed.
Qed.

(** C3 (amended). For a user [u] who is named to the handlers by the
    identifier as the store prints it and acts on a community [c]:
    joining when [u] is already a member succeeds (HTTP 200, "Already a
    member") and changes nothing; and joining then leaving, provided the
    guard that keeps the only moderator of a community with other
    members from leaving does not apply after the join, ends with the
    leave succeeding, [u] in neither the members nor the moderators of
    [c], and [c] in neither the joined nor the notified communities of
    [u].  When the guard applies the leave is refused and changes
    nothing. *)
Theorem join_then_leave st req u cid c :
  acts_on st req u cid c ->
  let st1 := (joinCommunity st req).1 in
  let st2 := (leaveCommunity st1 req).1 in
  (u ∈ Community.members c ->
     joinCommunity st req = (st, already_member)
     /\ status already_member = 200%nat)
  /\ exists c1,
       communities st1 !! cid = Some c1
       /\ u ∈ Community.members c1
       /\ (onlyModeratorGuard u c1 = false ->
            (leaveCommunity st1 req).2 = left_community
            /\ (exists c2, communities st2 !! cid = Some c2
                  /\ (u ∉ Community.members c2)
                /\ (u ∉ Community.moderators c2))
            /\ (forall usr, users st2 !! u = Some usr ->
                  (cid ∉ User.joinedCommunities usr)
                /\ (cid ∉ User.notifiedCommunities usr)))
       /\ (onlyModeratorGuard u c1 = true ->
            leaveCommunity st1 req = (st1, last_moderator)).
Proof.
  intros Hact. cbv zeta.
  pose proof (joinCommunity_acts_on _ _ _ _ _ Hact) as Hjoin.
  split.
  { intros Hin. apply includes_elem_of in Hin.
    rewrite Hjoin, Hin. done. }
  (* the community and the request after the join *)
  assert (exists c1,
    communities (joinCommunity st req).1 !! cid = Some c1
    /\ u ∈ Community.members c1
    /\ acts_on (joinCommunity st req).1 req u cid c1) as (c1 & Hc1 & Hin1 & Hact1).
  { destruct Hact as (Hrt & Hc & Hr & Hne & Hu). rewrite Hjoin.
    destruct (includes u (Community.members c)) eqn:Hinc.
    - exists c. simpl. split; [done|]. split; [by apply includes_elem_of|].
      done.
    - cbv zeta. simpl.
      eexists. split; [apply lookup_insert_eq|].
      split; [simpl; apply elem_of_app; right; apply list_elem_of_here|].
      repeat split; try done.
      + simpl. apply lookup_insert_eq.
      + rewrite <- Hr. apply resolveMember_same_users.
        intros i. simpl. apply findByIdAndUpdate_is_Some. }
  exists c1. split; [done|]. split; [done|].
  pose proof (leaveCommunity_acts_on _ _ _ _ _ Hact1) as Hleave.
  apply includes_elem_of in Hin1. rewrite Hin1 in Hleave.
  simpl negb in Hleave. cbv iota in Hleave.
  split.
  - intros Hguard. rewrite Hguard in Hleave. rewrite Hleave.
    cbv zeta. simpl. split; [done|]. split.
    + eexists. split; [apply lookup_insert_eq|]. simpl.
      split; apply not_elem_of_pull.
    + intros usr Husr. rewrite findByIdAndUpdate_lookup in Husr.
      destruct Hact as (_ & _ & _ & _ & Hu).
      rewrite decide_True in Husr by done.
      apply fmap_Some in Husr as (usr0 & _ & ->). simpl.
      split; apply not_elem_of_pull.
  - intros Hguard. rewrite Hguard in Hleave. done.
Qed.

Lemma join_then_leave_witness :
  let req := Sample.request "id" Sample.club_id
               (Sample.body_of Sample.carol_id) in
  (leaveCommunity (joinCommunity Sample.db req).1 req).2 = left_community.
Proof.
  cbv zeta.
  destruct (join_then_leave Sample.db
              (Sample.request "id" Sample.club_id
                 (Sample.body_of Sample.carol_id))
              Sample.carol_id Sample.club_id Sample.club)
    as (_ & c1 & Hc1 & _ & Hleave & _).
  - on_sample.
  - apply Hleave.
    vm_compute in Hc1. injection Hc1 as <-. vm_compute. reflexivity.
Defined.

(** *** Likes *)

Lemma likePost_likes_on st req u pid p :
  likes_on st req u pid p ->
  likePost st req =
    if includes u (Post.likes p) then (st, already_liked)
    else
      let p' := Post.set_likes p (Post.likes p ++ [u]) in
      (set_posts st (<[pid := p']> (posts st)),
       like_result "Post liked successfully" pid p').
Proof.
  intros ((raw & Hp & Hfmt & Hraw) & Hpost & Hr & Hne & Hu).
  unfold likePost, findById. rewrite Hp. simpl default.
  rewrite Hfmt, Hraw, Hpost, Hr.
  apply truthy_Some in Hne. rewrite Hne.
  simpl negb. cbv iota zeta. simpl default. rewrite Hu. reflexivity.
Qed.

Lemma unlikePost_likes_on st req u pid p :
  likes_on st req u pid p ->
  unlikePost st req =
    if negb (includes u (Post.likes p)) then (st, not_liked)
    else
      let p' := Post.set_likes p (pull u (Post.likes p)) in
      (set_posts st (<[pid := p']> (posts st)),
       like_result "Post unliked successfully" pid p').
Proof.
  intros ((raw & Hp & Hfmt & Hraw) & Hpost & Hr & Hne & Hu).
  unfold unlikePost, findById. rewrite Hp. simpl default.
  rewrite Hfmt, Hraw, Hpost, Hr.
  apply truthy_Some in Hne. rewrite Hne. reflexivity.
Qed.

(** Likes, for a resolved user [u] who is named to the handlers by the
    identifier as the store prints it and acts on a post [p]: liking
    when [u] is already in [p.likes] fails with AlreadyLiked (HTTP 400)
    and unliking when [u] is not in [p.likes] fails with NotLiked (HTTP
    400), both leaving the database, hence [p.likes], unchanged; every
    other like or unlike succeeds (HTTP 200) and reports as [likeCount]
    the number of likes of the post as stored after the mutation. *)
Theorem like_unlike_contract st req u pid p :
  likes_on st req u pid p ->
  (u ∈ Post.likes p ->
     likePost st req = (st, already_liked)
     /\ status already_liked = 400%nat)
  /\ (u ∉ Post.likes p ->
      unlikePost st req = (st, not_liked)
      /\ status not_liked = 400%nat)
  /\ (u ∉ Post.likes p ->
      exists p',
        posts (likePost st req).1 !! pid = Some p'
        /\ Post.likes p' = (Post.likes p ++ [u])%list
        /\ status (likePost st req).2 = 200%nat
        /\ reported_likeCount (likePost st req).2
           = Some (JNum (Z.of_nat (length (Post.likes p')))))
  /\ (u ∈ Post.likes p ->
      exists p',
        posts (unlikePost st req).1 !! pid = Some p'
        /\ Post.likes p' = pull u (Post.likes p)
        /\ (u ∉ Post.likes p')
        /\ status (unlikePost st req).2 = 200%nat
        /\ reported_likeCount (unlikePost st req).2
           = Some (JNum (Z.of_nat (length (Post.likes p'))))).
Proof.
  intros Hon.
  rewrite (likePost_likes_on _ _ _ _ _ Hon).
  rewrite (unlikePost_likes_on _ _ _ _ _ Hon).
  repeat split.
  - apply includes_elem_of in H. by rewrite H.
  - apply includes_not_elem_of in H. by rewrite H.
  - intros Hnot. apply includes_not_elem_of in Hnot. rewrite Hnot.
    cbv zeta. eexists. split; [apply lookup_insert_eq|]. done.
  - intros Hin. apply includes_elem_of in Hin. rewrite Hin.
    cbv zeta. eexists. split; [apply lookup_insert_eq|]. simpl.
    split; [done|]. split; [apply not_elem_of_pull|]. done.
Qed.

Lemma like_unlike_contract_witness :
  likePost Sample.db
    (Sample.request "postId" Sample.post_id (Sample.body_of Sample.bob_id))
  = (Sample.db, already_liked)
  /\ unlikePost Sample.db
       (Sample.request "postId" Sample.post_id
          (Sample.body_of Sample.carol_id))
     = (Sample.db, not_liked).
Proof.
  split.
  - refine (proj1 (proj1 (like_unlike_contract Sample.db _ Sample.bob_id
                            Sample.post_id Sample.hello _) _)).
    + on_sample.
    + listed.
  - refine (proj1 (proj1 (proj2 (like_unlike_contract Sample.db _
                            Sample.carol_id Sample.post_id Sample.hello _))
                     _)).
    + on_sample.
    + not_listed.
Defined.

(** C5 (defect). Bob likes a post.  A like request that names him by
    the body [userId] with the hexadecimal digits in upper case finds
    him in the user store, but [post.likes.includes] compares the string
    as it was sent with the stored identifiers: instead of AlreadyLiked
    (HTTP 400) the request is answered HTTP 200 and the post lists him
    twice; and an unlike request with the same spelling is answered
    NotLiked although he likes the post. *)
Lemma like_upper_case_twice :
  let upper := "64B0F1A2C3D4E5F60718293B" in
  let req := Sample.request "postId" Sample.post_id (Sample.body_of upper) in
  oid upper = Sample.bob_id
  /\ resolveLiker Sample.db req = Some (Some upper)
  /\ Sample.bob_id ∈ Post.likes Sample.hello
  /\ status (likePost Sample.db req).2 = 200%nat
  /\ (likePost Sample.db req).2 <> already_liked
  /\ Post.likes <$> posts (likePost Sample.db req).1 !! Sample.post_id
     = Some [Sample.bob_id; Sample.bob_id]
  /\ reported_likeCount (likePost Sample.db req).2 = Some (JNum 2)
  /\ unlikePost Sample.db req = (Sample.db, not_liked).
Proof.
  cbv zeta. repeat split; try (vm_compute; reflexivity).
  - listed.
  - vm_compute. discriminate.
Qed.

(** *** Posting joins the author *)

(** C10. Creating a post in a community [c] with a resolved author [a]
    (from the token, or from a body [userId] found in the user store)
    who is not yet a member makes [a] a member: whatever [Post.create]
    then does (the post is stored, or validation fails and the handler
    answers 500), the stored community has [a] appended to its members,
    and [c] is among the joined and the notified communities of [a].
    The route and the body may spell the identifiers in either case;
    what is stored are the ObjectIds [oid cid] and [oid a]. *)
Theorem createPost_joins_author
    (castPost : Post.t -> Post.t + string) (newId : string) (now : Z)
    st req a display cid c usr :
  params req !! "id" = Some cid ->
  isObjectIdFormat cid = true ->
  communities st !! oid cid = Some c ->
  resolveAuthor st req = Some (Some a, display) ->
  a <> "" ->
  users st !! oid a = Some usr ->
  a ∉ Community.members c ->
  oid a ∉ Community.members c ->
  let st' := (createPost castPost newId now st req).1 in
  (exists c',
     communities st' !! oid cid = Some c'
     /\ Community.members c' = (Community.members c ++ [oid a])%list
     /\ oid a ∈ Community.members c')
  /\ (exists usr',
       users st' !! oid a = Some usr'
       /\ oid cid ∈ User.joinedCommunities usr'
       /\ oid cid ∈ User.notifiedCommunities usr')
  /\ (forall message,
       castPost
         {| Post.title := default "Post" (js_or (title (body req)) None);
            Post.content := default "" (js_or (content (body req)) None);
            Post.images := default [] (images (body req));
            Post.author := Some (oid a);
            Post.authorName := display;
            Post.community := oid cid;
            Post.likes := [];
            Post.comments := [];
            Post.tags := default [] (tags (body req));
            Post.createdAt := now;
            Post.updatedAt := now |} = inr message ->
       posts st' = posts st
       /\ (createPost castPost newId now st req).2 = server_error message).
Proof.
  intros Hp Hcid Hc Hr Ha Husr Hnot _. cbv zeta.
  unfold createPost, findById. rewrite Hp. simpl default.
  rewrite Hcid, Hc, Hr.
  apply truthy_Some in Ha. rewrite Ha.
  unfold ensureMember. rewrite Ha. simpl default.
  cbn [fmap option_fmap option_map].
  apply includes_not_elem_of in Hnot. rewrite Hnot. simpl negb. cbv iota.
  match goal with |- context [castPost ?d] => destruct (castPost d) as [post|msg] eqn:Hcast end;
    simpl.
  - split; [|split].
    + eexists. split; [apply lookup_insert_eq|]. simpl.
      split; [done|]. apply elem_of_app; right; apply list_elem_of_here.
    + rewrite findByIdAndUpdate_lookup, decide_True, Husr by done. simpl.
      eexists. split; [done|]. simpl.
      split; apply elem_of_addToSet; by left.
    + intros message Hm. congruence.
  - split; [|split].
    + eexists. split; [apply lookup_insert_eq|]. simpl.
      split; [done|]. apply elem_of_app; right; apply list_elem_of_here.
    + rewrite findByIdAndUpdate_lookup, decide_True, Husr by done. simpl.
      eexists. split; [done|]. simpl.
      split; apply elem_of_addToSet; by left.
    + intros message Hm. split; [done|]. congruence.
Qed.

Lemma createPost_joins_author_witness :
  exists c',
    communities
      (createPost Sample.accept_post "84b0f1a2c3d4e5f60718293f" 7 Sample.db
         (Sample.request "id" Sample.club_id
            (Sample.body_of Sample.carol_id))).1
      !! Sample.club_id = Some c'
    /\ Sample.carol_id ∈ Community.members c'.
Proof.
  destruct (createPost_joins_author Sample.accept_post
              "84b0f1a2c3d4e5f60718293f" 7 Sample.db
              (Sample.request "id" Sample.club_id
                 (Sample.body_of Sample.carol_id))
              Sample.carol_id "Carol" Sample.club_id Sample.club
              Sample.carol)
    as ((c' & Hc' & _ & Hin) & _).
  - vm_compute; reflexivity.
  - vm_compute; reflexivity.
  - vm_compute; reflexivity.
  - vm_compute; reflexivity.
  - discriminate.
  - vm_compute; reflexivity.
  - not_listed.
  - not_listed.
  - exists c'. split; [exact Hc' | exact Hin].
Defined.

End CommunityFacts.

(** ** Jobs: saving and applying *)

Module JobFacts.
Import JobCtl Facts.

Lemma includes_addToSet (x : string) (l : list string) :
  includes x (addToSet x l) = true.
Proof. apply includes_elem_of, elem_of_addToSet. by left. Qed.

Lemma includes_pull (x : string) (l : list string) :
  includes x (pull x l) = false.
Proof. apply includes_not_elem_of, not_elem_of_pull. Qed.

(** One call of [toggleSave] on a stored job and a stored user, however
    the two identifiers are spelled: it succeeds, returns the negation of
    the previous membership, the returned flag is the membership
    afterwards, and nothing but that user's record is written. *)
Lemma toggleSave_step (j u : string) (st : Store) :
  isObjectIdFormat j = true -> isObjectIdFormat u = true ->
  is_Some (jobs st !! oid j) -> is_Some (users st !! oid u) ->
  exists st' r,
    toggleSave j u st = (st', inl r)
    /\ isSaved r = negb (saved_in st (oid u) (oid j))
    /\ saved_in st' (oid u) (oid j) = isSaved r
    /\ jobs st' = jobs st
    /\ is_Some (users st' !! oid u)
    /\ communities st' = communities st
    /\ posts st' = posts st
    /\ (forall i, i <> oid u -> users st' !! i = users st !! i).
Proof.
  intros Hj Hu [job Hjob] [usr Husr].
  unfold toggleSave, User.findById, findById, saved_in.
  rewrite Hj, Hjob, Hu, Husr. simpl User.raw.
  destruct (includes (oid j) (User.savedJobs usr)) eqn:Hinc.
  - eexists _, _. split; [reflexivity|]. simpl.
    rewrite findByIdAndUpdate_lookup, decide_True, Husr by done. simpl.
    rewrite includes_pull. repeat split; eauto.
    intros i Hi. by rewrite findByIdAndUpdate_lookup, decide_False.
  - eexists _, _. split; [reflexivity|]. simpl.
    rewrite findByIdAndUpdate_lookup, decide_True, Husr by done. simpl.
    rewrite includes_addToSet. repeat split; eauto.
    intros i Hi. by rewrite findByIdAndUpdate_lookup, decide_False.
Qed.

(** C4. For a stored job [j] and a stored user [u], the route and the
    caller spelling their identifiers in either case: each call of the
    save toggle succeeds, writes nothing but [u]'s record, and returns as
    [isSaved] whether [j] is in [u.savedJobs] after the call, which is
    the negation of what it was before; so starting from [j] not saved,
    three calls return true, false, true. *)
Theorem toggleSave_flip (j u : string) (st : Store) :
  isObjectIdFormat j = true -> isObjectIdFormat u = true ->
  is_Some (jobs st !! oid j) -> is_Some (users st !! oid u) ->
  (exists st' r,
     toggleSave j u st = (st', inl r)
     /\ isSaved r = negb (saved_in st (oid u) (oid j))
     /\ saved_in st' (oid u) (oid j) = isSaved r
     /\ jobs st' = jobs st
     /\ communities st' = communities st
     /\ posts st' = posts st
     /\ (forall i, i <> oid u -> users st' !! i = users st !! i))
  /\ (saved_in st (oid u) (oid j) = false ->
      exists st1 r1 st2 r2 st3 r3,
        toggleSave j u st = (st1, inl r1)
        /\ toggleSave j u st1 = (st2, inl r2)
        /\ toggleSave j u st2 = (st3, inl r3)
        /\ isSaved r1 = true /\ saved_in st1 (oid u) (oid j) = true
        /\ isSaved r2 = false /\ saved_in st2 (oid u) (oid j) = false
        /\ isSaved r3 = true /\ saved_in st3 (oid u) (oid j) = true).
Proof.
  intros Hj Hu Hjob Husr.
  destruct (toggleSave_step j u st Hj Hu Hjob Husr)
    as (st1 & r1 & E1 & F1 & S1 & J1 & U1 & C1 & P1 & O1).
  split; [exists st1, r1; repeat split; assumption|].
  intros Hstart.
  rewrite <- J1 in Hjob.
  destruct (toggleSave_step j u st1 Hj Hu Hjob U1)
    as (st2 & r2 & E2 & F2 & S2 & J2 & U2 & _).
  rewrite <- J2 in Hjob.
  destruct (toggleSave_step j u st2 Hj Hu Hjob U2)
    as (st3 & r3 & E3 & F3 & S3 & _).
  exists st1, r1, st2, r2, st3, r3.
  rewrite Hstart in F1. simpl in F1.
  rewrite F1 in S1. rewrite S1 in F2. simpl in F2.
  rewrite F2 in S2. rewrite S2 in F3. simpl in F3.
  rewrite F3 in S3.
  repeat split; assumption.
Qed.

Lemma toggleSave_flip_witness :
  exists st' r,
    toggleSave "94B0F1A2C3D4E5F60718293A" Sample.carol_id Sample.db
    = (st', inl r)
    /\ isSaved r = true.
Proof.
  destruct (toggleSave_flip "94B0F1A2C3D4E5F60718293A" Sample.carol_id
              Sample.db)
    as ((st' & r & E & F & _) & _).
  - reflexivity.
  - reflexivity.
  - exists Sample.clerk. vm_compute. reflexivity.
  - exists Sample.carol. vm_compute. reflexivity.
  - exists st', r. split; [exact E|]. rewrite F. vm_compute. reflexivity.
Defined.

(** *** Applying *)

Lemma applyForJob_applies_for now st me req jid job :
  applies_for st req jid job ->
  applyForJob now st me req =
    if hasApplied (User.id me) job then (st, already_applied)
    else if deadlineHasPassed now job then (st, deadline_passed)
    else
      let entry :=
        {| Job.user := User.id me;
           Job.resume := resume (body req);
           Job.coverLetter := coverLetter (body req);
           Job.status := "applied";
           Job.appliedAt := now |} in
      let job' := Job.set_applicants job (entry :: Job.applicants job) in
      let st1 := set_jobs st (<[jid := job']> (jobs st)) in
      (set_users st1
         (User.findByIdAndUpdate (User.id me)
            (fun u => User.set_appliedJobs u
               (User.appliedJobs u
                  ++ [{| User.aj_job := jid; User.aj_status := "applied";
                         User.aj_appliedAt := now |}]))
            (users st1)),
       applied).
Proof.
  intros ((raw & Hp & Hfmt & Hraw) & Hjob).
  unfold applyForJob, findById. rewrite Hp. simpl default.
  rewrite Hfmt, Hraw, Hjob.
  reflexivity.
Qed.

Lemma hasApplied_spec (uid : string) (job : Job.t) :
  hasApplied uid job = true
  <-> exists app, app ∈ Job.applicants job /\ Job.user app = uid.
Proof.
  unfold hasApplied. rewrite existsb_exists. split.
  - intros (app & Hin & Heq). exists app.
    split; [by apply list_elem_of_In|]. by apply String.eqb_eq.
  - intros (app & Hin & Heq). exists app.
    split; [by apply list_elem_of_In|]. by apply String.eqb_eq.
Qed.




End JobFacts.

(** ** Login *)

Module LoginFacts.
Import AuthCtl Facts.

Section Login.

Variable generateToken : Z -> string -> string + string.
Variable bcrypt_compare : string -> string -> bool.

(** A login request whose password is a string and wrong, whether the
    email is unknown or the email is known and the password mismatches,
    is answered with Unauthenticated (HTTP 401, "Invalid email or
    password", no cookie); hence the responses of two such runs are
    identical, in particular the run where the email is unknown and the
    run where it is known and the password mismatches. *)
Theorem login_wrong_password (now1 now2 : Z) (st1 st2 : Store)
    (req : Request LoginBody) :
  unknown_email st1 req \/ password_mismatch bcrypt_compare st1 req ->
  unknown_email st2 req \/ password_mismatch bcrypt_compare st2 req ->
  login generateToken bcrypt_compare now1 st1 req = invalid_credentials
  /\ login generateToken bcrypt_compare now2 st2 req
     = login generateToken bcrypt_compare now1 st1 req
  /\ status invalid_credentials = 401%nat
  /\ set_cookie invalid_credentials = [].
Proof.
  assert (Hwrong : forall now st,
            unknown_email st req \/ password_mismatch bcrypt_compare st req ->
            login generateToken bcrypt_compare now st req
            = invalid_credentials).
  { intros now st [Hunknown|(user & entered & Hfound & Hp & Hmis)];
      unfold login.
    - by rewrite Hunknown.
    - rewrite Hfound, Hp. simpl. by rewrite Hmis. }
  intros H1 H2. rewrite (Hwrong now1 st1 H1), (Hwrong now2 st2 H2). done.
Qed.

(** A login request whose password is missing or is no string: the
    answer tells whether the email is known.  With an unknown email it
    is Unauthenticated (HTTP 401); with a known one the password check
    throws and the answer is HTTP 500. *)
Lemma login_without_password (now : Z) (st : Store)
    (req : Request LoginBody) :
  (forall entered, password (body req) <> Some (JStr entered)) ->
  (unknown_email st req ->
     login generateToken bcrypt_compare now st req = invalid_credentials)
  /\ (forall user,
        User.findOne_email User.select_plus_password (email (body req))
          (users st) = Some user ->
        login generateToken bcrypt_compare now st req
        = server_error ("Illegal arguments: "
                        +:+ typeof (password (body req)) +:+ ", string")).
Proof.
  intros Hno. unfold login. split.
  - by intros ->.
  - intros user ->. unfold matchPassword.
    destruct (password (body req)) as [[| | |entered| |]|]; try done.
    by destruct (Hno entered).
Qed.

End Login.

Lemma singleton_find_email (i : string) (u : User.t) (e : string) :
  User.findOne_email User.select_plus_password e {[ i := u ]}
  = if String.eqb (User.email u) (User.setEmail e)
    then Some (User.load User.select_plus_password i u) else None.
Proof.
  unfold User.findOne_email. rewrite map_to_list_singleton. simpl.
  by destruct (String.eqb (User.email u) (User.setEmail e)).
Qed.

Lemma login_wrong_password_witness :
  let req : Request LoginBody :=
    Sample.request "id" ""
      {| email := "alice@x.com"; password := Some (JStr "guess") |} in
  let st1 := set_users Sample.db {[ Sample.bob_id := Sample.bob ]} in
  let st2 := set_users Sample.db {[ Sample.alice_id := Sample.alice ]} in
  login Sample.sign Sample.compare 0 st1 req
  = login Sample.sign Sample.compare 0 st2 req.
Proof.
  cbv zeta.
  symmetry.
  refine (proj1 (proj2 (login_wrong_password Sample.sign Sample.compare
                          0 0 _ _ _ _ _))).
  - left. unfold unknown_email. simpl. rewrite singleton_find_email.
    reflexivity.
  - right. unfold password_mismatch. simpl. rewrite singleton_find_email.
    eexists _, _. repeat split; reflexivity.
Defined.

(** The email of a login is matched the way it is stored, trimmed and in
    lower case. *)
Example login_upper_case_email :
  let req : Request LoginBody :=
    Sample.request "id" ""
      {| email := "ALICE@X.COM"; password := Some (JStr "Alice") |} in
  let st := set_users Sample.db {[ Sample.alice_id := Sample.alice ]} in
  status (login Sample.sign Sample.compare 0 st req) = 200%nat.
Proof.
  cbv zeta. unfold login. simpl. rewrite singleton_find_email. reflexivity.
Qed.

(** C7 (defect). Two login requests that send no password at all, one
    with the email of a stored user and one with an email that is not
    in the store: the first is answered with HTTP 500 ("Server error",
    the password check throws on the missing password), the second with
    HTTP 401 ("Invalid email or password"); the two responses differ, so
    a wrong password does not always give Unauthenticated and the
    response tells whether the email exists. *)
Lemma login_missing_password :
  let known : Request LoginBody :=
    Sample.request "id" "" {| email := "alice@x.com"; password := None |} in
  let unknown : Request LoginBody :=
    Sample.request "id" "" {| email := "nobody@x.com"; password := None |} in
  let st := set_users Sample.db {[ Sample.alice_id := Sample.alice ]} in
  login Sample.sign Sample.compare 0 st known
  = server_error "Illegal arguments: undefined, string"
  /\ status (login Sample.sign Sample.compare 0 st known) = 500%nat
  /\ login Sample.sign Sample.compare 0 st unknown = invalid_credentials
  /\ status (login Sample.sign Sample.compare 0 st unknown) = 401%nat
  /\ login Sample.sign Sample.compare 0 st known
     <> login Sample.sign Sample.compare 0 st unknown.
Proof.
  cbv zeta. unfold login. simpl. rewrite !singleton_find_email. simpl.
  repeat split; discriminate.
Qed.

End LoginFacts.

(** ** Authentication middleware *)

Module AuthFacts.
Import Auth Facts.

Section Middleware.

Variable jwt_verify : string -> option string -> jwt_result.
Context {B : Type}.

Lemma token_error_status name message :
  status (token_error_response name message) = 401%nat.
Proof.
  unfold token_error_response.
  destruct (String.eqb name "TokenExpiredError"); [done|].
  by destruct (String.eqb name "JsonWebTokenError").
Qed.

(** The credential is taken from the [token] cookie, else from the
    [auth_token] cookie, else from the bearer header. *)
Lemma extractToken_priority (req : Request B) :
  (truthy_value (cookies req !! "token") = true ->
     extractToken req = cookies req !! "token")
  /\ (truthy_value (cookies req !! "token") = false ->
      truthy_value (cookies req !! "auth_token") = true ->
        extractToken req = cookies req !! "auth_token")
  /\ (truthy_value (cookies req !! "token") = false ->
      truthy_value (cookies req !! "auth_token") = false ->
        extractToken req = JStr <$> bearer (authorization req)).
Proof.
  unfold extractToken, or_value. split; [|split].
  - intros H. by rewrite !H.
  - intros H1 H2. by rewrite H1, !H2.
  - intros H1 H2. by rewrite H1, !H2.
Qed.

(** The middleware on a credential that is a non-empty string. *)
Lemma authMiddleware_string (secret : option string)
    (db : gmap string User.t) (req : Request B) (token : string) :
  extractToken req = Some (JStr token) -> token <> "" ->
  authMiddleware jwt_verify secret db req
  = if negb (truthy secret) then halt req misconfigured_response
    else
      match jwt_verify token secret with
      | Decoded id =>
          match User.findById User.select_minus_password id db with
          | Found user => continue (set_user req user)
          | Missing => halt req user_not_found_response
          | CastError => halt req (token_error_response "CastError" "")
          end
      | Throws name message => halt req (token_error_response name message)
      end.
Proof.
  intros Htok Hne. unfold authMiddleware. rewrite Htok.
  apply truthy_Some in Hne. simpl in Hne |- *. by rewrite Hne.
Qed.

(** C1 (amended). For every request the mandatory middleware handles:
    the credential is the [token] cookie, else the [auth_token] cookie,
    else the token of the [Authorization: Bearer <token>] header; without
    a credential the request is halted with HTTP 401 and no user
    attached; a credential that is not a string (the JSON value of a
    [j:] cookie) halts the request with HTTP 500; a string credential
    with no signing key configured halts it with HTTP 500; and with the
    signing key configured, a string credential that the verifier
    rejects halts the request with HTTP 401 and a message that tells an
    expired token ("Authentication expired") from a malformed one
    ("Invalid authentication") from any other failure ("Authentication
    failed"), a verified credential whose user is not in the store halts
    the request with HTTP 401, and otherwise the stored user, loaded
    without its password, is attached to the request and processing
    continues. *)
Theorem authMiddleware_contract (secret : option string)
    (db : gmap string User.t) (req : Request B) :
  let r := authMiddleware jwt_verify secret db req in
  ((truthy_value (cookies req !! "token") = true ->
      extractToken req = cookies req !! "token")
   /\ (truthy_value (cookies req !! "token") = false ->
       truthy_value (cookies req !! "auth_token") = true ->
         extractToken req = cookies req !! "auth_token")
   /\ (truthy_value (cookies req !! "token") = false ->
       truthy_value (cookies req !! "auth_token") = false ->
         extractToken req = JStr <$> bearer (authorization req)))
  /\ (truthy_value (extractToken req) = false ->
      r = halt req no_token_response
      /\ status no_token_response = 401%nat)
  /\ (forall v,
        extractToken req = Some v -> truthy_value (Some v) = true ->
        (forall token, v <> JStr token) ->
        r = halt req critical_error_response
        /\ status critical_error_response = 500%nat)
  /\ (forall token,
        extractToken req = Some (JStr token) -> token <> "" ->
        truthy secret = false ->
        r = halt req misconfigured_response
        /\ status misconfigured_response = 500%nat)
  /\ (truthy secret = true ->
      (forall token name message,
         extractToken req = Some (JStr token) -> token <> "" ->
         jwt_verify token secret = Throws name message ->
           r = halt req (token_error_response name message)
           /\ status (token_error_response name message) = 401%nat
           /\ message_of (token_error_response name message)
              = Some (JStr
                  (if String.eqb name "TokenExpiredError"
                   then "Authentication expired"
                   else if String.eqb name "JsonWebTokenError"
                   then "Invalid authentication"
                   else "Authentication failed")))
      /\ (forall token id,
            extractToken req = Some (JStr token) -> token <> "" ->
            jwt_verify token secret = Decoded id ->
            db !! oid id = None ->
              exists resp,
                r = halt req resp /\ status resp = 401%nat)
      /\ (forall token id u,
            extractToken req = Some (JStr token) -> token <> "" ->
            jwt_verify token secret = Decoded id ->
            isObjectIdFormat id = true ->
            db !! oid id = Some u ->
              r = continue
                    (set_user req
                       (User.load User.select_minus_password (oid id) u))
              /\ (forall attached, user (mw_req r) = Some attached ->
                    User.loaded_password attached = None
                    /\ Json.has_key "password" (User.toJSON attached)
                       = false))).
Proof.
  cbv zeta.
  split; [apply extractToken_priority|].
  split; [|split; [|split]].
  - intros Hfalsy. unfold authMiddleware. by rewrite Hfalsy.
  - intros v Htok Htruthy Hother. unfold authMiddleware.
    rewrite Htok, Htruthy. simpl.
    destruct v as [| | |token| |]; try done. by destruct (Hother token).
  - intros token Htok Hne Hsecret.
    rewrite (authMiddleware_string _ _ _ _ Htok Hne), Hsecret. done.
  - intros Hsecret. split; [|split].
    + intros token name message Htok Hne Hv.
      rewrite (authMiddleware_string _ _ _ _ Htok Hne), Hsecret.
      simpl. rewrite Hv.
      split; [done|]. split; [apply token_error_status|].
      unfold token_error_response, message_of.
      destruct (String.eqb name "TokenExpiredError"); [done|].
      by destruct (String.eqb name "JsonWebTokenError").
    + intros token id Htok Hne Hv Hdb.
      rewrite (authMiddleware_string _ _ _ _ Htok Hne), Hsecret.
      simpl. rewrite Hv. unfold User.findById, findById. rewrite Hdb.
      destruct (isObjectIdFormat id); simpl;
        eexists; (split; [reflexivity|]); done.
    + intros token id u Htok Hne Hv Hfmt Hdb.
      rewrite (authMiddleware_string _ _ _ _ Htok Hne), Hsecret.
      simpl. rewrite Hv. unfold User.findById, findById.
      rewrite Hfmt, Hdb. simpl.
      split; [done|].
      intros attached [= <-]. split; [done|].
      by apply toJSON_excluded.
Qed.

(** What the mandatory middleware passes on or halts with: the request
    as it came, or the request with a stored user attached. *)
Lemma authMiddleware_reaches (secret : option string)
    (db : gmap string User.t) (req : Request B) :
  let r := authMiddleware jwt_verify secret db req in
  mw_req r = req
  \/ exists id u,
       db !! id = Some u
       /\ mw_req r
          = set_user req (User.load User.select_minus_password id u).
Proof.
  cbv zeta. unfold authMiddleware.
  destruct (negb (truthy_value (extractToken req))); [by left|].
  destruct (extractToken req) as [[| | |token| |]|]; try by left.
  destruct (negb (truthy secret)); [by left|].
  destruct (jwt_verify _ _) as [id|]; [|by left].
  unfold User.findById, findById.
  destruct (isObjectIdFormat id); [|by left].
  destruct (db !! oid id) as [u|] eqn:Hdb; [|by left].
  right. by exists (oid id), u.
Qed.

(** What the optional middleware passes on: the request as it came,
    or the request with a stored user attached. *)
Lemma optionalAuthMiddleware_reaches (secret : option string)
    (db : gmap string User.t) (req : Request B) :
  let r := optionalAuthMiddleware jwt_verify secret db req in
  mw_req r = req
  \/ exists id u,
       db !! id = Some u
       /\ mw_req r
          = set_user req (User.load User.select_minus_password id u).
Proof.
  cbv zeta. unfold optionalAuthMiddleware.
  destruct (negb (truthy_value (extractToken req))); [by left|].
  destruct (extractToken req) as [[| | |token| |]|]; try by left.
  destruct (jwt_verify _ _) as [id|]; [|by left].
  unfold User.findById, findById.
  destruct (isObjectIdFormat id); [|by left].
  destruct (db !! oid id) as [u|] eqn:Hdb; [|by left].
  right. by exists (oid id), u.
Qed.

(** C8. The optional middleware never answers a request itself: it
    always continues; and when authentication fails (no credential, a
    credential that is not a string, a credential the verifier rejects,
    or a verified credential whose user cannot be found) the request
    goes on exactly as it came in, with no identity attached. *)
Theorem optionalAuthMiddleware_never_blocks (secret : option string)
    (db : gmap string User.t) (req : Request B) :
  let r := optionalAuthMiddleware jwt_verify secret db req in
  mw_outcome_of r = Continue
  /\ (truthy_value (extractToken req) = false -> mw_req r = req)
  /\ (forall v,
        extractToken req = Some v -> (forall token, v <> JStr token) ->
          mw_req r = req)
  /\ (forall token name message,
        extractToken req = Some (JStr token) ->
        jwt_verify token secret = Throws name message ->
          mw_req r = req)
  /\ (forall token id,
        extractToken req = Some (JStr token) ->
        jwt_verify token secret = Decoded id ->
        User.findById User.select_minus_password id db = Missing
        \/ User.findById User.select_minus_password id db = CastError ->
          mw_req r = req)
  /\ (mw_req r = req
      \/ exists id u,
           db !! id = Some u
           /\ mw_req r
              = set_user req (User.load User.select_minus_password id u)).
Proof.
  cbv zeta. split; [|split; [|split; [|split; [|split]]]].
  - unfold optionalAuthMiddleware. by repeat case_match.
  - intros Hfalsy. unfold optionalAuthMiddleware. by rewrite Hfalsy.
  - intros v Htok Hother. unfold optionalAuthMiddleware. rewrite Htok.
    destruct (negb (truthy_value (Some v))); [done|].
    destruct v as [| | |token| |]; try done. by destruct (Hother token).
  - intros token name message Htok Hv.
    unfold optionalAuthMiddleware. rewrite Htok.
    destruct (negb (truthy_value _)); [done|]. by rewrite Hv.
  - intros token id Htok Hv Hfind.
    unfold optionalAuthMiddleware. rewrite Htok.
    destruct (negb (truthy_value _)); [done|]. rewrite Hv.
    by destruct Hfind as [-> | ->].
  - apply optionalAuthMiddleware_reaches.
Qed.

End Middleware.

(** C1 fails as stated, in two ways.  When the signing key is not
    configured, a request that carries a malformed token is answered
    with HTTP 500, not 401.  And with the key configured, a request
    whose [token] cookie is [j:7], which cookie-parser turns into the
    number 7, is answered with HTTP 500 as well. *)
Lemma authMiddleware_server_errors :
  let req : Request unit :=
    {| cookies := {[ "token" := JStr "garbage" ]}; authorization := None;
       params := ∅; body := tt; user := None |} in
  let req' : Request unit :=
    {| cookies := {[ "token" := JNum 7 ]}; authorization := None;
       params := ∅; body := tt; user := None |} in
  (extractToken req = Some (JStr "garbage")
   /\ Sample.verify "garbage" (Some "s3cret")
      = Throws "JsonWebTokenError" "jwt malformed"
   /\ mw_outcome_of (authMiddleware Sample.verify None (users Sample.db) req)
      = Respond misconfigured_response
   /\ status misconfigured_response = 500%nat
   /\ status misconfigured_response <> 401%nat)
  /\ (extractToken req' = Some (JNum 7)
      /\ mw_outcome_of
           (authMiddleware Sample.verify (Some "s3cret") (users Sample.db)
              req')
         = Respond critical_error_response
      /\ status critical_error_response = 500%nat
      /\ status critical_error_response <> 401%nat).
Proof. cbv zeta. repeat split; vm_compute; congruence. Qed.

Lemma authMiddleware_contract_witness :
  let req : Request unit :=
    {| cookies := {[ "auth_token" := JStr "tok-64b0f1a2c3d4e5f60718293a" ]};
       authorization := Some "Bearer garbage";
       params := ∅; body := tt; user := None |} in
  authMiddleware Sample.verify (Some "s3cret") (users Sample.db) req
  = continue (set_user req (Sample.session Sample.alice_id Sample.alice)).
Proof.
  cbv zeta.
  refine (proj1 (proj2 (proj2 (proj2 (proj2 (proj2 (proj2
            (authMiddleware_contract Sample.verify (Some "s3cret")
               (users Sample.db) _)))) _))
            "tok-64b0f1a2c3d4e5f60718293a" Sample.alice_id Sample.alice
            _ _ _ _ _)).
  - reflexivity.
  - run.
  - discriminate.
  - run.
  - reflexivity.
  - run.
Defined.

Lemma optionalAuthMiddleware_never_blocks_witness :
  let req : Request unit :=
    {| cookies := {[ "token" := JStr "expired" ]}; authorization := None;
       params := ∅; body := tt; user := None |} in
  optionalAuthMiddleware Sample.verify (Some "s3cret") (users Sample.db) req
  = continue req.
Proof.
  cbv zeta.
  destruct (optionalAuthMiddleware_never_blocks Sample.verify
              (Some "s3cret") (users Sample.db)
              {| cookies := {[ "token" := JStr "expired" ]};
                 authorization := None;
                 params := ∅; body := tt; user := None |})
    as (Hout & _ & _ & Hthrow & _).
  specialize (Hthrow "expired" "TokenExpiredError" "jwt expired"
                eq_refl eq_refl).
  destruct (optionalAuthMiddleware _ _ _ _) as [r o].
  simpl in *. subst. reflexivity.
Defined.

End AuthFacts.

(** ** The password never leaves the server *)

Module PasswordFacts.
Import Facts.

Section Endpoints.

Variable generateToken : Z -> string -> string + string.
Variable bcrypt_compare : string -> string -> bool.
Variable castUser : User.t -> User.t + string.
Variable populateCommunities : Store -> list string -> list json + string.
Variable populateAppliedJobs :
  Store -> list User.appliedJob -> list json + string.
Variable jwt_verify : string -> option string -> jwt_result.

Lemma session_response_hides code d token :
  hides_password (AuthCtl.session_response code d token).
Proof. split; [done|]. intros u [= <-]. done. Qed.

Lemma respond_message_hides code (fields : list (string * json)) :
  Json.has_key "password" (JObj fields) = false ->
  Json.assoc "user" fields = None ->
  Json.assoc "data" fields = None ->
  hides_password (respond code fields).
Proof.
  intros Hk Hu Hd. split; [done|]. unfold returned_user. simpl.
  rewrite Hu, Hd. done.
Qed.

Lemma register_hides newId now st req :
  hides_password
    (AuthCtl.register generateToken castUser newId now st req).2.
Proof.
  unfold AuthCtl.register.
  destruct (User.findOne_email _ _ _); [by apply respond_message_hides|].
  destruct (castUser _); [|by apply respond_message_hides].
  destruct (generateToken _ _); [|by apply respond_message_hides].
  apply session_response_hides.
Qed.

Lemma login_hides now st req :
  hides_password (AuthCtl.login generateToken bcrypt_compare now st req).
Proof.
  unfold AuthCtl.login.
  destruct (User.findOne_email _ _ _); [|by apply respond_message_hides].
  destruct (AuthCtl.matchPassword _ _ _); [|by apply respond_message_hides].
  destruct (negb _); [by apply respond_message_hides|].
  destruct (generateToken _ _); [|by apply respond_message_hides].
  apply session_response_hides.
Qed.

Lemma getMe_hides st me : hides_password (AuthCtl.getMe st me).
Proof.
  unfold AuthCtl.getMe.
  destruct (User.findById _ _ _); [|by apply respond_message_hides ..].
  split; [done|]. intros u [= <-]. done.
Qed.

Lemma findById_excluded ex i db d :
  User.findById ex i db = Found d -> User.excluded d = ex.
Proof.
  unfold User.findById.
  destruct (findById i db); [|discriminate ..]. by intros [= <-].
Qed.

Lemma getMyProfile_hides {B : Type} st (req : Request B) :
  hides_password
    (ProfileCtl.getMyProfile populateCommunities populateAppliedJobs
       st req).
Proof.
  unfold ProfileCtl.getMyProfile.
  destruct (user req) as [me|]; [|by apply respond_message_hides].
  destruct (negb _); [by apply respond_message_hides|].
  destruct (User.findById _ _ _) as [d| |] eqn:Hfind;
    [|by apply respond_message_hides ..].
  apply findById_excluded in Hfind.
  split; [done|]. intros u [= <-].
  assert (Hbase : Json.has_key "password" (JObj (User.fields d)) = false).
  { apply toJSON_excluded. by rewrite Hfind. }
  assert (Hpop : forall k v fs,
            Json.has_key "password" (JObj fs) = false ->
            Json.has_key "password"
              (JObj (ProfileCtl.with_populated k v fs)) = false).
  { intros k [items|msg] fs Hfs; simpl; [|done].
    by rewrite has_key_replace_field. }
  destruct (0 <? length (User.joinedCommunities (User.raw d)))%nat,
           (0 <? length (User.appliedJobs (User.raw d)))%nat;
    auto.
Qed.

Lemma getUserProfile_hides {B : Type} st (req : Request B) :
  hides_password (ProfileCtl.getUserProfile populateCommunities st req).
Proof.
  unfold ProfileCtl.getUserProfile.
  destruct (User.findById _ _ _) as [d| |] eqn:Hfind;
    [|by apply respond_message_hides ..].
  apply findById_excluded in Hfind.
  destruct (populateCommunities _ _); [|by apply respond_message_hides].
  split; [done|]. intros u [= <-].
  rewrite has_key_replace_field. apply toJSON_excluded.
  by rewrite Hfind.
Qed.

Lemma middleware_attaches_without_password {B : Type}
    (r : mw_result B) (req : Request B) (attached : User.doc) :
  user req = None ->
  (mw_req r = req
   \/ exists id u,
        mw_req r
        = set_user req (User.load User.select_minus_password id u)) ->
  user (mw_req r) = Some attached ->
  User.loaded_password attached = None
  /\ Json.has_key "password" (User.toJSON attached) = false.
Proof.
  intros Hnone [->|(id & u & ->)] Hatt; [congruence|].
  injection Hatt as <-. split; [done|]. by apply toJSON_excluded.
Qed.

(** C9. No response carries the stored password: the responses of
    register, login, [GET /api/auth/me] and the profile reads have no
    [password] field, neither at the top nor in the user
    representation they return, and the user that either auth
    middleware attaches to a request is loaded without its password
    (reading it gives [undefined], serialising the user gives no
    [password] field). *)
Theorem password_never_returned :
  (forall newId now st req,
     hides_password
       (AuthCtl.register generateToken castUser newId now st req).2)
  /\ (forall now st req,
       hides_password
         (AuthCtl.login generateToken bcrypt_compare now st req))
  /\ (forall st me, hides_password (AuthCtl.getMe st me))
  /\ (forall st (req : Request unit),
       hides_password
         (ProfileCtl.getMyProfile populateCommunities populateAppliedJobs
            st req))
  /\ (forall st (req : Request unit),
       hides_password
         (ProfileCtl.getUserProfile populateCommunities st req))
  /\ (forall secret db (req : Request unit) attached,
       user req = None ->
       user (mw_req (Auth.authMiddleware jwt_verify secret db req))
       = Some attached ->
       User.loaded_password attached = None
       /\ Json.has_key "password" (User.toJSON attached) = false)
  /\ (forall secret db (req : Request unit) attached,
       user req = None ->
       user (mw_req (Auth.optionalAuthMiddleware jwt_verify secret db req))
       = Some attached ->
       User.loaded_password attached = None
       /\ Json.has_key "password" (User.toJSON attached) = false).
Proof.
  split; [exact register_hides|].
  split; [exact login_hides|].
  split; [exact getMe_hides|].
  split; [intros; apply getMyProfile_hides|].
  split; [intros; apply getUserProfile_hides|].
  split.
  - intros secret db req attached Hnone.
    apply (middleware_attaches_without_password _ req); [done|].
    destruct (AuthFacts.authMiddleware_reaches jwt_verify
                secret db req) as [H|(id & u & _ & H)];
      [by left|right; by eexists _, _].
  - intros secret db req attached Hnone.
    apply (middleware_attaches_without_password _ req); [done|].
    destruct (AuthFacts.optionalAuthMiddleware_reaches jwt_verify
                secret db req) as [H|(id & u & _ & H)];
      [by left|right; by eexists _, _].
Qed.

End Endpoints.

Lemma password_never_returned_witness :
  let req : Request AuthCtl.LoginBody :=
    Sample.request "id" ""
      {| AuthCtl.email := "alice@x.com";
         AuthCtl.password := Some (JStr "Alice") |} in
  let st := set_users Sample.db {[ Sample.alice_id := Sample.alice ]} in
  let r := AuthCtl.login Sample.sign Sample.compare 0 st req in
  status r = 200%nat
  /\ exists u,
       returned_user r = Some u
       /\ Json.has_key "email" u = true
       /\ Json.has_key "password" u = false.
Proof.
  cbv zeta.
  destruct (password_never_returned Sample.sign Sample.compare
              (fun u => inl u) (fun _ _ => inl []) (fun _ _ => inl [])
              Sample.verify)
    as (_ & Hlogin & _).
  specialize (Hlogin 0%Z
                (set_users Sample.db {[ Sample.alice_id := Sample.alice ]})
                (Sample.request "id" ""
                   {| AuthCtl.email := "alice@x.com";
                      AuthCtl.password := Some (JStr "Alice") |})).
  destruct Hlogin as [_ Huser].
  unfold AuthCtl.login in *. simpl in *.
  rewrite LoginFacts.singleton_find_email in *. simpl in *.
  split; [reflexivity|].
  eexists. split; [reflexivity|]. split; [reflexivity|].
  apply Huser. reflexivity.
Defined.

End PasswordFacts.

(** * Further properties of the handlers *)

(** ** Queries over a collection *)

Lemma find_map_to_list_Some {A : Type} (p : string * A -> bool)
    (m : gmap string A) (i : string) (a : A) :
  List.find p (map_to_list m) = Some (i, a) ->
  m !! i = Some a /\ p (i, a) = true.
Proof.
  intros H. apply List.find_some in H as [Hin Hp].
  split; [|done]. by apply elem_of_map_to_list, list_elem_of_In.
Qed.

Lemma find_map_to_list_None {A : Type} (p : string * A -> bool)
    (m : gmap string A) :
  List.find p (map_to_list m) = None <->
  forall i a, m !! i = Some a -> p (i, a) = false.
Proof.
  split.
  - intros H i a Hia. apply (List.find_none _ _ H (i, a)).
    by apply list_elem_of_In, elem_of_map_to_list.
  - intros H. destruct (List.find p (map_to_list m)) as [[i a]|] eqn:E;
      [|done].
    apply find_map_to_list_Some in E as [Hia Hp].
    rewrite (H _ _ Hia) in Hp. discriminate.
Qed.

(** A query that only one stored document satisfies returns it. *)
Lemma find_map_to_list_unique {A : Type} (p : string * A -> bool)
    (m : gmap string A) (i : string) (a : A) :
  m !! i = Some a -> p (i, a) = true ->
  (forall j b, m !! j = Some b -> p (j, b) = true -> j = i) ->
  List.find p (map_to_list m) = Some (i, a).
Proof.
  intros Hia Hp Huniq.
  destruct (List.find p (map_to_list m)) as [[j b]|] eqn:E.
  - apply find_map_to_list_Some in E as [Hjb Hpj].
    pose proof (Huniq _ _ Hjb Hpj) as ->. congruence.
  - rewrite find_map_to_list_None in E. rewrite (E _ _ Hia) in Hp.
    discriminate.
Qed.

#[global] Arguments User.id : simpl never.
#[global] Arguments oid : simpl never.

(** A route parameter that names a stored document finds it. *)
Lemma findById_names {A B : Type} (req : Request B) (p id : string)
    (coll : gmap string A) (d : A) :
  MoreFacts.names req p id coll d ->
  exists raw,
    default "" (params req !! p) = raw
    /\ oid raw = id
    /\ findById raw coll = Found d.
Proof.
  intros ((raw & Hp & Hfmt & Hraw) & Hd). exists raw. rewrite Hp.
  split; [done|]. split; [done|].
  unfold findById. by rewrite Hfmt, Hraw, Hd.
Qed.

(** The signed-in user is found by the [id] of the attached document. *)
Lemma findById_signed_in st me usr :
  MoreFacts.signed_in st me usr ->
  User.findById User.default_projection (User.id me) (users st)
  = Found (User.load User.default_projection (User.id me) usr).
Proof.
  intros [Hfmt Hme]. unfold User.findById, findById.
  by rewrite Hfmt, !oid_id, Hme.
Qed.

(** ** Notifications *)

Module NotificationFacts.
Import CommunityAdmin MoreFacts.

Lemma toggleNotifications_names {B : Type} st me (req : Request B) cid c :
  names req "id" cid (communities st) c ->
  toggleNotifications st me req =
    if negb (includes (User.id me) (Community.members c)) then
      (st, not_a_member)
    else
      match User.findById User.default_projection (User.id me) (users st) with
      | CastError => (st, community_not_found)
      | Missing =>
          (st, server_error
                 "Cannot read properties of null (reading 'notifiedCommunities')")
      | Found user =>
          if includes cid (User.notifiedCommunities (User.raw user)) then
            (set_users st
               (User.findByIdAndUpdate (User.id me)
                  (fun u => User.set_joined u (User.joinedCommunities u)
                              (pull cid (User.notifiedCommunities u)))
                  (users st)),
             notifications "Notifications disabled")
          else
            (set_users st
               (User.findByIdAndUpdate (User.id me)
                  (fun u => User.set_joined u (User.joinedCommunities u)
                              (addToSet cid (User.notifiedCommunities u)))
                  (users st)),
             notifications "Notifications enabled")
      end.
Proof.
  intros Hn. apply findById_names in Hn as (raw & Hp & Hsame & Hc).
  unfold toggleNotifications. rewrite Hp, Hc, Hsame. reflexivity.
Qed.

(** X1. Toggling the notifications of a community one is not a member of
    is refused with HTTP 400 and writes nothing. *)
Theorem toggleNotifications_requires_membership {B : Type}
    st me (req : Request B) cid c :
  names req "id" cid (communities st) c ->
  User.id me ∉ Community.members c ->
  toggleNotifications st me req = (st, not_a_member)
  /\ status not_a_member = 400%nat.
Proof.
  intros Hn Hnot. rewrite (toggleNotifications_names _ _ _ _ _ Hn).
  apply includes_not_elem_of in Hnot. by rewrite Hnot.
Qed.

Lemma toggleNotifications_requires_membership_witness :
  toggleNotifications Sample.db (Sample.session Sample.carol_id Sample.carol)
    (Sample.request "id" Sample.club_id tt)
  = (Sample.db, not_a_member).
Proof.
  refine (proj1 (toggleNotifications_requires_membership Sample.db _ _
                   Sample.club_id Sample.club _ _)).
  - on_sample.
  - not_listed.
Defined.

(** X2. For a member whose record is stored, the toggle flips whether the
    community is among the user's notified communities and says which
    state it reached; it writes nothing else: the communities, posts and
    jobs, the other users and the user's joined communities stay as they
    were. *)
Theorem toggleNotifications_flips {B : Type} st me (req : Request B)
    cid c usr :
  names req "id" cid (communities st) c ->
  signed_in st me usr ->
  User.id me ∈ Community.members c ->
  let st' := (toggleNotifications st me req).1 in
  let r := (toggleNotifications st me req).2 in
  communities st' = communities st
  /\ posts st' = posts st
  /\ jobs st' = jobs st
  /\ (forall i, i <> User.id me -> users st' !! i = users st !! i)
  /\ exists usr',
       users st' !! User.id me = Some usr'
       /\ User.joinedCommunities usr' = User.joinedCommunities usr
       /\ includes cid (User.notifiedCommunities usr')
          = negb (includes cid (User.notifiedCommunities usr))
       /\ r = notifications
                (if includes cid (User.notifiedCommunities usr')
                 then "Notifications enabled" else "Notifications disabled").
Proof.
  intros Hn Hme Hmem. cbv zeta.
  rewrite (toggleNotifications_names _ _ _ _ _ Hn).
  apply includes_elem_of in Hmem. rewrite Hmem. simpl negb. cbv iota.
  rewrite (findById_signed_in _ _ _ Hme). destruct Hme as [Hfmt Husr].
  simpl User.raw.
  destruct (includes cid (User.notifiedCommunities usr)) eqn:Hinc; simpl.
  - repeat split; try done.
    + intros i Hi.
      by rewrite findByIdAndUpdate_lookup, decide_False by by rewrite oid_id.
    + rewrite findByIdAndUpdate_lookup, decide_True, Husr by apply oid_id.
      simpl. eexists. split; [done|]. simpl.
      rewrite JobFacts.includes_pull. done.
  - repeat split; try done.
    + intros i Hi.
      by rewrite findByIdAndUpdate_lookup, decide_False by by rewrite oid_id.
    + rewrite findByIdAndUpdate_lookup, decide_True, Husr by apply oid_id.
      simpl. eexists. split; [done|]. simpl.
      rewrite JobFacts.includes_addToSet. done.
Qed.

Lemma toggleNotifications_flips_witness :
  (toggleNotifications Sample.db (Sample.session Sample.bob_id Sample.bob)
     (Sample.request "id" Sample.club_id tt)).2
  = notifications "Notifications disabled".
Proof.
  destruct (toggleNotifications_flips Sample.db
              (Sample.session Sample.bob_id Sample.bob)
              (Sample.request "id" Sample.club_id tt)
              Sample.club_id Sample.club Sample.bob)
    as (_ & _ & _ & _ & usr' & _ & _ & Hinc & ->).
  - on_sample.
  - split; run.
  - listed.
  - rewrite Hinc. reflexivity.
Defined.

(** X3. Joining switches notifications on and leaving takes away the
    right to toggle them: for a stored user who was not a member, the
    first toggle after the join answers "Notifications disabled"; and
    after a successful leave the toggle is refused with HTTP 400. *)
Theorem notifications_follow_membership {B : Type}
    st (req : Request CommunityCtl.Body) (req' : Request B) me cid c usr :
  Facts.acts_on st req (User.id me) cid c ->
  params req' !! "id" = Some cid ->
  signed_in st me usr ->
  (User.id me ∉ Community.members c ->
     (toggleNotifications (CommunityCtl.joinCommunity st req).1 me req').2
     = notifications "Notifications disabled")
  /\ (User.id me ∈ Community.members c ->
      CommunityCtl.onlyModeratorGuard (User.id me) c = false ->
      let st1 := (CommunityCtl.leaveCommunity st req).1 in
      toggleNotifications st1 me req' = (st1, not_a_member)).
Proof.
  intros Hact Hp' [Hfmt Husr].
  pose proof Hact as (Hcfmt%routed_isObjectId & _).
  split.
  - intros Hnot.
    rewrite (CommunityFacts.joinCommunity_acts_on _ _ _ _ _ Hact).
    apply includes_not_elem_of in Hnot. rewrite Hnot. cbv zeta. simpl.
    erewrite toggleNotifications_names.
    2:{ split; [exact (routed_canonical _ _ _ Hp' Hcfmt)|]. simpl.
        apply lookup_insert_eq. }
    simpl.
    assert (Hin : includes (User.id me)
                    (Community.members c ++ [User.id me]) = true).
    { apply includes_elem_of, elem_of_app. right. apply list_elem_of_here. }
    rewrite Hin. simpl negb. cbv iota.
    unfold User.findById, findById. rewrite Hfmt, oid_id. simpl.
    rewrite findByIdAndUpdate_lookup, decide_True, Husr by apply oid_id.
    simpl. rewrite JobFacts.includes_addToSet. done.
  - intros Hin Hguard. cbv zeta.
    rewrite (CommunityFacts.leaveCommunity_acts_on _ _ _ _ _ Hact).
    apply includes_elem_of in Hin. rewrite Hin, Hguard. cbv zeta. simpl.
    erewrite toggleNotifications_names.
    2:{ split; [exact (routed_canonical _ _ _ Hp' Hcfmt)|]. simpl.
        apply lookup_insert_eq. }
    simpl.
    assert (Hout : includes (User.id me)
                     (pull (User.id me) (Community.members c)) = false)
      by apply JobFacts.includes_pull.
    rewrite Hout. done.
Qed.

Lemma notifications_follow_membership_witness :
  let me := Sample.session Sample.carol_id Sample.carol in
  let req := Sample.request "id" Sample.club_id
               (Sample.body_of Sample.carol_id) in
  (toggleNotifications (CommunityCtl.joinCommunity Sample.db req).1 me
     (Sample.request "id" Sample.club_id tt)).2
  = notifications "Notifications disabled".
Proof.
  cbv zeta.
  refine (proj1 (notifications_follow_membership Sample.db _ _
                   (Sample.session Sample.carol_id Sample.carol)
                   Sample.club_id Sample.club Sample.carol _ _ _) _).
  - on_sample.
  - run.
  - split; run.
  - not_listed.
Defined.

End NotificationFacts.

(** ** Creating and updating communities *)

Module AdminFacts.
Import CommunityAdmin MoreFacts.

Section Create.

Variable castCommunity : Community.t -> Community.t + string.

(** X4. A community name that is already in use, once trimmed as the
    schema trims names, is refused with HTTP 400 and nothing is
    written. *)
Theorem createCommunity_name_taken newId now st me
    (req : Request CreateBody) cid c :
  communities st !! cid = Some c ->
  Community.name c = trim (new_name (body req)) ->
  createCommunity castCommunity newId now st me req = (st, name_taken)
  /\ status name_taken = 400%nat.
Proof.
  intros Hc Hname. unfold createCommunity, findOne_name.
  destruct (List.find _ _) as [found|] eqn:E; [done|].
  rewrite find_map_to_list_None in E. specialize (E _ _ Hc). simpl in E.
  rewrite Hname, String.eqb_refl in E. discriminate.
Qed.

(** X5. With a name that, once trimmed as the schema trims names, no
    stored community has, and valid data, [createCommunity] stores a
    community whose only member and only moderator is its creator, adds
    it to the creator's joined and notified communities, leaves the other
    communities as they were and keeps the invariant that moderators are
    members. *)
Theorem createCommunity_creates newId now st me
    (req : Request CreateBody) usr :
  keeps_roster castCommunity ->
  (forall cid c, communities st !! cid = Some c ->
     Community.name c <> trim (new_name (body req))) ->
  communities st !! newId = None ->
  users st !! User.id me = Some usr ->
  (exists c, castCommunity
      {| Community.name := new_name (body req);
         Community.description := new_description (body req);
         Community.image := default "" (new_image (body req));
         Community.tags := default [] (new_tags (body req));
         Community.isPopular := false;
         Community.members := [User.id me];
         Community.moderators := [User.id me];
         Community.posts := [];
         Community.events := [];
         Community.createdBy := User.id me;
         Community.createdAt := now |} = inl c) ->
  let st' := (createCommunity castCommunity newId now st me req).1 in
  status (createCommunity castCommunity newId now st me req).2 = 201%nat
  /\ (exists c,
        communities st' !! newId = Some c
        /\ Community.members c = [User.id me]
        /\ Community.moderators c = [User.id me])
  /\ (forall cid, cid <> newId ->
        communities st' !! cid = communities st !! cid)
  /\ (exists usr',
        users st' !! User.id me = Some usr'
        /\ newId ∈ User.joinedCommunities usr'
        /\ newId ∈ User.notifiedCommunities usr')
  /\ (Facts.communities_wf st -> Facts.communities_wf st').
Proof.
  intros Hkeep Hfree Hfresh Husr [c Hcast]. cbv zeta.
  unfold createCommunity, findOne_name.
  destruct (List.find _ _) as [[i found]|] eqn:E.
  { apply find_map_to_list_Some in E as [Hi Hp]. simpl in Hp.
    apply String.eqb_eq in Hp. by destruct (Hfree _ _ Hi). }
  rewrite Hcast. simpl.
  destruct (Hkeep _ _ Hcast) as [Hmem Hmod]. simpl in Hmem, Hmod.
  split; [done|]. split; [|split; [|split]].
  - exists c. by rewrite lookup_insert_eq.
  - intros cid Hne. by rewrite lookup_insert_ne.
  - rewrite findByIdAndUpdate_lookup, decide_True, Husr by apply oid_id.
    simpl. eexists. split; [done|]. simpl.
    split; apply elem_of_addToSet; by left.
  - intros Hwf cid c' Hlk. simpl in Hlk.
    apply lookup_insert_Some in Hlk as [[_ <-]|[_ Hlk]]; [|by eapply Hwf].
    unfold Facts.moderators_are_members. by rewrite Hmem, Hmod.
Qed.

End Create.

Lemma createCommunity_name_taken_witness :
  let req := Sample.request "id" ""
    {| new_name := " Club "; new_description := "Another";
       new_tags := None; new_image := None |} in
  createCommunity inl "74b0f1a2c3d4e5f60718293b" 9 Sample.db
    (Sample.session Sample.bob_id Sample.bob) req
  = (Sample.db, name_taken).
Proof.
  cbv zeta.
  refine (proj1 (createCommunity_name_taken inl _ _ Sample.db _ _
                   Sample.club_id Sample.club _ _)).
  - run.
  - reflexivity.
Defined.

Lemma createCommunity_creates_witness :
  let req := Sample.request "id" ""
    {| new_name := "Choir"; new_description := "Singing";
       new_tags := None; new_image := None |} in
  status (createCommunity inl "74b0f1a2c3d4e5f60718293b" 9 Sample.db
            (Sample.session Sample.bob_id Sample.bob) req).2 = 201%nat.
Proof.
  cbv zeta.
  refine (proj1 (createCommunity_creates inl "74b0f1a2c3d4e5f60718293b" 9
                   Sample.db (Sample.session Sample.bob_id Sample.bob)
                   _ Sample.bob _ _ _ _ _)).
  - intros d c [= <-]. done.
  - intros cid c Hlk. simpl in Hlk.
    apply lookup_singleton_Some in Hlk as [_ <-]. discriminate.
  - run.
  - run.
  - eexists. reflexivity.
Defined.

Lemma pull_singleton (x : string) : pull x [x] = [].
Proof.
  unfold pull. rewrite filter_cons, filter_nil.
  by rewrite decide_False by (intros H; by apply H).
Qed.

Section Update.

Variable saveError : Store -> string -> Community.t -> option string.

Lemma updateCommunity_names st me (req : Request UpdateBody) cid c :
  names req "id" cid (communities st) c ->
  updateCommunity saveError st me req =
    if negb (includes (User.id me) (Community.moderators c)) then
      (st, not_authorized_update)
    else
      match saveError st cid (applyUpdate (body req) c) with
      | Some message => (st, server_error message)
      | None =>
          (set_communities st
             (<[cid := applyUpdate (body req) c]> (communities st)),
           respond 200
             [("success", JBool true);
              ("data", Community.toJSON cid (applyUpdate (body req) c))])
      end.
Proof.
  intros Hn. apply findById_names in Hn as (raw & Hp & Hsame & Hc).
  unfold updateCommunity. rewrite Hp, Hc, Hsame. reflexivity.
Qed.

(** X6. A creator who is the only member of the community may leave it:
    the leave succeeds and the community stays stored with no member and
    no moderator, so that from then on every update of it is refused
    with HTTP 403, whoever asks. *)
Theorem sole_member_leaves st (req : Request CommunityCtl.Body) u cid c :
  Facts.acts_on st req u cid c ->
  Community.members c = [u] ->
  Community.moderators c = [u] ->
  let st' := (CommunityCtl.leaveCommunity st req).1 in
  (CommunityCtl.leaveCommunity st req).2 = CommunityCtl.left_community
  /\ (exists c',
        communities st' !! cid = Some c'
        /\ Community.members c' = []
        /\ Community.moderators c' = [])
  /\ (forall me (req' : Request UpdateBody),
        params req' !! "id" = Some cid ->
        updateCommunity saveError st' me req'
        = (st', not_authorized_update)).
Proof.
  intros Hact Hmem Hmod. cbv zeta.
  pose proof Hact as (Hfmt%routed_isObjectId & _).
  rewrite (CommunityFacts.leaveCommunity_acts_on _ _ _ _ _ Hact).
  unfold CommunityCtl.onlyModeratorGuard. rewrite Hmem, Hmod.
  assert (Hin : includes u [u] = true)
    by (apply includes_elem_of, list_elem_of_here).
  rewrite Hin. simpl. rewrite pull_singleton.
  split; [done|]. split.
  - eexists. split; [apply lookup_insert_eq|]. done.
  - intros me req' Hp'.
    erewrite updateCommunity_names.
    2:{ split; [exact (routed_canonical _ _ _ Hp' Hfmt)|]. simpl.
        apply lookup_insert_eq. }
    done.
Qed.

(** X7. [updateCommunity] is for moderators only and edits the
    description of a community, never its roster: anyone who is not a
    moderator gets HTTP 403 and nothing is written; and whoever asks and
    whether or not the edited community passes validation, the users,
    posts and jobs, the other communities, and the members, moderators,
    posts and creator of the community itself are unchanged, and a field
    sent as the empty string (name, description or image) keeps its old
    value. *)
Theorem updateCommunity_keeps_roster st me (req : Request UpdateBody)
    cid c :
  names req "id" cid (communities st) c ->
  let st' := (updateCommunity saveError st me req).1 in
  (User.id me ∉ Community.moderators c ->
     updateCommunity saveError st me req = (st, not_authorized_update)
     /\ status not_authorized_update = 403%nat)
  /\ users st' = users st /\ posts st' = posts st /\ jobs st' = jobs st
  /\ (forall i, i <> cid -> communities st' !! i = communities st !! i)
  /\ (exists c',
        communities st' !! cid = Some c'
        /\ Community.members c' = Community.members c
        /\ Community.moderators c' = Community.moderators c
        /\ Community.posts c' = Community.posts c
        /\ Community.createdBy c' = Community.createdBy c
        /\ (name (body req) = Some "" ->
              Community.name c' = Community.name c)
        /\ (description (body req) = Some "" ->
              Community.description c' = Community.description c)
        /\ (image (body req) = Some "" ->
              Community.image c' = Community.image c)).
Proof.
  intros Hn. cbv zeta. rewrite (updateCommunity_names _ _ _ _ _ Hn).
  destruct Hn as (_ & Hc).
  split.
  { intros Hnot. apply includes_not_elem_of in Hnot. by rewrite Hnot. }
  destruct (negb _); simpl.
  { repeat split; try done. exists c. repeat split; done. }
  destruct (saveError _ _ _); simpl.
  { repeat split; try done. exists c. repeat split; done. }
  repeat split; try done.
  - intros i Hi. by rewrite lookup_insert_ne.
  - eexists. split; [apply lookup_insert_eq|].
    unfold applyUpdate.
    cbn [Community.members Community.moderators Community.posts
         Community.createdBy Community.name Community.description
         Community.image].
    repeat split; try done; by intros ->.
Qed.

End Update.

Lemma sole_member_leaves_witness :
  let solo :=
    Community.set_members Sample.club [Sample.alice_id] in
  let st := set_communities Sample.db {[ Sample.club_id := solo ]} in
  let req := Sample.request "id" Sample.club_id
               (Sample.body_of Sample.alice_id) in
  (CommunityCtl.leaveCommunity st req).2 = CommunityCtl.left_community.
Proof.
  cbv zeta.
  refine (proj1 (sole_member_leaves (fun _ _ _ => None) _ _
                   Sample.alice_id Sample.club_id
                   (Community.set_members Sample.club [Sample.alice_id])
                   _ _ _)).
  - on_sample.
  - reflexivity.
  - reflexivity.
Defined.

Lemma updateCommunity_keeps_roster_witness :
  let req := Sample.request "id" Sample.club_id
    {| name := Some "Clubbers"; description := None; tags := None;
       image := None; isPopular := None |} in
  updateCommunity (fun _ _ _ => None) Sample.db
    (Sample.session Sample.bob_id Sample.bob) req
  = (Sample.db, not_authorized_update).
Proof.
  cbv zeta.
  refine (proj1 (proj1 (updateCommunity_keeps_roster (fun _ _ _ => None)
                          Sample.db _ _ Sample.club_id Sample.club _) _)).
  - on_sample.
  - not_listed.
Defined.

End AdminFacts.

(** ** Deleting posts *)

Module DeletePostFacts.
Import CommunityAdmin MoreFacts.

Lemma deletePost_names {B : Type} st me (req : Request B) pid post :
  names req "postId" pid (posts st) post ->
  deletePost st me req =
    if isAuthor me post then removePost st pid post
    else
      match findById (Post.community post) (communities st) with
      | CastError => (st, invalid_post_id)
      | Missing => (st, not_authorized_delete)
      | Found community =>
          if includes (User.id me) (Community.moderators community)
          then removePost st pid post
          else (st, not_authorized_delete)
      end.
Proof.
  intros Hn. apply findById_names in Hn as (raw & Hp & Hsame & Hpost).
  unfold deletePost. rewrite Hp, Hpost, Hsame. reflexivity.
Qed.

(** X8. Only the author of a post and the moderators of its community
    can delete it: anyone else gets HTTP 403 and nothing is written,
    also the user recorded as the community's creator once that user is
    no moderator. *)
Theorem deletePost_needs_author_or_moderator {B : Type}
    st me (req : Request B) pid post :
  names req "postId" pid (posts st) post ->
  isObjectId (Post.community post) = true ->
  ~ may_delete st me post ->
  deletePost st me req = (st, not_authorized_delete)
  /\ status not_authorized_delete = 403%nat.
Proof.
  intros Hn Hcomm Hnot. rewrite (deletePost_names _ _ _ _ _ Hn).
  destruct (isAuthor me post) eqn:Hauthor.
  { destruct Hnot. by left. }
  unfold findById.
  rewrite (isObjectId_format _ Hcomm), (isObjectId_oid _ Hcomm).
  destruct (communities st !! Post.community post) as [c|] eqn:Hc; [|done].
  destruct (includes (User.id me) (Community.moderators c)) eqn:Hinc; [|done].
  destruct Hnot. right. exists c. split; [done|].
  by apply includes_elem_of.
Qed.

Lemma deletePost_needs_author_or_moderator_witness :
  (* Carol founded the club, left it while alone, and is no moderator *)
  let club := {| Community.name := "Club"; Community.description := "A club";
                 Community.image := ""; Community.tags := [];
                 Community.isPopular := false;
                 Community.members := [Sample.alice_id];
                 Community.moderators := [];
                 Community.posts := [Sample.post_id]; Community.events := [];
                 Community.createdBy := Sample.carol_id;
                 Community.createdAt := 0 |} in
  let st := set_communities Sample.db {[ Sample.club_id := club ]} in
  deletePost st (Sample.session Sample.carol_id Sample.carol)
    (Sample.request "postId" Sample.post_id tt)
  = (st, not_authorized_delete).
Proof.
  cbv zeta.
  refine (proj1 (deletePost_needs_author_or_moderator _ _ _ Sample.post_id
                   Sample.hello _ _ _)).
  - on_sample.
  - reflexivity.
  - intros [H|(c & Hc & Hin)]; [discriminate H|].
    vm_compute in Hc. injection Hc as <-. simpl in Hin.
    by apply elem_of_nil in Hin.
Defined.

Lemma removePost_spec st pid post :
  isObjectId (Post.community post) = true ->
  removePost st pid post
  = (set_posts
       (set_communities st (pull_post (Post.community post) pid (communities st)))
       (delete pid (posts st)),
     post_deleted).
Proof.
  intros Hcomm. unfold removePost. rewrite (isObjectId_format _ Hcomm).
  apply isObjectId_nonempty, truthy_Some in Hcomm. by rewrite Hcomm.
Qed.

Lemma deletePost_authorized {B : Type} st me (req : Request B) pid post :
  names req "postId" pid (posts st) post ->
  isObjectId (Post.community post) = true ->
  may_delete st me post ->
  deletePost st me req
  = (set_posts
       (set_communities st (pull_post (Post.community post) pid (communities st)))
       (delete pid (posts st)),
     post_deleted).
Proof.
  intros Hn Hfmt Hmay. rewrite (deletePost_names _ _ _ _ _ Hn).
  destruct (isAuthor me post) eqn:Hauthor; [by apply removePost_spec|].
  destruct Hmay as [H|(c & Hc & Hin)]; [congruence|].
  unfold findById.
  rewrite (isObjectId_format _ Hfmt), (isObjectId_oid _ Hfmt), Hc.
  apply includes_elem_of in Hin. rewrite Hin. by apply removePost_spec.
Qed.

(** X9. When the author or a moderator deletes a post, the post leaves
    the store and the post list of its community; the other posts, the
    other communities, the roster of the community and all users are
    untouched. *)
Theorem deletePost_removes {B : Type} st me (req : Request B) pid post :
  names req "postId" pid (posts st) post ->
  isObjectId (Post.community post) = true ->
  may_delete st me post ->
  let st' := (deletePost st me req).1 in
  (deletePost st me req).2 = post_deleted
  /\ posts st' !! pid = None
  /\ (forall i, i <> pid -> posts st' !! i = posts st !! i)
  /\ users st' = users st /\ jobs st' = jobs st
  /\ (forall i, i <> Post.community post ->
        communities st' !! i = communities st !! i)
  /\ (forall c, communities st !! Post.community post = Some c ->
        exists c',
          communities st' !! Post.community post = Some c'
          /\ (pid ∉ Community.posts c')
          /\ Community.posts c' = pull pid (Community.posts c)
          /\ Community.members c' = Community.members c
          /\ Community.moderators c' = Community.moderators c).
Proof.
  intros Hn Hfmt Hmay. cbv zeta.
  rewrite (deletePost_authorized _ _ _ _ _ Hn Hfmt Hmay). simpl.
  split; [done|]. split; [apply lookup_delete_eq|].
  split; [intros i Hi; by apply lookup_delete_ne|].
  split; [done|]. split; [done|]. unfold pull_post.
  rewrite (isObjectId_oid _ Hfmt). split.
  - intros i Hi. destruct (communities st !! Post.community post); [|done].
    by rewrite lookup_insert_ne.
  - intros c Hc. rewrite Hc. eexists. split; [apply lookup_insert_eq|].
    simpl. split; [apply not_elem_of_pull|done].
Qed.

Lemma deletePost_removes_witness :
  (deletePost Sample.db (Sample.session Sample.alice_id Sample.alice)
     (Sample.request "postId" Sample.post_id tt)).2 = post_deleted.
Proof.
  refine (proj1 (deletePost_removes Sample.db _ _ Sample.post_id Sample.hello
                   _ _ _)).
  - on_sample.
  - reflexivity.
  - left. reflexivity.
Defined.

Lemma pull_absent (x : string) (l : list string) : x ∉ l -> pull x l = l.
Proof.
  induction l as [|y l IH]; intros Hx; [done|].
  apply not_elem_of_cons in Hx as [Hne Hx].
  unfold pull in *. rewrite filter_cons.
  rewrite decide_True by congruence. f_equal. by apply IH.
Qed.

Lemma pull_fresh (x : string) (l : list string) :
  x ∉ l -> pull x (l ++ [x]) = l.
Proof.
  intros Hx. unfold pull. rewrite filter_app, filter_cons, filter_nil.
  rewrite decide_False by (intros H; by apply H).
  rewrite app_nil_r. by apply pull_absent.
Qed.

(** X10. A post created by an author and then deleted by that author is
    gone without trace from the posts and from the community's post
    list, while the membership the post brought stays: the author is
    still a member of the community. *)
Theorem createPost_then_deletePost
    (castPost : Post.t -> Post.t + string) (newId : string) (now : Z)
    st (req : Request CommunityCtl.Body) (req' : Request unit)
    me display cid c post :
  keeps_refs castPost ->
  names req "id" cid (communities st) c ->
  CommunityCtl.resolveAuthor st req = Some (Some (User.id me), display) ->
  User.id me <> "" ->
  isObjectId newId = true ->
  posts st !! newId = None ->
  newId ∉ Community.posts c ->
  params req' !! "postId" = Some newId ->
  castPost
    {| Post.title := default "Post" (js_or (CommunityCtl.title (body req)) None);
       Post.content := default "" (js_or (CommunityCtl.content (body req)) None);
       Post.images := default [] (CommunityCtl.images (body req));
       Post.author := Some (User.id me);
       Post.authorName := display;
       Post.community := cid;
       Post.likes := [];
       Post.comments := [];
       Post.tags := default [] (CommunityCtl.tags (body req));
       Post.createdAt := now;
       Post.updatedAt := now |} = inl post ->
  let st1 := (CommunityCtl.createPost castPost newId now st req).1 in
  let st2 := (deletePost st1 me req').1 in
  (deletePost st1 me req').2 = post_deleted
  /\ posts st2 = posts st
  /\ exists c2,
       communities st2 !! cid = Some c2
       /\ Community.posts c2 = Community.posts c
       /\ User.id me ∈ Community.members c2.
Proof.
  intros Hkeep Hn Hr Hme Hnfmt Hfresh Hnew Hp' Hcast.
  pose proof Hn as (Hcid%routed_isObjectId & _).
  apply findById_names in Hn as (raw & Hp & Hsame & Hc).
  cbv zeta.
  destruct (Hkeep _ _ Hcast) as [Hauthor Hcomm]. simpl in Hauthor, Hcomm.
  unfold CommunityCtl.createPost. rewrite Hp, Hc, Hr, Hsame.
  apply truthy_Some in Hme. rewrite Hme.
  cbn [fmap option_fmap option_map]. rewrite oid_id.
  destruct (CommunityCtl.ensureMember st cid c (Some (User.id me)))
    as [c1 st1] eqn:Hens.
  assert (Hc1 : Community.posts c1 = Community.posts c
                /\ User.id me ∈ Community.members c1
                /\ posts st1 = posts st).
  { unfold CommunityCtl.ensureMember in Hens. rewrite Hme in Hens.
    simpl default in Hens. rewrite oid_id in Hens.
    destruct (includes (User.id me) (Community.members c)) eqn:Hinc;
      simpl in Hens; injection Hens as <- <-; simpl.
    - split; [done|]. split; [by apply includes_elem_of|done].
    - split; [done|]. split; [|done].
      apply elem_of_app. right. apply list_elem_of_here. }
  destruct Hc1 as (Hposts1 & Hmem1 & Hstore1).
  rewrite Hcast. simpl.
  erewrite deletePost_authorized.
  2:{ split; [exact (routed_canonical _ _ _ Hp' Hnfmt)|]. simpl.
      apply lookup_insert_eq. }
  2:{ by rewrite Hcomm. }
  2:{ left. unfold isAuthor. rewrite Hauthor. apply String.eqb_refl. }
  simpl. split; [done|]. split.
  - rewrite delete_insert_eq, Hstore1. by apply delete_id.
  - rewrite Hcomm. unfold pull_post.
    rewrite (isObjectId_oid _ Hcid), lookup_insert_eq.
    eexists. split; [apply lookup_insert_eq|]. simpl.
    split; [|done]. rewrite Hposts1. by apply pull_fresh.
Qed.

Lemma createPost_then_deletePost_witness :
  let me := Sample.session Sample.carol_id Sample.carol in
  let req : Request CommunityCtl.Body :=
    {| cookies := ∅; authorization := None;
       params := {[ "id" := Sample.club_id ]};
       body := Sample.body_of Sample.carol_id; user := Some me |} in
  let st1 := (CommunityCtl.createPost Sample.accept_post
                "84b0f1a2c3d4e5f60718293f" 7 Sample.db req).1 in
  posts (deletePost st1 me
           (Sample.request "postId" "84b0f1a2c3d4e5f60718293f" tt)).1
  = posts Sample.db.
Proof.
  cbv zeta.
  refine (proj1 (proj2 (createPost_then_deletePost Sample.accept_post
            "84b0f1a2c3d4e5f60718293f" 7 Sample.db _ _
            (Sample.session Sample.carol_id Sample.carol) "Carol"
            Sample.club_id Sample.club _ _ _ _ _ _ _ _ _ _))).
  - intros d p. unfold Sample.accept_post.
    destruct (String.eqb _ _); [discriminate|]. by intros [= <-].
  - on_sample.
  - run.
  - discriminate.
  - reflexivity.
  - run.
  - not_listed.
  - run.
  - reflexivity.
Defined.

End DeletePostFacts.

(** ** Application status, job removal, job listing *)

Module JobAdminFacts.
Import JobAdmin MoreFacts.

Lemma update_first_spec {A : Type} (p : A -> bool) (f : A -> A) (l : list A) :
  match update_first p f l with
  | Some l' =>
      exists before x after,
        l = (before ++ x :: after)%list
        /\ l' = (before ++ f x :: after)%list
        /\ p x = true
        /\ Forall (fun y => p y = false) before
  | None => Forall (fun y => p y = false) l
  end.
Proof.
  induction l as [|y l IH]; simpl; [constructor|].
  destruct (p y) eqn:Hy.
  - exists [], y, l. repeat split; done.
  - destruct (update_first p f l) as [l'|].
    + destruct IH as (before & x & after & -> & -> & Hx & Hb).
      exists (y :: before), x, after. repeat split; try done.
      by constructor.
    + by constructor.
Qed.

Lemma updateApplicationStatus_found st me (req : Request StatusBody)
    jid job s :
  names req "id" jid (jobs st) job ->
  new_status (body req) = Some s ->
  validStatus (Some s) = true ->
  updateApplicationStatus st me req =
    let user_id := default "" (params req !! "user_id") in
    if negb (String.eqb (Job.postedBy job) (User.id me)) then
      (st, not_authorized_status)
    else
      match update_first (fun app => String.eqb (Job.user app) user_id)
              (set_status s) (Job.applicants job) with
      | None => (st, applicant_not_found)
      | Some applicants' =>
          let st1 :=
            set_jobs st
              (<[jid := Job.set_applicants job applicants']> (jobs st)) in
          if isObjectIdFormat user_id then
            (set_users st1
               (updateOne_applied (oid user_id) jid s (users st1)),
             status_updated s)
          else (st1, job_or_user_not_found)
      end.
Proof.
  intros Hn Hs Hvalid. apply findById_names in Hn as (raw & Hp & Hsame & Hjob).
  unfold updateApplicationStatus. rewrite Hs, Hvalid, Hp.
  simpl default. rewrite Hjob, Hsame. reflexivity.
Qed.

(** X11. A status outside applied, reviewing, interview, rejected and
    accepted is refused with HTTP 400 before the job is even looked up,
    and a valid status sent by anyone but the poster of the job is
    refused with HTTP 403; neither writes anything. *)
Theorem updateApplicationStatus_guards st me (req : Request StatusBody) :
  (validStatus (new_status (body req)) = false ->
     updateApplicationStatus st me req = (st, invalid_status)
     /\ status invalid_status = 400%nat)
  /\ (forall jid job s,
        names req "id" jid (jobs st) job ->
        new_status (body req) = Some s ->
        validStatus (Some s) = true ->
        Job.postedBy job <> User.id me ->
          updateApplicationStatus st me req = (st, not_authorized_status)
          /\ status not_authorized_status = 403%nat)
  /\ (forall s, validStatus (Some s) = true <->
                 s = "applied" \/ s = "reviewing" \/ s = "interview"
                 \/ s = "rejected" \/ s = "accepted").
Proof.
  split; [|split].
  - intros Hbad. unfold updateApplicationStatus. by rewrite Hbad.
  - intros jid job s Hn Hs Hvalid Hne.
    rewrite (updateApplicationStatus_found _ _ _ _ _ _ Hn Hs Hvalid).
    cbv zeta. apply String.eqb_neq in Hne. by rewrite Hne.
  - intros s. unfold validStatus, statuses. simpl.
    rewrite !orb_true_iff, !String.eqb_eq. intuition congruence.
Qed.

Lemma updateApplicationStatus_guards_witness :
  updateApplicationStatus Sample.db
    (Sample.session Sample.bob_id Sample.bob)
    (Sample.request "id" Sample.job_id {| new_status := Some "hired" |})
  = (Sample.db, invalid_status)
  /\ updateApplicationStatus Sample.db
       (Sample.session Sample.bob_id Sample.bob)
       (Sample.request "id" Sample.job_id {| new_status := Some "accepted" |})
     = (Sample.db, not_authorized_status).
Proof.
  split.
  - refine (proj1 (proj1 (updateApplicationStatus_guards Sample.db _ _) _)).
    reflexivity.
  - refine (proj1 (proj1 (proj2 (updateApplicationStatus_guards Sample.db _ _))
                     Sample.job_id Sample.clerk "accepted" _ _ _ _)).
    + on_sample.
    + reflexivity.
    + reflexivity.
    + discriminate.
Defined.

(** X12. When the poster sets a valid status for an applicant, the
    applicants of the job keep their number, order and every other
    field; exactly the first entry of that applicant takes the new
    status. *)
Theorem updateApplicationStatus_sets st me (req : Request StatusBody)
    jid job s uid :
  names req "id" jid (jobs st) job ->
  new_status (body req) = Some s ->
  validStatus (Some s) = true ->
  Job.postedBy job = User.id me ->
  params req !! "user_id" = Some uid ->
  isObjectIdFormat uid = true ->
  JobCtl.hasApplied uid job = true ->
  let st' := (updateApplicationStatus st me req).1 in
  (updateApplicationStatus st me req).2 = status_updated s
  /\ exists job' before entry after,
       jobs st' !! jid = Some job'
       /\ Job.applicants job = (before ++ entry :: after)%list
       /\ Job.applicants job' = (before ++ set_status s entry :: after)%list
       /\ Job.user entry = uid
       /\ Forall (fun a => Job.user a <> uid) before.
Proof.
  intros Hn Hs Hvalid Hposter Hu Hfmt Happlied. cbv zeta.
  rewrite (updateApplicationStatus_found _ _ _ _ _ _ Hn Hs Hvalid).
  rewrite Hu. simpl default. cbv zeta.
  rewrite Hposter, String.eqb_refl. simpl negb. cbv iota.
  pose proof (update_first_spec
                (fun app => String.eqb (Job.user app) uid)
                (set_status s) (Job.applicants job)) as Hspec.
  destruct (update_first _ _ _) as [l'|].
  - destruct Hspec as (before & x & after & Hl & -> & Hx & Hb).
    rewrite Hfmt. simpl. split; [done|].
    eexists _, before, x, after.
    split; [apply lookup_insert_eq|]. simpl.
    repeat split; try done.
    + by apply String.eqb_eq.
    + eapply Forall_impl; [exact Hb|]. intros a Ha. simpl in Ha.
      by apply String.eqb_neq.
  - exfalso. apply JobFacts.hasApplied_spec in Happlied
      as (app & Hin & Happ).
    rewrite Forall_forall in Hspec. specialize (Hspec _ Hin). simpl in Hspec.
    rewrite Happ, String.eqb_refl in Hspec. discriminate.
Qed.

Lemma updateApplicationStatus_sets_witness :
  let req : Request StatusBody :=
    {| cookies := ∅; authorization := None;
       params := {[ "id" := Sample.job_id; "user_id" := Sample.bob_id ]};
       body := {| new_status := Some "interview" |}; user := None |} in
  (updateApplicationStatus Sample.db
     (Sample.session Sample.alice_id Sample.alice) req).2
  = status_updated "interview".
Proof.
  cbv zeta.
  refine (proj1 (updateApplicationStatus_sets Sample.db _ _ Sample.job_id
                   Sample.clerk "interview" Sample.bob_id _ _ _ _ _ _ _)).
  - on_sample.
  - reflexivity.
  - reflexivity.
  - reflexivity.
  - run.
  - reflexivity.
  - reflexivity.
Defined.

Lemma update_first_fresh {A : Type} (p : A -> bool) (f : A -> A)
    (before : list A) (x : A) (after : list A) :
  Forall (fun y => p y = false) before -> p x = true ->
  update_first p f (before ++ x :: after)%list
  = Some (before ++ f x :: after)%list.
Proof.
  intros Hb Hx. induction Hb as [|y before Hy Hb IH]; simpl.
  - by rewrite Hx.
  - by rewrite Hy, IH.
Qed.



Lemma deleteJob_names {B : Type} st me (req : Request B) jid job :
  names req "id" jid (jobs st) job ->
  deleteJob st me req =
    if negb (String.eqb (Job.postedBy job) (User.id me)) then
      (st, not_authorized_delete)
    else (set_jobs st (delete jid (jobs st)), job_removed).
Proof.
  intros Hn. apply findById_names in Hn as (raw & Hp & Hsame & Hjob).
  unfold deleteJob. rewrite Hp, Hjob, Hsame. reflexivity.
Qed.

(** X14. Only its poster can delete a job (anyone else gets HTTP 403 and
    nothing is written).  The deletion removes the job and nothing else:
    the users keep it in their saved and applied jobs, and from then on
    the save toggle answers HTTP 404 for it, so that a user who had saved
    the job can no longer unsave it. *)
Theorem deleteJob_leaves_references {B : Type} st me (req : Request B)
    jid job :
  names req "id" jid (jobs st) job ->
  let st' := (deleteJob st me req).1 in
  (Job.postedBy job <> User.id me ->
     deleteJob st me req = (st, not_authorized_delete)
     /\ status not_authorized_delete = 403%nat)
  /\ (Job.postedBy job = User.id me ->
      (deleteJob st me req).2 = job_removed
      /\ jobs st' !! jid = None
      /\ (forall i, i <> jid -> jobs st' !! i = jobs st !! i)
      /\ users st' = users st
      /\ communities st' = communities st
      /\ posts st' = posts st
      /\ (forall saver (req' : Request JobCtl.Body),
            params req' !! "id" = Some jid ->
            JobCtl.saveJob st' saver req' = (st', JobCtl.job_not_found))).
Proof.
  intros Hn. cbv zeta. rewrite (deleteJob_names _ _ _ _ _ Hn).
  destruct Hn as (Hfmt%routed_isObjectId & _). split.
  - intros Hne. apply String.eqb_neq in Hne. by rewrite Hne.
  - intros ->. rewrite String.eqb_refl. simpl.
    split; [done|]. split; [apply lookup_delete_eq|].
    split; [intros i Hi; by apply lookup_delete_ne|].
    repeat split; try done.
    intros saver req' Hp'.
    unfold JobCtl.saveJob, JobCtl.toggleSave, findById.
    rewrite Hp'. simpl.
    by rewrite (isObjectId_format _ Hfmt), (isObjectId_oid _ Hfmt),
         lookup_delete_eq.
Qed.

Lemma deleteJob_leaves_references_witness :
  let st' := (deleteJob Sample.db
                (Sample.session Sample.alice_id Sample.alice)
                (Sample.request "id" Sample.job_id tt)).1 in
  JobCtl.saveJob st' (Sample.session Sample.bob_id Sample.bob)
    (Sample.request "id" Sample.job_id
       {| JobCtl.resume := None; JobCtl.coverLetter := None |})
  = (st', JobCtl.job_not_found).
Proof.
  cbv zeta.
  refine (proj2 (proj2 (proj2 (proj2 (proj2 (proj2
            (proj2 (deleteJob_leaves_references Sample.db
                      (Sample.session Sample.alice_id Sample.alice)
                      (Sample.request "id" Sample.job_id tt)
                      Sample.job_id Sample.clerk _) _))))))
            _ _ _).
  - on_sample.
  - reflexivity.
  - run.
Defined.

(** *** Listing *)

Lemma ceil_div_covers (total l : Z) :
  (0 < l)%Z -> (total <= ceil_div total l * l)%Z
  /\ ((ceil_div total l - 1) * l < total)%Z.
Proof.
  intros Hl. unfold ceil_div.
  pose proof (Z.div_mod (- total) l ltac:(lia)) as Hdm.
  pose proof (Z.mod_pos_bound (- total) l Hl) as Hmod.
  nia.
Qed.

Section Listing.

Variable findJobs : Store -> Filter -> SortSpec -> list json.
Variable skipLimit : Z -> Z -> list json -> list json + string.
Hypothesis Hcursor : pages_by_skip_limit skipLimit.


End Listing.


End JobAdminFacts.

(** ** Sessions: register, login, authenticate *)

Module SessionFacts.
Import AuthCtl Auth MoreFacts.

Section Sessions.

Variable generateToken : Z -> string -> string + string.
Variable bcrypt_compare : string -> string -> bool.
Variable castUser : User.t -> User.t + string.
Variable jwt_verify : string -> option string -> jwt_result.

Lemma findOne_email_Some ex e coll d :
  User.findOne_email ex e coll = Some d ->
  coll !! User._id d = Some (User.raw d)
  /\ User.email (User.raw d) = User.setEmail e
  /\ User.excluded d = ex.
Proof.
  unfold User.findOne_email.
  destruct (List.find _ _) as [[i u]|] eqn:E; [|discriminate].
  intros [= <-]. apply find_map_to_list_Some in E as [Hi Hp].
  simpl in *. by apply String.eqb_eq in Hp.
Qed.

Lemma findOne_email_None ex e coll :
  User.findOne_email ex e coll = None <->
  forall i u, coll !! i = Some u -> User.email u <> User.setEmail e.
Proof.
  unfold User.findOne_email. split.
  - destruct (List.find _ _) as [[i u]|] eqn:E; [discriminate|].
    intros _ j v Hj. rewrite find_map_to_list_None in E.
    specialize (E _ _ Hj). simpl in E. by apply String.eqb_neq.
  - intros H. destruct (List.find _ _) as [[i u]|] eqn:E; [|done].
    apply find_map_to_list_Some in E as [Hi Hp]. simpl in Hp.
    apply String.eqb_eq in Hp. by destruct (H _ _ Hi).
Qed.

(** X16. Registering with an email that, trimmed and in lower case as
    the schema stores emails, some stored user already has is refused
    with HTTP 400, nothing is written and no cookie is set. *)
Theorem register_email_taken newId now st (req : Request RegisterBody) i u :
  users st !! i = Some u ->
  User.email u = User.setEmail (reg_email (body req)) ->
  register generateToken castUser newId now st req
  = (st, respond 400 [("message", JStr "User already exists")]).
Proof.
  intros Hi Hemail. unfold register.
  destruct (User.findOne_email _ _ _) eqn:E; [done|].
  rewrite findOne_email_None in E. by destruct (E _ _ Hi).
Qed.

(** X17. [register] keeps emails unique: if no two stored users share an
    email and the record stored for the request carries the email of the
    request as the schema's setters make it (trimmed, in lower case),
    then no two users share an email after the call, whatever it
    answers. *)
Theorem register_keeps_emails_unique newId now st
    (req : Request RegisterBody) :
  (forall stored,
     castUser (new_user (body req) now) = inl stored ->
     User.email stored = User.setEmail (reg_email (body req))) ->
  emails_unique (users st) ->
  emails_unique
    (users (register generateToken castUser newId now st req).1).
Proof.
  intros Hkeep Huniq. unfold register.
  destruct (User.findOne_email _ _ _) eqn:E; [done|].
  rewrite findOne_email_None in E.
  destruct (castUser _) as [stored|]; [|done].
  pose proof (Hkeep _ eq_refl) as Hcast.
  assert (Hst : forall i j u v,
            (<[newId := stored]> (users st)) !! i = Some u ->
            (<[newId := stored]> (users st)) !! j = Some v ->
            User.email u = User.email v -> i = j).
  { intros i j u v Hi Hj Heq.
    apply lookup_insert_Some in Hi as [[<- <-]|[Hni Hi]];
      apply lookup_insert_Some in Hj as [[<- <-]|[Hnj Hj]]; try done.
    - destruct (E _ _ Hj). congruence.
    - destruct (E _ _ Hi). congruence.
    - by eapply Huniq. }
  by destruct (generateToken _ _).
Qed.

(** X18. A user who has just registered can log in: when the stored
    record carries the email of the request as the schema's setters make
    it and its hash matches the password, a login at any later time with
    that password and an email that the setters map to the same address
    succeeds (HTTP 200) for the user just created, with the token issued
    at the time of the login, and returns the user object [register]
    returned. *)
Theorem register_then_login newId now now' st (req : Request RegisterBody)
    (req' : Request LoginBody) stored token token' :
  User.findOne_email User.default_projection (reg_email (body req))
    (users st) = None ->
  castUser (new_user (body req) now) = inl stored ->
  User.email stored = User.setEmail (reg_email (body req)) ->
  bcrypt_compare (reg_password (body req)) (User.password stored) = true ->
  generateToken now newId = inl token ->
  generateToken now' newId = inl token' ->
  User.setEmail (email (body req'))
  = User.setEmail (reg_email (body req)) ->
  password (body req') = Some (JStr (reg_password (body req))) ->
  let st' := (register generateToken castUser newId now st req).1 in
  (register generateToken castUser newId now st req).2
  = session_response 201 (User.load [] newId stored) token
  /\ login generateToken bcrypt_compare now' st' req'
     = session_response 200
         (User.load User.select_plus_password newId stored) token'
  /\ user_of (login generateToken bcrypt_compare now' st' req')
     = user_of (register generateToken castUser newId now st req).2.
Proof.
  intros Hnone Hcast Hemail Hmatch Htok Htok' He Hp. cbv zeta.
  unfold register. rewrite Hnone, Hcast, Htok.
  cbn [fst snd users set_users].
  split; [done|].
  assert (Hfind : User.findOne_email User.select_plus_password
                    (email (body req')) (<[newId := stored]> (users st))
                  = Some (User.load User.select_plus_password newId stored)).
  { unfold User.findOne_email.
    erewrite (find_map_to_list_unique _ _ newId stored); [done| | |].
    - apply lookup_insert_eq.
    - simpl. rewrite He, Hemail. apply String.eqb_refl.
    - intros j b Hj Hpj. simpl in Hpj. apply String.eqb_eq in Hpj.
      apply lookup_insert_Some in Hj as [[<- _]|[_ Hj]]; [done|].
      pose proof (proj1 (findOne_email_None _ _ _) Hnone) as Hothers.
      destruct (Hothers _ _ Hj). congruence. }
  unfold login.
  change (users (set_users st (<[newId:=stored]> (users st))))
    with (<[newId:=stored]> (users st)).
  rewrite Hfind. cbn [User.raw User.load User._id].
  rewrite Hp. cbn [matchPassword]. rewrite Hmatch, Htok'. done.
Qed.

(** X19. The session a login opens is accepted: when the verifier maps
    the issued token back to the user id, a request that returns the
    cookies set by a successful login passes the mandatory middleware
    with that user attached (without the password), and [getMe] then
    answers HTTP 200 with the user's id and email. *)
Theorem login_then_authenticate {B : Type} secret now st
    (req : Request LoginBody) (req' : Request B) found entered token :
  User.findOne_email User.select_plus_password (email (body req))
    (users st) = Some found ->
  password (body req) = Some (JStr entered) ->
  bcrypt_compare entered (User.password (User.raw found)) = true ->
  generateToken now (User._id found) = inl token ->
  token <> "" ->
  truthy secret = true ->
  jwt_verify token secret = Decoded (User._id found) ->
  isObjectId (User._id found) = true ->
  returns_cookies (login generateToken bcrypt_compare now st req) req' ->
  let attached :=
    User.load User.select_minus_password (User._id found) (User.raw found) in
  authMiddleware jwt_verify secret (users st) req'
  = continue (set_user req' attached)
  /\ status (getMe st attached) = 200%nat
  /\ exists fields,
       user_of (getMe st attached) = Some (JObj fields)
       /\ Json.assoc "id" fields = Some (JStr (User._id found))
       /\ Json.assoc "email" fields
          = Some (JStr (User.setEmail (email (body req))))
       /\ Json.assoc "password" fields = None.
Proof.
  intros Hfind Hp Hmatch Htok Hne Hsecret Hverify Hid Hcookies. cbv zeta.
  pose proof (findOne_email_Some _ _ _ _ Hfind) as (Hstored & Hemail & _).
  pose proof (isObjectId_format _ Hid) as Hfmt.
  pose proof (isObjectId_oid _ Hid) as Hsame.
  assert (Hlogin : login generateToken bcrypt_compare now st req
                   = session_response 200 found token).
  { unfold login. rewrite Hfind, Hp. cbn [matchPassword].
    by rewrite Hmatch, Htok. }
  rewrite Hlogin in Hcookies.
  assert (Hcookie : cookies req' !! "token" = Some (JStr token)).
  { apply Hcookies. simpl. apply list_elem_of_here. }
  assert (Hextract : extractToken req' = Some (JStr token)).
  { unfold extractToken, or_value. rewrite Hcookie.
    assert (Ht : truthy_value (Some (JStr token)) = true)
      by by apply truthy_Some in Hne.
    by rewrite !Ht. }
  assert (Hme : User.findById User.default_projection
                  (User.id
                     (User.load User.select_minus_password (User._id found)
                        (User.raw found))) (users st)
                = Found (User.load User.default_projection (User._id found)
                           (User.raw found))).
  { unfold User.findById, findById, User.id. cbn [User._id User.load].
    by rewrite !Hsame, Hfmt, Hstored. }
  split; [|split].
  - rewrite (AuthFacts.authMiddleware_string _ _ _ _ _ Hextract Hne).
    rewrite Hsecret. simpl. rewrite Hverify.
    unfold User.findById, findById. by rewrite Hfmt, Hsame, Hstored.
  - unfold getMe. by rewrite Hme.
  - unfold getMe. rewrite Hme. simpl. eexists. split; [reflexivity|].
    simpl. by rewrite Hemail.
Qed.

(** X20. The optional middleware attaches the identity the mandatory one
    would: whenever the mandatory middleware lets a request through, the
    optional one passes on the same request with the same user. *)
Theorem optional_agrees_with_mandatory {B : Type} secret db
    (req : Request B) :
  mw_outcome_of (authMiddleware jwt_verify secret db req) = Continue ->
  optionalAuthMiddleware jwt_verify secret db req
  = authMiddleware jwt_verify secret db req.
Proof.
  unfold authMiddleware, optionalAuthMiddleware.
  destruct (negb (truthy_value (extractToken req))); [discriminate|].
  destruct (extractToken req) as [[| | |token| |]|]; try discriminate.
  destruct (negb (truthy secret)); [discriminate|].
  destruct (jwt_verify _ _); [|by destruct (token_error_response _ _)].
  destruct (User.findById _ _ _); simpl; try done.
Qed.

End Sessions.

Lemma one_user_db (i : string) (u : User.t) (e : string) :
  User.findOne_email User.select_plus_password e {[ i := u ]}
  = if String.eqb (User.email u) (User.setEmail e)
    then Some (User.load User.select_plus_password i u) else None.
Proof.
  unfold User.findOne_email. rewrite map_to_list_singleton. simpl.
  by destruct (String.eqb (User.email u) (User.setEmail e)).
Qed.

(** The toy [User.create]: the setters of the email and a toy hash. *)
Lemma hashed_spec :
  forall u stored,
    Fixtures.hashed u = inl stored ->
    User.email stored = User.setEmail (User.email u)
    /\ User.password stored = "$2a$10$hash-of-" +:+ User.password u.
Proof. intros u stored [= <-]. done. Qed.

Lemma register_email_taken_witness :
  let req : Request RegisterBody :=
    Sample.request "id" ""
      {| reg_name := "Al"; reg_email := "Alice@X.com ";
         reg_password := "secret1" |} in
  register Sample.sign inl "64b0f1a2c3d4e5f60718293d" 3 Sample.db req
  = (Sample.db, respond 400 [("message", JStr "User already exists")]).
Proof.
  cbv zeta.
  refine (register_email_taken Sample.sign inl _ _ Sample.db _
            Sample.alice_id Sample.alice _ _).
  - run.
  - reflexivity.
Defined.

Lemma register_keeps_emails_unique_witness :
  let req : Request RegisterBody :=
    Sample.request "id" ""
      {| reg_name := "Dan"; reg_email := "Dan@X.com";
         reg_password := "secret1" |} in
  let st := set_users Sample.db {[ Sample.alice_id := Sample.alice ]} in
  emails_unique
    (users (register Sample.sign Fixtures.hashed
              "64b0f1a2c3d4e5f60718293d" 3 st req).1).
Proof.
  cbv zeta.
  refine (register_keeps_emails_unique Sample.sign Fixtures.hashed
            _ _ _ _ _ _).
  - intros stored [= <-]. reflexivity.
  - intros i j u v Hi Hj _. simpl in Hi, Hj.
    apply lookup_singleton_Some in Hi as [<- _].
    apply lookup_singleton_Some in Hj as [<- _]. reflexivity.
Defined.

Lemma register_then_login_witness :
  let req : Request RegisterBody :=
    Sample.request "id" ""
      {| reg_name := "Dan"; reg_email := "Dan@X.com";
         reg_password := "secret1" |} in
  let req' : Request LoginBody :=
    Sample.request "id" ""
      {| email := "dan@x.com"; password := Some (JStr "secret1") |} in
  let st := set_users Sample.db {[ Sample.alice_id := Sample.alice ]} in
  status
    (login Sample.sign Sample.compare 9
       (register Sample.sign Fixtures.hashed "64b0f1a2c3d4e5f60718293d" 3
          st req).1
       req') = 200%nat.
Proof.
  cbv zeta.
  match goal with
  | |- status (login _ _ ?n' (register _ ?h ?i ?n ?st ?req).1 ?req') = _ =>
      destruct (register_then_login Sample.sign Sample.compare h i n n' st
                  req req' _ _ _ eq_refl eq_refl eq_refl eq_refl eq_refl
                  eq_refl eq_refl eq_refl)
        as (_ & Hlogin & _)
  end.
  rewrite Hlogin. reflexivity.
Defined.

Lemma login_then_authenticate_witness :
  let req : Request LoginBody :=
    Sample.request "id" ""
      {| email := "alice@x.com"; password := Some (JStr "Alice") |} in
  let req' : Request unit :=
    {| cookies :=
         {[ "token" := JStr "tok-64b0f1a2c3d4e5f60718293a.5";
            "auth_token" := JStr "tok-64b0f1a2c3d4e5f60718293a.5" ]};
       authorization := None; params := ∅; body := tt; user := None |} in
  let st := set_users Sample.db {[ Sample.alice_id := Sample.alice ]} in
  authMiddleware Sample.verify (Some "s3cret") (users st) req'
  = continue (set_user req' (Sample.session Sample.alice_id Sample.alice)).
Proof.
  cbv zeta.
  refine (proj1 (login_then_authenticate Sample.sign Sample.compare
                   Sample.verify (Some "s3cret") 5
                   (set_users Sample.db {[ Sample.alice_id := Sample.alice ]})
                   (Sample.request "id" ""
                      {| email := "alice@x.com";
                         password := Some (JStr "Alice") |})
                   _
                   (User.load User.select_plus_password Sample.alice_id
                      Sample.alice)
                   "Alice"
                   "tok-64b0f1a2c3d4e5f60718293a.5" _ _ _ _ _ _ _ _ _)).
  - simpl. rewrite one_user_db. reflexivity.
  - reflexivity.
  - reflexivity.
  - reflexivity.
  - discriminate.
  - reflexivity.
  - reflexivity.
  - reflexivity.
  - intros k v Hin. simpl in Hin.
    unfold login in Hin. simpl in Hin. rewrite one_user_db in Hin.
    simpl in Hin.
    apply elem_of_cons in Hin as [[= -> ->]|Hin]; [run|].
    apply elem_of_cons in Hin as [[= -> ->]|Hin]; [run|].
    by apply elem_of_nil in Hin.
Defined.

Lemma optional_agrees_with_mandatory_witness :
  let req : Request unit :=
    {| cookies := {[ "token" := JStr "tok-64b0f1a2c3d4e5f60718293a" ]};
       authorization := None; params := ∅; body := tt; user := None |} in
  optionalAuthMiddleware Sample.verify (Some "s3cret") (users Sample.db) req
  = authMiddleware Sample.verify (Some "s3cret") (users Sample.db) req.
Proof.
  cbv zeta.
  refine (optional_agrees_with_mandatory Sample.verify _ _ _ _).
  run.
Defined.

End SessionFacts.

(** ** What no sequence of requests can do *)

Module HistoryFacts.
Import MoreFacts.

Lemma no_new_moderator_refl st : no_new_moderator st st.
Proof. intros cid c Hc. by exists c. Qed.

Lemma no_new_moderator_same st st' :
  communities st' = communities st -> no_new_moderator st st'.
Proof. intros Heq cid c Hc. exists c. by rewrite Heq. Qed.

(** Overwriting one community with a version of itself that has no more
    moderators. *)
Lemma no_new_moderator_insert st st' id old new :
  communities st !! id = Some old ->
  communities st' = <[id := new]> (communities st) ->
  Community.moderators new ⊆ Community.moderators old ->
  Community.createdBy new = Community.createdBy old ->
  no_new_moderator st st'.
Proof.
  intros Hold Heq Hsub Hby cid c Hc. rewrite Heq.
  destruct (decide (id = cid)) as [->|Hne].
  - exists new. rewrite lookup_insert_eq. split; [done|].
    rewrite Hold in Hc. injection Hc as <-. done.
  - exists c. by rewrite lookup_insert_ne.
Qed.

Lemma no_new_moderator_trans st1 st2 st3 :
  no_new_moderator st1 st2 -> no_new_moderator st2 st3 ->
  no_new_moderator st1 st3.
Proof.
  intros H12 H23 cid c Hc.
  destruct (H12 _ _ Hc) as (c2 & Hc2 & Hsub2 & Hby2).
  destruct (H23 _ _ Hc2) as (c3 & Hc3 & Hsub3 & Hby3).
  exists c3. split; [done|]. split; [set_solver|congruence].
Qed.

Lemma ensureMember_no_new_moderator st id c author :
  communities st !! id = Some c ->
  no_new_moderator st (CommunityCtl.ensureMember st id c author).2
  /\ communities (CommunityCtl.ensureMember st id c author).2 !! id
     = Some (CommunityCtl.ensureMember st id c author).1
  /\ Community.moderators (CommunityCtl.ensureMember st id c author).1
     = Community.moderators c
  /\ Community.createdBy (CommunityCtl.ensureMember st id c author).1
     = Community.createdBy c.
Proof.
  intros Hc. unfold CommunityCtl.ensureMember.
  destruct (truthy author);
    [|split; [apply no_new_moderator_refl|done]].
  destruct (negb _); [|split; [apply no_new_moderator_refl|done]].
  simpl. split; [|split; [apply lookup_insert_eq|done]].
  eapply no_new_moderator_insert; [exact Hc|done|done|done].
Qed.

Lemma subseteq_pull (x : string) (l : list string) : pull x l ⊆ l.
Proof. intros y Hy. by apply elem_of_pull in Hy as [Hy _]. Qed.

Lemma handled_no_new_moderator st st' :
  handled st st' -> no_new_moderator st st'.
Proof.
  intros H. destruct H.
  - (* join *)
    unfold CommunityCtl.joinCommunity.
    repeat case_match; simpl; try apply no_new_moderator_refl.
    eapply no_new_moderator_insert; [eassumption|done|done|done].
  - (* leave *)
    unfold CommunityCtl.leaveCommunity.
    repeat case_match; simpl; try apply no_new_moderator_refl.
    eapply no_new_moderator_insert; [eassumption|done| |done].
    simpl. apply subseteq_pull.
  - (* createPost *)
    unfold CommunityCtl.createPost, findById.
    destruct (isObjectIdFormat _); [|apply no_new_moderator_refl].
    destruct (communities st !! _) as [c|] eqn:Hc;
      [|apply no_new_moderator_refl].
    destruct (CommunityCtl.resolveAuthor st req) as [[author0 display]|];
      [|apply no_new_moderator_refl].
    pose proof (ensureMember_no_new_moderator st _ c
                  (if truthy author0 then author0 else None) Hc)
      as (Hno & Hc1 & Hmod & Hby).
    destruct (CommunityCtl.ensureMember _ _ _ _) as [c1 st1].
    simpl in Hno, Hc1, Hmod, Hby.
    destruct (castPost _); simpl; [|done].
    eapply no_new_moderator_trans; [exact Hno|].
    eapply no_new_moderator_insert; [exact Hc1|done|done|done].
  - (* like *)
    apply no_new_moderator_same. unfold CommunityCtl.likePost.
    by repeat case_match.
  - (* unlike *)
    apply no_new_moderator_same. unfold CommunityCtl.unlikePost.
    by repeat case_match.
  - (* createCommunity *)
    unfold CommunityAdmin.createCommunity.
    destruct (CommunityAdmin.findOne_name _ _);
      [apply no_new_moderator_refl|].
    destruct (castCommunity _); [|apply no_new_moderator_refl].
    intros cid c Hc. exists c. split; [|done].
    cbn [fst communities set_users set_communities].
    rewrite lookup_insert_ne; [done|]. intros ->. congruence.
  - (* updateCommunity *)
    unfold CommunityAdmin.updateCommunity, findById.
    destruct (isObjectIdFormat _); [|apply no_new_moderator_refl].
    destruct (communities st !! _) as [c|] eqn:Hc;
      [|apply no_new_moderator_refl].
    destruct (negb _); [apply no_new_moderator_refl|].
    destruct (saveError _ _ _); [apply no_new_moderator_refl|].
    eapply no_new_moderator_insert; [exact Hc|done|done|done].
  - (* toggleNotifications *)
    apply no_new_moderator_same. unfold CommunityAdmin.toggleNotifications.
    by repeat case_match.
  - (* deletePost *)
    assert (Hrm : forall pid post,
              no_new_moderator st (CommunityAdmin.removePost st pid post).1).
    { intros pid post. unfold CommunityAdmin.removePost.
      repeat case_match; simpl; try apply no_new_moderator_refl;
        try (by apply no_new_moderator_same).
      unfold CommunityAdmin.pull_post.
      destruct (communities st !! oid (Post.community post)) eqn:Hc;
        [|by apply no_new_moderator_same].
      eapply no_new_moderator_insert; [eassumption|done|done|done]. }
    unfold CommunityAdmin.deletePost.
    repeat case_match; simpl; try apply no_new_moderator_refl; apply Hrm.
  - (* applyForJob *)
    apply no_new_moderator_same. unfold JobCtl.applyForJob.
    by repeat case_match.
  - (* saveJob *)
    apply no_new_moderator_same. unfold JobCtl.saveJob, JobCtl.toggleSave.
    by repeat case_match; simplify_eq.
  - (* deleteJob *)
    apply no_new_moderator_same. unfold JobAdmin.deleteJob.
    by repeat case_match.
  - (* updateApplicationStatus *)
    apply no_new_moderator_same. unfold JobAdmin.updateApplicationStatus.
    by repeat case_match.
  - (* register *)
    apply no_new_moderator_same. unfold AuthCtl.register.
    by repeat case_match.
Qed.

(** X21. No sequence of requests appoints a moderator or deletes a
    community: after any number of handled requests every community is
    still stored, its moderators are among those it had and its creator
    is the same.  In particular a community without moderators never
    gets one again. *)
Theorem moderators_never_grow st st' :
  rtc handled st st' ->
  no_new_moderator st st'
  /\ (forall cid c, communities st !! cid = Some c ->
        Community.moderators c = [] ->
        exists c', communities st' !! cid = Some c'
                   /\ Community.moderators c' = []).
Proof.
  intros Hrtc.
  assert (Hno : no_new_moderator st st').
  { induction Hrtc as [st|st st1 st2 Hstep _ IH];
      [apply no_new_moderator_refl|].
    eapply no_new_moderator_trans; [|exact IH].
    by apply handled_no_new_moderator. }
  split; [done|].
  intros cid c Hc Hnil. destruct (Hno _ _ Hc) as (c' & Hc' & Hsub & _).
  exists c'. split; [done|]. rewrite Hnil in Hsub.
  destruct (Community.moderators c') as [|m ms]; [done|].
  specialize (Hsub m (list_elem_of_here _ _)). by apply elem_of_nil in Hsub.
Qed.

Lemma moderators_never_grow_witness :
  let req := Sample.request "id" Sample.club_id
               (Sample.body_of Sample.carol_id) in
  let st1 := (CommunityCtl.joinCommunity Sample.db req).1 in
  let st2 := (CommunityCtl.leaveCommunity st1 req).1 in
  no_new_moderator Sample.db st2.
Proof.
  cbv zeta.
  refine (proj1 (moderators_never_grow Sample.db _ _)).
  eapply rtc_l; [apply handled_join|].
  eapply rtc_l; [apply handled_leave|].
  apply rtc_refl.
Defined.

End HistoryFacts.

(** ** Saved external jobs *)

Module SavedJobsFacts.
Import SavedJobs.

Lemma deleteOne_spec (p : saved -> bool) (coll : list saved) :
  match deleteOne p coll with
  | Some coll' =>
      exists before d after,
        coll = (before ++ d :: after)%list
        /\ coll' = (before ++ after)%list
        /\ p d = true
        /\ Forall (fun e => p e = false) before
  | None => Forall (fun e => p e = false) coll
  end.
Proof.
  induction coll as [|e coll IH]; simpl; [constructor|].
  destruct (p e) eqn:He.
  - exists [], e, coll. repeat split; done.
  - destruct (deleteOne p coll) as [coll'|].
    + destruct IH as (before & d & after & -> & -> & Hd & Hb).
      exists (e :: before), d, after. repeat split; try done.
      by constructor.
    + by constructor.
Qed.

Lemma holds_false (u a : string) (coll : list saved) :
  holds u a coll = false <-> Forall (fun d => same_job u a d = false) coll.
Proof.
  unfold holds. induction coll as [|d coll IH]; simpl.
  - split; [constructor|done].
  - rewrite orb_false_iff, IH, Forall_cons. tauto.
Qed.

Lemma findOne_None (p : saved -> bool) (coll : list saved) :
  findOne p coll = None <-> Forall (fun d => p d = false) coll.
Proof.
  unfold findOne. induction coll as [|d coll IH]; simpl.
  - split; [constructor|done].
  - rewrite Forall_cons. destruct (p d); [|tauto].
    split; [discriminate|intros [? _]; discriminate].
Qed.

Lemma same_job_key (u a : string) (d : saved) :
  same_job u a d = true <-> (user_id d, application_url d) = (u, a).
Proof.
  unfold same_job. rewrite andb_true_iff, !String.eqb_eq.
  split; [intros [-> ->]; done|intros [= -> ->]; done].
Qed.



Lemma deleteOne_keeps_NoDup {K : Type} (f : saved -> K) (p : saved -> bool)
    (coll coll' : list saved) :
  deleteOne p coll = Some coll' ->
  NoDup (f <$> coll) -> NoDup (f <$> coll').
Proof.
  intros Hdel. pose proof (deleteOne_spec p coll) as Hspec.
  rewrite Hdel in Hspec.
  destruct Hspec as (before & d & after & -> & -> & _ & _).
  rewrite !fmap_app, fmap_cons. rewrite !NoDup_app, NoDup_cons.
  intros (Hb & Hdis & Hnd & Ha). split; [done|]. split; [|done].
  intros x Hx Hin. apply (Hdis x Hx). by right.
Qed.

Lemma NoDup_fmap_eq {K : Type} (f : saved -> K) (l : list saved) (x y : saved) :
  NoDup (f <$> l) -> x ∈ l -> y ∈ l -> f x = f y -> x = y.
Proof.
  induction l as [|z l IH]; intros Hnd Hx Hy Heq.
  - by apply elem_of_nil in Hx.
  - rewrite fmap_cons in Hnd. apply NoDup_cons in Hnd as [Hz Hnd].
    apply elem_of_cons in Hx as [->|Hx];
      apply elem_of_cons in Hy as [->|Hy]; try done.
    + destruct Hz. apply list_elem_of_fmap. by exists y.
    + destruct Hz. apply list_elem_of_fmap. by exists x.
    + by apply IH.
Qed.



Lemma deleteOne_first (p : saved -> bool) (before : list saved) (d : saved)
    (after : list saved) :
  Forall (fun e => p e = false) before -> p d = true ->
  deleteOne p (before ++ d :: after) = Some (before ++ after)%list.
Proof.
  intros Hb Hd. induction Hb as [|e before He Hb IH]; simpl.
  - by rewrite Hd.
  - by rewrite He, IH.
Qed.

Lemma deleteOne_none (p : saved -> bool) (coll : list saved) :
  Forall (fun e => p e = false) coll -> deleteOne p coll = None.
Proof.
  intros H. induction H as [|e coll He H IH]; simpl; [done|].
  by rewrite He, IH.
Qed.

(** X24. Deleting a saved job by user and job id answers HTTP 404 and
    changes nothing when the user has no such saved job; otherwise it
    removes exactly the first such document and leaves every other
    document, in particular those of other users, in place. *)
Theorem deleteSaved_removes_one coll userId jobId :
  userId <> "" -> jobId <> "" ->
  (Forall (fun e => same_saved userId jobId e = false) coll ->
     (deleteSaved coll userId jobId).1 = coll
     /\ status (deleteSaved coll userId jobId).2 = 404%nat)
  /\ (forall before d after,
        coll = (before ++ d :: after)%list ->
        Forall (fun e => same_saved userId jobId e = false) before ->
        user_id d = userId -> job_id d = jobId ->
          (deleteSaved coll userId jobId).1 = (before ++ after)%list
          /\ status (deleteSaved coll userId jobId).2 = 200%nat).
Proof.
  intros Hu Hj. apply truthy_Some in Hu, Hj.
  unfold deleteSaved. rewrite Hu, Hj. simpl. split.
  - intros Hnone. by rewrite (deleteOne_none _ _ Hnone).
  - intros before d after -> Hb Hdu Hdj.
    rewrite (deleteOne_first _ before d after Hb); [done|].
    unfold same_saved. by rewrite Hdu, Hdj, !String.eqb_refl.
Qed.

Lemma deleteSaved_removes_one_witness :
  let mine := {| _id := "a"; user_id := "u1"; application_url := "x";
                 job_id := "job-7"; saved_at := 7; rest := [] |} in
  let other := {| _id := "b"; user_id := "u2"; application_url := "x";
                  job_id := "job-7"; saved_at := 8; rest := [] |} in
  (deleteSaved [other; mine] "u1" "job-7").1 = [other].
Proof.
  cbv zeta.
  refine (proj1 (proj2 (deleteSaved_removes_one _ "u1" "job-7" _ _)
                   [_]
                   {| _id := "a"; user_id := "u1"; application_url := "x";
                      job_id := "job-7"; saved_at := 7; rest := [] |}
                   [] eq_refl _ eq_refl eq_refl)).
  - discriminate.
  - discriminate.
  - repeat constructor.
Defined.

End SavedJobsFacts.

(** ** Experience and education *)

Module ProfileEntryFacts.
Import ProfileEntries MoreFacts.

(** What [findIndex] and [splice] do to a list where the first entry
    with the id sits between [before] and [after]. *)
Lemma splice_by_id_first id before e after :
  Forall (fun x => exists i, entry_id x = Some i /\ i <> id) before ->
  entry_id e = Some id ->
  splice_by_id id (before ++ e :: after)%list
  = inl (Some (before ++ after)%list).
Proof.
  intros Hbefore He. induction Hbefore as [|x l (i & Hx & Hi) _ IH]; simpl.
  - by rewrite He, String.eqb_refl.
  - rewrite Hx. apply String.eqb_neq in Hi. by rewrite Hi, IH.
Qed.

Lemma splice_by_id_none id l :
  Forall (fun x => exists i, entry_id x = Some i /\ i <> id) l ->
  splice_by_id id l = inl None.
Proof.
  induction 1 as [|x l (i & Hx & Hi) _ IH]; simpl; [done|].
  rewrite Hx. apply String.eqb_neq in Hi. by rewrite Hi, IH.
Qed.

Section Entries.

Context {Fields : Type}.
Variable castEntry : Fields -> string -> json + string.

(** X25. Adding an entry and deleting it again restores the list: when
    the sub-document made of the request carries the new [_id], an
    [addExperience] followed by a [deleteExperience] of that [_id] puts
    the experience of the signed-in user back to what it was, and both
    calls answer HTTP 200; the same holds of [addEducation] and
    [deleteEducation]. *)
Theorem add_then_delete_entry {B : Type} newId st me usr
    (req : Request Fields) (req' : Request B) e :
  signed_in st me usr ->
  castEntry (body req) newId = inl e ->
  entry_id e = Some newId ->
  (params req' !! "exp_id" = Some newId ->
   let st1 := (addExperience castEntry newId st me req).1 in
   (addExperience castEntry newId st me req).2
   = entries (e :: User.experience usr)
   /\ (deleteExperience st1 me req').2 = entries (User.experience usr)
   /\ users (deleteExperience st1 me req').1 !! User.id me = Some usr)
  /\ (params req' !! "edu_id" = Some newId ->
      let st1 := (addEducation castEntry newId st me req).1 in
      (addEducation castEntry newId st me req).2
      = entries (e :: User.education usr)
      /\ (deleteEducation st1 me req').2 = entries (User.education usr)
      /\ users (deleteEducation st1 me req').1 !! User.id me = Some usr).
Proof.
  intros Hme Hcast He.
  pose proof (findById_signed_in _ _ _ Hme) as Hfind.
  destruct Hme as [Hfmt Hme].
  split; intros Hparam; cbv zeta.
  - unfold addExperience. rewrite Hfind, Hcast.
    cbn [fst snd User.raw User.load]. split; [done|].
    unfold deleteExperience, User.findById, findById.
    cbn [users set_users]. rewrite Hfmt, oid_id, lookup_insert_eq, Hparam.
    cbn [User.raw User.load User.experience set_experience from_option
         splice_by_id].
    rewrite He, String.eqb_refl. cbn [fst snd users set_users].
    split; [done|]. rewrite lookup_insert_eq. f_equal. by destruct usr.
  - unfold addEducation. rewrite Hfind, Hcast.
    cbn [fst snd User.raw User.load]. split; [done|].
    unfold deleteEducation, User.findById, findById.
    cbn [users set_users]. rewrite Hfmt, oid_id, lookup_insert_eq, Hparam.
    cbn [User.raw User.load User.education set_education from_option
         splice_by_id].
    rewrite He, String.eqb_refl. cbn [fst snd users set_users].
    split; [done|]. rewrite lookup_insert_eq. f_equal. by destruct usr.
Qed.

End Entries.

Lemma add_then_delete_entry_witness :
  let me := Sample.session Sample.alice_id Sample.alice in
  let req := Sample.request "unused" "" "Nurse" in
  let req' := Sample.request "exp_id" "e9" tt in
  (deleteExperience (addExperience Fixtures.entry "e9" Sample.db me req).1
     me req').2
  = entries [].
Proof.
  refine (proj1 (proj2 (proj1 (add_then_delete_entry Fixtures.entry "e9"
                   Sample.db (Sample.session Sample.alice_id Sample.alice)
                   Sample.alice (Sample.request "unused" "" "Nurse")
                   (Sample.request "exp_id" "e9" tt) _ _ eq_refl eq_refl)
                   eq_refl))).
  split; reflexivity.
Defined.

(** X26. [deleteExperience] removes exactly one entry, the first with
    the id of the route: if that entry sits between [before], whose
    entries have other ids, and [after], the stored list and the list
    answered (HTTP 200) are [before] followed by [after]; likewise
    [deleteEducation]. *)
Theorem delete_entry_removes_first {B : Type} st me usr (req : Request B)
    id before e after :
  signed_in st me usr ->
  fresh_entry_id id before ->
  entry_id e = Some id ->
  (params req !! "exp_id" = Some id ->
   User.experience usr = (before ++ e :: after)%list ->
   (deleteExperience st me req).2 = entries (before ++ after)%list
   /\ User.experience
        <$> users (deleteExperience st me req).1 !! User.id me
      = Some (before ++ after)%list)
  /\ (params req !! "edu_id" = Some id ->
      User.education usr = (before ++ e :: after)%list ->
      (deleteEducation st me req).2 = entries (before ++ after)%list
      /\ User.education
           <$> users (deleteEducation st me req).1 !! User.id me
         = Some (before ++ after)%list).
Proof.
  intros Hme Hbefore He.
  pose proof (findById_signed_in _ _ _ Hme) as Hfind.
  split; intros Hparam Hl.
  - unfold deleteExperience. rewrite Hfind, Hparam.
    cbn [User.raw User.load]. change (default "" (Some id)) with id.
    rewrite Hl.
    rewrite (splice_by_id_first _ _ _ _ Hbefore He).
    cbn [fst snd users set_users]. split; [done|].
    by rewrite lookup_insert_eq.
  - unfold deleteEducation. rewrite Hfind, Hparam.
    cbn [User.raw User.load]. change (default "" (Some id)) with id.
    rewrite Hl.
    rewrite (splice_by_id_first _ _ _ _ Hbefore He).
    cbn [fst snd users set_users]. split; [done|].
    by rewrite lookup_insert_eq.
Qed.

Lemma delete_entry_removes_first_witness :
  (deleteExperience Fixtures.veterans
     (Sample.session Sample.alice_id Fixtures.veteran)
     (Sample.request "exp_id" "e2" tt)).2
  = entries [JObj [("_id", JStr "e1"); ("title", JStr "Clerk")]].
Proof.
  refine (proj1 (proj1 (delete_entry_removes_first Fixtures.veterans
                   (Sample.session Sample.alice_id Fixtures.veteran)
                   Fixtures.veteran (Sample.request "exp_id" "e2" tt)
                   "e2" [JObj [("_id", JStr "e1"); ("title", JStr "Clerk")]]
                   (JObj [("_id", JStr "e2"); ("title", JStr "Teacher")])
                   [] _ _ eq_refl) eq_refl eq_refl)).
  - split; reflexivity.
  - constructor; [|constructor]. exists "e1". split; [reflexivity|].
    discriminate.
Defined.

(** X27. Deleting an entry that is not there changes nothing: when every
    entry of the list has an [_id] other than the one of the route,
    [deleteExperience] and [deleteEducation] answer HTTP 404 and leave
    the state as it is. *)
Theorem delete_entry_unknown {B : Type} st me usr (req : Request B) id :
  signed_in st me usr ->
  (params req !! "exp_id" = Some id ->
   fresh_entry_id id (User.experience usr) ->
   deleteExperience st me req
   = (st, respond 404 [("message", JStr "Experience not found")]))
  /\ (params req !! "edu_id" = Some id ->
      fresh_entry_id id (User.education usr) ->
      deleteEducation st me req
      = (st, respond 404 [("message", JStr "Education not found")])).
Proof.
  intros Hme. pose proof (findById_signed_in _ _ _ Hme) as Hfind.
  split; intros Hparam Hfresh.
  - unfold deleteExperience. rewrite Hfind, Hparam.
    cbn [User.raw User.load]. change (default "" (Some id)) with id.
    by rewrite (splice_by_id_none _ _ Hfresh).
  - unfold deleteEducation. rewrite Hfind, Hparam.
    cbn [User.raw User.load]. change (default "" (Some id)) with id.
    by rewrite (splice_by_id_none _ _ Hfresh).
Qed.

Lemma delete_entry_unknown_witness :
  deleteEducation Fixtures.veterans
    (Sample.session Sample.alice_id Fixtures.veteran)
    (Sample.request "edu_id" "e3" tt)
  = (Fixtures.veterans,
     respond 404 [("message", JStr "Education not found")]).
Proof.
  refine (proj2 (delete_entry_unknown Fixtures.veterans
                   (Sample.session Sample.alice_id Fixtures.veteran)
                   Fixtures.veteran (Sample.request "edu_id" "e3" tt)
                   "e3" _) eq_refl _).
  - split; reflexivity.
  - constructor; [|constructor; [|constructor]].
    + exists "e1". split; [reflexivity|discriminate].
    + exists "e2". split; [reflexivity|discriminate].
Defined.

End ProfileEntryFacts.

(** ** Password reset *)

Module PasswordResetFacts.
Import PasswordReset MoreFacts.

Lemma holds_token_spec h now u :
  holds_token h now u = true <->
  User.resetPasswordToken u = Some h
  /\ exists e, User.resetPasswordExpire u = Some e /\ (now < e)%Z.
Proof.
  unfold holds_token.
  destruct (User.resetPasswordToken u) as [t|],
           (User.resetPasswordExpire u) as [e|]; split;
    try (intros [? (? & ? & ?)]; discriminate); try discriminate.
  - intros [Ht He]%andb_true_iff. apply String.eqb_eq in Ht as ->.
    split; [done|]. exists e. split; [done|]. by apply Z.ltb_lt.
  - intros [[= ->] (e' & [= <-] & He)]. apply andb_true_iff.
    split; [apply String.eqb_refl|by apply Z.ltb_lt].
Qed.

Lemma one_user_findOne ex (i : string) (u : User.t) (e : string) :
  User.email u = User.setEmail e ->
  User.findOne_email ex e {[ i := u ]} = Some (User.load ex i u).
Proof.
  intros He. unfold User.findOne_email. rewrite map_to_list_singleton.
  simpl. by rewrite He, String.eqb_refl.
Qed.

Section Reset.

Variable sha256 : string -> string.
Variable generateToken : Z -> string -> string + string.
Variable savePassword : string -> string + string.

(** What [forgotPassword] stores for the user it finds. *)
Lemma forgotPassword_found resetToken now st (req : Request ForgotBody)
    found :
  User.findOne_email User.default_projection (email (body req)) (users st)
  = Some found ->
  forgotPassword sha256 resetToken now st req
  = (set_users st
       (<[User._id found :=
            set_reset (User.raw found) (Some (sha256 resetToken))
              (Some (now + 600000)%Z)]> (users st)),
     respond 200 [("success", JBool true);
                  ("message", JStr "Password reset token generated");
                  ("resetToken", JStr resetToken)]).
Proof. intros Hfind. unfold forgotPassword. by rewrite Hfind. Qed.

(** The user a reset finds after [forgotPassword], within the ten
    minutes. *)
Lemma findOne_token_after_forgot resetToken now now' coll i u :
  sole_holder (sha256 resetToken) i coll ->
  (now' < now + 600000)%Z ->
  let u' := set_reset u (Some (sha256 resetToken))
              (Some (now + 600000)%Z) in
  findOne_token (sha256 resetToken) now' (<[i := u']> coll)
  = Some (i, u').
Proof.
  intros Hsole Hnow u'. unfold findOne_token.
  apply find_map_to_list_unique.
  - apply lookup_insert_eq.
  - apply holds_token_spec. split; [done|].
    exists (now + 600000)%Z. by split.
  - intros j v Hj Hv. apply holds_token_spec in Hv as [Hv _].
    destruct (decide (j = i)) as [->|Hne]; [done|].
    rewrite lookup_insert_ne in Hj by done.
    by destruct (Hsole _ _ Hj Hne).
Qed.

(** X28. A forgotten password can be reset: the token [forgotPassword]
    answers, presented within ten minutes with a password the schema
    accepts, makes [resetPassword] store the new hash for the user who
    asked, clear the token and its expiry, and answer HTTP 200 with a
    session cookie for that user; no other user holding the same hashed
    token is assumed. *)
Theorem forgot_then_reset resetToken now now' st
    (req : Request ForgotBody) (req' : Request ResetBody)
    found hash token :
  User.findOne_email User.default_projection (email (body req)) (users st)
  = Some found ->
  sole_holder (sha256 resetToken) (User._id found) (users st) ->
  params req' !! "resettoken" = Some resetToken ->
  (now' < now + 10 * 60 * 1000)%Z ->
  savePassword (password (body req')) = inl hash ->
  generateToken now' (User._id found) = inl token ->
  let st1 := (forgotPassword sha256 resetToken now st req).1 in
  let r := resetPassword sha256 generateToken savePassword now' st1 req' in
  Json.get "resetToken" (payload (forgotPassword sha256 resetToken now st req).2)
  = Some (JStr resetToken)
  /\ status r.2 = 200%nat
  /\ set_cookie r.2 = [("token", token)]
  /\ users r.1 !! User._id found
     = Some (set_reset (set_password (User.raw found) hash) None None).
Proof.
  intros Hfind Hsole Hparam Hnow Hsave Htok. cbv zeta.
  rewrite (forgotPassword_found _ _ _ _ _ Hfind).
  cbn [fst snd]. split; [done|].
  unfold resetPassword. cbn [users set_users]. rewrite Hparam.
  change (default "" (Some resetToken)) with resetToken.
  change (now + 10 * 60 * 1000)%Z with (now + 600000)%Z in Hnow.
  rewrite (findOne_token_after_forgot _ _ _ _ _ _ Hsole Hnow).
  rewrite Hsave, Htok. cbn [fst snd users set_users status set_cookie].
  split; [done|]. split; [done|]. by rewrite lookup_insert_eq.
Qed.

(** X29. A reset token works once: after a [resetPassword] that answered
    HTTP 200 for a hashed token no two users held, every later
    [resetPassword] with the same token, at any time and with any
    password, is refused with HTTP 400 and changes nothing. *)
Theorem reset_token_single_use now now' st (req req' : Request ResetBody)
    resetToken :
  held_once (sha256 resetToken) (users st) ->
  params req !! "resettoken" = Some resetToken ->
  params req' !! "resettoken" = Some resetToken ->
  let r := resetPassword sha256 generateToken savePassword now st req in
  status r.2 = 200%nat ->
  resetPassword sha256 generateToken savePassword now' r.1 req'
  = (r.1, invalid_token).
Proof.
  intros Honce Hparam Hparam'. cbv zeta. unfold resetPassword.
  rewrite Hparam, Hparam'.
  change (default "" (Some resetToken)) with resetToken.
  destruct (findOne_token (sha256 resetToken) now (users st))
    as [[i u]|] eqn:Hfind; [|discriminate].
  destruct (savePassword (password (body req))) as [hash|]; [|discriminate].
  apply find_map_to_list_Some in Hfind as [Hi Hu].
  apply holds_token_spec in Hu as [Hu _].
  assert (Hnone : findOne_token (sha256 resetToken) now'
                    (<[i := set_reset (set_password u hash) None None]>
                       (users st)) = None).
  { apply find_map_to_list_None. intros j v Hj.
    destruct (holds_token (sha256 resetToken) now' v) eqn:Hv; [|done].
    apply holds_token_spec in Hv as [Hv _].
    apply lookup_insert_Some in Hj as [[<- <-]|[Hne Hj]]; [discriminate|].
    destruct Hne. symmetry. by eapply Honce. }
  destruct (generateToken now i); [|discriminate].
  intros _. cbn [fst users set_users]. by rewrite Hnone.
Qed.

(** X30. A reset token expires: presented ten minutes or more after
    [forgotPassword] answered it, the token is refused with HTTP 400 and
    the password stays as it was; no other user holding the same hashed
    token is assumed. *)
Theorem forgot_token_expires resetToken now now' st
    (req : Request ForgotBody) (req' : Request ResetBody) found :
  User.findOne_email User.default_projection (email (body req)) (users st)
  = Some found ->
  sole_holder (sha256 resetToken) (User._id found) (users st) ->
  params req' !! "resettoken" = Some resetToken ->
  (now + 10 * 60 * 1000 <= now')%Z ->
  let st1 := (forgotPassword sha256 resetToken now st req).1 in
  resetPassword sha256 generateToken savePassword now' st1 req'
  = (st1, invalid_token)
  /\ User.password <$> users st1 !! User._id found
     = Some (User.password (User.raw found)).
Proof.
  intros Hfind Hsole Hparam Hnow. cbv zeta.
  rewrite (forgotPassword_found _ _ _ _ _ Hfind). cbn [fst].
  unfold resetPassword. cbn [users set_users]. rewrite Hparam.
  change (default "" (Some resetToken)) with resetToken.
  split; [|by rewrite lookup_insert_eq].
  assert (Hnone : findOne_token (sha256 resetToken) now'
                    (<[User._id found :=
                         set_reset (User.raw found)
                           (Some (sha256 resetToken))
                           (Some (now + 600000)%Z)]> (users st)) = None).
  { apply find_map_to_list_None. intros j v Hj.
    destruct (holds_token (sha256 resetToken) now' v) eqn:Hv; [|done].
    apply holds_token_spec in Hv as [Hv (e & He & Hlt)].
    apply lookup_insert_Some in Hj as [[<- <-]|[Hne Hj]].
    - simpl in He. injection He as <-. lia.
    - by destruct (Hsole _ _ Hj (not_eq_sym Hne)). }
  by rewrite Hnone.
Qed.

End Reset.

Lemma sole_holder_singleton h (i : string) (u : User.t) :
  sole_holder h i {[ i := u ]}.
Proof.
  intros j v Hj Hne. apply lookup_singleton_Some in Hj as [<- _]. done.
Qed.

Lemma held_once_singleton h (i : string) (u : User.t) :
  held_once h {[ i := u ]}.
Proof.
  intros j k v w Hj Hk _ _.
  apply lookup_singleton_Some in Hj as [<- _].
  by apply lookup_singleton_Some in Hk as [<- _].
Qed.

Lemma forgot_then_reset_witness :
  let st1 := (forgotPassword Fixtures.digest "r4nd0m" 1000 Fixtures.solo
                (Fixtures.forgot "alice@x.com")).1 in
  status (resetPassword Fixtures.digest Sample.sign Fixtures.save_password
            2000 st1 (Fixtures.reset "r4nd0m" "newpass")).2 = 200%nat.
Proof.
  refine (proj1 (proj2 (forgot_then_reset Fixtures.digest Sample.sign
                   Fixtures.save_password "r4nd0m" 1000 2000 Fixtures.solo
                   (Fixtures.forgot "alice@x.com")
                   (Fixtures.reset "r4nd0m" "newpass")
                   (User.load User.default_projection Sample.alice_id
                      Sample.alice)
                   "$2a$10$hash-of-newpass"
                   "tok-64b0f1a2c3d4e5f60718293a.2000" _ _ eq_refl _ eq_refl
                   eq_refl))).
  - apply one_user_findOne. reflexivity.
  - apply sole_holder_singleton.
  - reflexivity.
Defined.

Lemma reset_token_single_use_witness :
  let r := resetPassword Fixtures.digest Sample.sign Fixtures.save_password
             2000 Fixtures.asked (Fixtures.reset "r4nd0m" "newpass") in
  resetPassword Fixtures.digest Sample.sign Fixtures.save_password 3000 r.1
    (Fixtures.reset "r4nd0m" "another")
  = (r.1, invalid_token).
Proof.
  refine (reset_token_single_use Fixtures.digest Sample.sign
            Fixtures.save_password 2000 3000 Fixtures.asked
            (Fixtures.reset "r4nd0m" "newpass")
            (Fixtures.reset "r4nd0m" "another") "r4nd0m" _ eq_refl eq_refl
            _).
  - apply held_once_singleton.
  - unfold resetPassword, findOne_token, Fixtures.asked.
    cbn [users set_users]. rewrite map_to_list_singleton. reflexivity.
Defined.

Lemma forgot_token_expires_witness :
  let st1 := (forgotPassword Fixtures.digest "r4nd0m" 1000 Fixtures.solo
                (Fixtures.forgot "alice@x.com")).1 in
  resetPassword Fixtures.digest Sample.sign Fixtures.save_password 601000
    st1 (Fixtures.reset "r4nd0m" "newpass")
  = (st1, invalid_token).
Proof.
  refine (proj1 (forgot_token_expires Fixtures.digest Sample.sign
                   Fixtures.save_password "r4nd0m" 1000 601000
                   Fixtures.solo (Fixtures.forgot "alice@x.com")
                   (Fixtures.reset "r4nd0m" "newpass")
                   (User.load User.default_projection Sample.alice_id
                      Sample.alice) _ _ eq_refl _)).
  - apply one_user_findOne. reflexivity.
  - apply sole_holder_singleton.
  - discriminate.
Defined.

End PasswordResetFacts.
